(** * gpio-buttons-go: debounced GPIO button manager

    A shallow embedding of [button.go].  The repository carries two
    revisions of that file:

    - the poll variant, on periph.io ([Periph] below): one goroutine per
      button blocks in [WaitForEdge], reads the level and consults a
      per-button debounce gate ([isPressed], [isDebouncePassed],
      [updateLastPress]);
    - the push variant, on go-gpiocdev ([Gpiocdev] below): the line request
      carries an event handler, a closure holding its own debounce state.

    The hardware layer (pin registry, line requests, the clock) is the
    environment: it appears as explicit oracles and clock readings.
    Logging is not modelled. *)

From Stdlib Require Import ZArith Bool Ascii String.
From stdpp Require Import base option list gmap strings pretty.

Open Scope Z_scope.

(** ** Go's [time] package, as far as [button.go] uses it *)
Module GoTime.

(** [time.Duration]: an int64 count of nanoseconds. *)
Definition Duration := Z.

Definition minDuration : Duration := - 2 ^ 63.
Definition maxDuration : Duration := 2 ^ 63 - 1.
Definition Nanosecond : Duration := 1.
Definition Millisecond : Duration := 1000000.
Definition Second : Duration := 1000000000.

(** [time.Time]: a wall clock instant (nanoseconds since January 1, year 1)
    and, for values obtained from [time.Now], a monotonic clock reading. *)
Record Time := mkTime { wall : Z; mono : option Z }.

(** The zero value [time.Time{}]. *)
Definition zeroTime : Time := mkTime 0 None.

Definition IsZero (t : Time) : bool := wall t =? 0.

(** Durations saturate instead of wrapping around. *)
Definition saturate (d : Z) : Duration :=
  if d >? maxDuration then maxDuration
  else if d <? minDuration then minDuration
  else d.

(** [t.Sub(u)]: on the monotonic readings when both carry one, on the wall
    clock otherwise. *)
Definition Sub (t u : Time) : Duration :=
  match mono t, mono u with
  | Some a, Some b => saturate (a - b)
  | _, _ => saturate (wall t - wall u)
  end.

(** [time.Since(t)] is [time.Now().Sub(t)]; [now] is the clock reading the
    call obtains. *)
Definition Since (now t : Time) : Duration := Sub now t.

(** [t.Before(u)]. *)
Definition Before (t u : Time) : bool :=
  match mono t, mono u with
  | Some a, Some b => a <? b
  | _, _ => wall t <? wall u
  end.

(** What [time.Now] can return: a monotonic reading within int64 and a wall
    clock instant after year 1. *)
Definition is_now (t : Time) : bool :=
  match mono t with
  | Some m => (0 <=? m) && (m <=? maxDuration) && (0 <? wall t)
  | None => false
  end.

(** A reading of the process clock at [ns] nanoseconds after its start, for
    a process started at wall clock instant [boot]. *)
Definition reading (boot ns : Z) : Time := mkTime (boot + ns) (Some ns).

(** The clock never runs backwards between two successive readings. *)
Definition clock_le (t u : Time) : Prop :=
  match mono t, mono u with
  | Some a, Some b => a <= b
  | _, _ => False
  end.

Definition clock_lt (t u : Time) : Prop :=
  match mono t, mono u with
  | Some a, Some b => a < b
  | _, _ => False
  end.

End GoTime.

(** ** Go's [strings] and [strconv], as far as [resolveChipLine] uses them *)
Module GoStrings.

Definition code (c : ascii) : N := N_of_ascii c.

(** Number of leading bytes that encode one white space rune in the sense
    of [unicode.IsSpace] (UTF-8), or [0] when the string does not start
    with one. *)
Definition space_prefix (cs : list N) : nat :=
  match cs with
  | c :: rest =>
      if ((9 <=? c) && (c <=? 13) || (c =? 32))%N then 1%nat
      else match c, rest with
      | 194%N, d :: _ => if ((d =? 133) || (d =? 160))%N then 2%nat else 0%nat
      | 225%N, 154%N :: 128%N :: _ => 3%nat
      | 226%N, 128%N :: e :: _ =>
          if ((128 <=? e) && (e <=? 138) || (e =? 168) || (e =? 169) || (e =? 175))%N
          then 3%nat else 0%nat
      | 226%N, 129%N :: 159%N :: _ => 3%nat
      | 227%N, 128%N :: 128%N :: _ => 3%nat
      | _, _ => 0%nat
      end
  | [] => 0%nat
  end.

(** The same for the last rune, on the reversed byte sequence. *)
Definition space_suffix (rs : list N) : nat :=
  match rs with
  | c :: rest =>
      if ((9 <=? c) && (c <=? 13) || (c =? 32))%N then 1%nat
      else match c, rest with
      | 133%N, 194%N :: _ => 2%nat
      | 160%N, 194%N :: _ => 2%nat
      | 128%N, 154%N :: 225%N :: _ => 3%nat
      | 159%N, 129%N :: 226%N :: _ => 3%nat
      | 128%N, 128%N :: 227%N :: _ => 3%nat
      | e, 128%N :: 226%N :: _ =>
          if ((128 <=? e) && (e <=? 138) || (e =? 168) || (e =? 169) || (e =? 175))%N
          then 3%nat else 0%nat
      | _, _ => 0%nat
      end
  | [] => 0%nat
  end.

Fixpoint trim_with (width : list N -> nat) (fuel : nat) (cs : list N) : list N :=
  match fuel with
  | O => cs
  | S fuel' =>
      match width cs with
      | O => cs
      | n => trim_with width fuel' (drop n cs)
      end
  end.

Definition codes (s : string) : list N := code <$> list_ascii_of_string s.
Definition uncodes (cs : list N) : string :=
  string_of_list_ascii (ascii_of_N <$> cs).

(** [strings.TrimSpace]. *)
Definition TrimSpace (s : string) : string :=
  let l := trim_with space_prefix (String.length s) (codes s) in
  let r := trim_with space_suffix (String.length s) (reverse l) in
  uncodes (reverse r).

(** [strings.Contains(s, ":")]. *)
Fixpoint ContainsColon (s : string) : bool :=
  match s with
  | EmptyString => false
  | String c rest => if Ascii.eqb c ":" then true else ContainsColon rest
  end.

(** [strings.SplitN(s, ":", 2)] on a string that contains a colon: the
    part before the first colon and the part after it. *)
Fixpoint SplitColon (s : string) : string * string :=
  match s with
  | EmptyString => (EmptyString, EmptyString)
  | String c rest =>
      if Ascii.eqb c ":" then (EmptyString, rest)
      else let '(a, b) := SplitColon rest in (String c a, b)
  end.

Definition is_digit (c : ascii) : bool := ((48 <=? code c) && (code c <=? 57))%N.

(** Value of a string of decimal digits; [None] on any other character. *)
Fixpoint digits (acc : Z) (s : string) : option Z :=
  match s with
  | EmptyString => Some acc
  | String c rest =>
      if is_digit c then digits (acc * 10 + Z.of_N (code c - 48)) rest
      else None
  end.

(** [strconv.Atoi] on a 64-bit platform: an optional sign, at least one
    decimal digit, nothing else, and a value that fits an int64.  [None]
    stands for the returned error. *)
Definition Atoi (s : string) : option Z :=
  match s with
  | EmptyString => None
  | String c rest =>
      let neg := Ascii.eqb c "-" in
      let body := if neg || Ascii.eqb c "+" then rest else s in
      match body with
      | EmptyString => None
      | _ =>
          match digits 0 body with
          | Some n =>
              let v := if neg then - n else n in
              if (- 2 ^ 63 <=? v) && (v <=? 2 ^ 63 - 1) then Some v else None
          | None => None
          end
      end
  end.

End GoStrings.

(** ** The poll variant (periph.io) *)
Module Periph.
Import GoTime.

(** [gpio.Level], [gpio.Edge] and [gpio.Pull] of periph.io. *)
Inductive Level := Low | High.
Inductive Edge := NoEdge | RisingEdge | FallingEdge | BothEdges.
Definition gpio_Pull := Z.
Definition PullNoChange : gpio_Pull := 0.
Definition Float : gpio_Pull := 1.
Definition PullDown : gpio_Pull := 2.
Definition PullUp : gpio_Pull := 3.

Definition defaultDebounceTime : Duration := 50 * Millisecond.
Definition defaultPull : gpio_Pull := PullNoChange.

(** A [ButtonCallback] is [nil] or a function; functions are named by a
    number, and calling one is recorded in the system's list of calls. *)
Definition ButtonCallback := option nat.

Record ButtonConfig := mkConfig {
  PinName : string;
  Callback : ButtonCallback;
  DebounceTime : Duration;
  Pull : gpio_Pull
}.

(** A [gpio.PinIO] handle, named by the pin it stands for. *)
Definition PinIO := string.

Record button := mkButton {
  pin : PinIO;
  config : ButtonConfig;
  lastPress : Time
}.

Inductive error :=
| ErrFindPin (name : string)
| ErrConfigurePin (name : string) (cause : string)
| ErrNoButtons.

(** The errors that report an identifier that names no pin. *)
Definition PinNotFound (e : error) : Prop :=
  match e with ErrFindPin _ => True | _ => False end.

(** The hardware layer: the pin registry ([gpioreg.ByName], [None] for
    [nil]) and the outcome of [pin.In] and [pin.Halt] ([None] for a [nil]
    error). *)
Record Host := mkHost {
  ByName : string -> option PinIO;
  In_err : PinIO -> gpio_Pull -> Edge -> option string;
  Halt_err : PinIO -> option string
}.

(** What the hardware layer holds for a pin: configured as an input with
    edge detection (the line handle is open), or halted (released). *)
Inductive PinMode :=
| InputMode (pull : gpio_Pull) (edge : Edge)
| Halted.

Record ButtonManager := mkManager {
  buttons : gmap string nat;  (* map[string]*button: names to addresses *)
  ctx_done : bool;            (* the context has been cancelled *)
  wg : nat                    (* the WaitGroup counter *)
}.

(** Where a [monitorButton] goroutine stands. *)
Inductive monitor_pc :=
| AtWait                 (* blocked in WaitForEdge(-1) *)
| Woken (edge : bool)    (* WaitForEdge returned, before isShuttingDown *)
| Handling               (* before isPressed && isDebouncePassed *)
| Accepted               (* before updateLastPress and invokeCallback *)
| Exited.                (* returned; wg.Done has run *)

Record monitor := mkMonitor { m_btn : nat; m_pc : monitor_pc }.

(** Where a caller of [Stop] stands. *)
Inductive stop_pc :=
| SCancel    (* before bm.cancel() *)
| SWait      (* in bm.wg.Wait() *)
| SHalt      (* before haltAllPins *)
| SDone.     (* Stop has returned *)

(** The manager together with what it acts on: the button objects it
    points to, the pins, its goroutines, the callers of [Stop] and the
    callback calls dispatched so far (callback, pin name). *)
Record World := mkWorld {
  bm : ButtonManager;
  heap : list button;
  pins : gmap PinIO PinMode;
  monitors : list monitor;
  stoppers : list stop_pc;
  calls : list (nat * string)
}.

(** [NewButtonManager], after a successful [host.Init]. *)
Definition NewButtonManager : World :=
  mkWorld (mkManager ∅ false 0) [] ∅ [] [] [].

Definition set_bm (f : ButtonManager -> ButtonManager) (w : World) : World :=
  mkWorld (f (bm w)) (heap w) (pins w) (monitors w) (stoppers w) (calls w).
Definition set_heap (f : list button -> list button) (w : World) : World :=
  mkWorld (bm w) (f (heap w)) (pins w) (monitors w) (stoppers w) (calls w).
Definition set_pins (f : gmap PinIO PinMode -> gmap PinIO PinMode) (w : World) : World :=
  mkWorld (bm w) (heap w) (f (pins w)) (monitors w) (stoppers w) (calls w).
Definition set_monitors (f : list monitor -> list monitor) (w : World) : World :=
  mkWorld (bm w) (heap w) (pins w) (f (monitors w)) (stoppers w) (calls w).
Definition set_stoppers (f : list stop_pc -> list stop_pc) (w : World) : World :=
  mkWorld (bm w) (heap w) (pins w) (monitors w) (f (stoppers w)) (calls w).
Definition set_calls (f : list (nat * string) -> list (nat * string)) (w : World) : World :=
  mkWorld (bm w) (heap w) (pins w) (monitors w) (stoppers w) (f (calls w)).

(** The defaults [AddButton] applies to a configuration. *)
Definition apply_defaults (config : ButtonConfig) : ButtonConfig :=
  let config :=
    if DebounceTime config =? 0
    then mkConfig (PinName config) (Callback config) defaultDebounceTime (Pull config)
    else config in
  if Pull config =? 0
  then mkConfig (PinName config) (Callback config) (DebounceTime config) defaultPull
  else config.

(** [AddButton]; the returned [None] is a [nil] error.  A pin whose [In]
    fails is left in the mode it had. *)
Definition AddButton (h : Host) (config : ButtonConfig) (w : World)
  : option error * World :=
  let config := apply_defaults config in
  match ByName h (PinName config) with
  | None => (Some (ErrFindPin (PinName config)), w)
  | Some p =>
      match In_err h p (Pull config) BothEdges with
      | Some cause => (Some (ErrConfigurePin (PinName config) cause), w)
      | None =>
          let addr := length (heap w) in
          let w := set_pins (insert p (InputMode (Pull config) BothEdges)) w in
          let w := set_heap (fun hp => hp ++ [mkButton p config zeroTime]) w in
          (None,
           set_bm (fun m => mkManager (<[PinName config := addr]> (buttons m))
                                      (ctx_done m) (wg m)) w)
      end
  end.

(** The world a successful [AddButton] leaves, for the pin [p] the name
    resolved to. *)
Definition registered (config : ButtonConfig) (p : PinIO) (w : World) : World :=
  let config' := apply_defaults config in
  mkWorld
    (mkManager (<[PinName config := length (heap w)]> (buttons (bm w)))
               (ctx_done (bm w)) (wg (bm w)))
    (heap w ++ [mkButton p config' zeroTime])
    (<[p := InputMode (Pull config') BothEdges]> (pins w))
    (monitors w) (stoppers w) (calls w).

Definition GetButtonCount (w : World) : nat := size (buttons (bm w)).

(** [Start]: one [monitorButton] goroutine per registry entry, each counted
    in the WaitGroup.  Go leaves the iteration order of a map open; the
    goroutines are listed here in the order of [map_to_list]. *)
Definition Start (w : World) : option error * World :=
  if Nat.eqb (size (buttons (bm w))) 0 then (Some ErrNoButtons, w)
  else
    let spawned := (fun kv : string * nat => mkMonitor kv.2 AtWait)
                     <$> map_to_list (buttons (bm w)) in
    let w := set_bm (fun m => mkManager (buttons m) (ctx_done m)
                                        (wg m + length spawned)%nat) w in
    (None, set_monitors (fun ms => ms ++ spawned) w).

(** [isShuttingDown]. *)
Definition isShuttingDown (w : World) : bool := ctx_done (bm w).

(** [isPressed], on the level [pin.Read] returned. *)
Definition isPressed (read : Level) : bool :=
  match read with Low => true | High => false end.

(** [isDebouncePassed], at clock reading [now]. *)
Definition isDebouncePassed (now : Time) (btn : button) : bool :=
  Since now (lastPress btn) >? DebounceTime (config btn).

(** [updateLastPress], at clock reading [now]. *)
Definition updateLastPress (now : Time) (btn : button) : button :=
  mkButton (pin btn) (config btn) now.

(** [invokeCallback]: dispatches the callback, if there is one, in a
    goroutine of its own. *)
Definition invokeCallback (btn : button) (cs : list (nat * string))
  : list (nat * string) :=
  match Callback (config btn) with
  | Some f => cs ++ [(f, PinName (config btn))]
  | None => cs
  end.

(** [haltAllPins]: [Halt] on the pin of every registry entry; a failure is
    logged and the pin is left as it was. *)
Definition halt_pin (h : Host) (hp : list button) (addr : nat)
  (ps : gmap PinIO PinMode) : gmap PinIO PinMode :=
  match hp !! addr with
  | Some btn =>
      match Halt_err h (pin btn) with
      | None => <[pin btn := Halted]> ps
      | Some _ => ps
      end
  | None => ps
  end.

Definition haltAllPins (h : Host) (w : World) : World :=
  set_pins (fun ps => foldr (fun kv => halt_pin h (heap w) kv.2) ps
                            (map_to_list (buttons (bm w)))) w.

(** [bm.cancel()]. *)
Definition cancel (w : World) : World :=
  set_bm (fun m => mkManager (buttons m) true (wg m)) w.

(** [Stop] run by a caller while no goroutine moves: it returns once the
    WaitGroup counter is zero; [None] when the caller stays blocked in
    [wg.Wait]. *)
Definition Stop (h : Host) (w : World) : option World :=
  let w := cancel w in
  if Nat.eqb (wg (bm w)) 0 then Some (haltAllPins h w) else None.

(** The body of the [monitorButton] loop for one edge, when nothing else
    runs in between: the level [pin.Read] returns, the clock reading
    inside [isDebouncePassed], the clock reading inside [updateLastPress]. *)
Record edge_event := mkEdge {
  e_level : Level;
  e_checked : Time;
  e_updated : Time
}.

Definition on_edge (ev : edge_event) (st : button * list (nat * string))
  : button * list (nat * string) :=
  let '(btn, cs) := st in
  if isPressed (e_level ev) && isDebouncePassed (e_checked ev) btn
  then (updateLastPress (e_updated ev) btn, invokeCallback btn cs)
  else (btn, cs).

Definition on_edges (evs : list edge_event) (st : button * list (nat * string))
  : button * list (nat * string) :=
  foldl (fun st ev => on_edge ev st) st evs.

(** Edges at which the level read is [Low]. *)
Definition pressed (ev : edge_event) : Prop := e_level ev = Low.

(** Clock readings of successive edges on a button whose last press is
    [last]: each edge is handled strictly after the last press recorded
    before it ([last] may still be the zero time), and the clock does not
    run backwards while it is handled. *)
Fixpoint spaced (last : Time) (evs : list edge_event) : Prop :=
  match evs with
  | [] => True
  | ev :: rest =>
      is_now (e_checked ev) = true
      /\ (last = zeroTime \/ clock_lt last (e_checked ev))
      /\ clock_le (e_checked ev) (e_updated ev)
      /\ spaced (e_updated ev) rest
  end.

(** *** The goroutines, one atomic step at a time *)

(** The steps of the system.  What the environment decides comes with the
    step: whether [WaitForEdge] reports an edge, the level read, the clock
    readings. *)
Inductive action :=
| CallAddButton (config : ButtonConfig)
| CallStart
| CallStop                          (* a caller enters Stop *)
| StopStep (i : nat)                (* caller i of Stop takes its next step *)
| Wake (i : nat) (edge : bool)      (* WaitForEdge returns in goroutine i *)
| Check (i : nat)                   (* goroutine i runs isShuttingDown *)
| Read (i : nat) (lvl : Level) (now : Time)
                                    (* isPressed && isDebouncePassed *)
| Dispatch (i : nat) (now : Time).  (* updateLastPress; invokeCallback *)

Definition set_pc (i : nat) (pc : monitor_pc) (w : World) : World :=
  set_monitors (alter (fun m => mkMonitor (m_btn m) pc) i) w.

Definition wg_Done (w : World) : World :=
  set_bm (fun m => mkManager (buttons m) (ctx_done m) (Nat.pred (wg m))) w.

(** One step; [None] when the step cannot be taken in [w]. *)
Definition step (h : Host) (a : action) (w : World) : option World :=
  match a with
  | CallAddButton config => Some (AddButton h config w).2
  | CallStart => Some (Start w).2
  | CallStop => Some (set_stoppers (fun ss => ss ++ [SCancel]) w)
  | StopStep i =>
      match stoppers w !! i with
      | Some SCancel => Some (set_stoppers (<[i := SWait]>) (cancel w))
      | Some SWait =>
          if Nat.eqb (wg (bm w)) 0
          then Some (set_stoppers (<[i := SHalt]>) w)
          else None
      | Some SHalt => Some (set_stoppers (<[i := SDone]>) (haltAllPins h w))
      | _ => None
      end
  | Wake i edge =>
      match monitors w !! i with
      | Some (mkMonitor _ AtWait) => Some (set_pc i (Woken edge) w)
      | _ => None
      end
  | Check i =>
      match monitors w !! i with
      | Some (mkMonitor _ (Woken edge)) =>
          if isShuttingDown w then Some (wg_Done (set_pc i Exited w))
          else Some (set_pc i (if edge then Handling else AtWait) w)
      | _ => None
      end
  | Read i lvl now =>
      match monitors w !! i with
      | Some (mkMonitor b Handling) =>
          match heap w !! b with
          | Some btn =>
              if isPressed lvl && isDebouncePassed now btn
              then Some (set_pc i Accepted w)
              else Some (set_pc i AtWait w)
          | None => None
          end
      | _ => None
      end
  | Dispatch i now =>
      match monitors w !! i with
      | Some (mkMonitor b Accepted) =>
          match heap w !! b with
          | Some btn =>
              let w := set_heap (<[b := updateLastPress now btn]>) w in
              Some (set_pc i AtWait (set_calls (invokeCallback btn) w))
          | None => None
          end
      | _ => None
      end
  end.

(** A run: the steps of [acts], in order. *)
Fixpoint run (h : Host) (acts : list action) (w : World) : option World :=
  match acts with
  | [] => Some w
  | a :: rest =>
      match step h a w with
      | Some w' => run h rest w'
      | None => None
      end
  end.

(** The clock reading a step takes, if it takes one. *)
Definition reading_of (a : action) : option Time :=
  match a with
  | Read _ _ now | Dispatch _ now => Some now
  | _ => None
  end.

(** The clock readings of a run, in order. *)
Definition readings (acts : list action) : list Time := omap reading_of acts.

(** Steps in which [WaitForEdge] returns. *)
Definition is_wake (a : action) : bool :=
  match a with Wake _ _ => true | _ => false end.

(** Calls of [Start]. *)
Definition is_Start (a : action) : bool :=
  match a with CallStart => true | _ => false end.

(** The steps of one call of [Stop] by a caller that becomes the [n]-th. *)
Definition stop_steps (n : nat) : list action :=
  [CallStop; StopStep n; StopStep n; StopStep n].

(** A goroutine that has not returned. *)
Definition live (m : monitor) : bool :=
  match m_pc m with Exited => false | _ => true end.

(** A goroutine that is past [isShuttingDown] and may still dispatch. *)
Definition handling (m : monitor) : bool :=
  match m_pc m with Handling | Accepted => true | _ => false end.

(** A caller of [Stop] that is past [wg.Wait]. *)
Definition past_wait (s : stop_pc) : bool :=
  match s with SHalt | SDone => true | _ => false end.

(** The number of goroutines that have not returned. *)
Definition live_count (ms : list monitor) : nat := length (List.filter live ms).

(** What holds of every state the system reaches: the WaitGroup counts
    the goroutines that have not returned; once a caller of [Stop] is past
    [bm.cancel()], the context is cancelled; once one is past [wg.Wait],
    no goroutine is between [isShuttingDown] and the dispatch; every
    registry entry points to a button. *)
Record consistent (w : World) : Prop := mkConsistent {
  wg_counts_live : wg (bm w) = live_count (monitors w);
  waited_cancelled :
    forall s, s ∈ stoppers w -> s <> SCancel -> ctx_done (bm w) = true;
  past_wait_quiet :
    forall s, s ∈ stoppers w -> past_wait s = true ->
              Forall (fun m => handling m = false) (monitors w);
  registry_in_heap :
    forall name addr, buttons (bm w) !! name = Some addr -> is_Some (heap w !! addr)
}.

(** Every last-press timestamp is the zero time or one of the clock
    readings [ts]. *)
Definition stamped (ts : list Time) (w : World) : Prop :=
  forall addr btn, heap w !! addr = Some btn ->
                   lastPress btn = zeroTime \/ lastPress btn ∈ ts.

(** A caller of [Stop] has returned. *)
Definition stop_returned (w : World) : Prop := SDone ∈ stoppers w.

(** "Pressed" as the specification words it: the level read, adjusted for
    a configured polarity. *)
Definition pressed_for_polarity (active_low : bool) (read : Level) : bool :=
  match read with Low => active_low | High => negb active_low end.

End Periph.

(** ** The push variant (go-gpiocdev) *)
Module Gpiocdev.
Import GoTime GoStrings.

Definition defaultDebounceTime : Duration := 50 * Millisecond.

Definition ButtonCallback := option nat.

(** [type Pull int], with the constants [iota] gives. *)
Definition Pull_t := Z.
Definition PullNoChange : Pull_t := 0.
Definition PullUp : Pull_t := 1.
Definition PullDown : Pull_t := 2.
Definition PullDisabled : Pull_t := 3.

Record ButtonConfig := mkConfig {
  PinName : string;
  Callback : ButtonCallback;
  DebounceTime : Duration;
  Pull : Pull_t;
  ActiveLow : bool
}.

(** The [gpiocdev.LineReqOption]s the code builds.  [WithEventHandler]
    always carries the handler of the registration that builds it. *)
Inductive LineReqOption :=
| AsInput
| WithConsumer (name : string)
| WithRisingEdge
| AsActiveLow
| WithEventHandler
| WithDebounce (period : Duration)
| WithPullUp
| WithPullDown
| WithBiasDisabled.

Inductive error :=
| ErrPinNameRequired
| ErrInvalidLineOffset (text : string)
| ErrInvalidPinName (name : string)
| ErrRequestLine (chip : string) (offset : Z) (cause : string)
| ErrNoButtons.

(** The errors of [resolveChipLine]: the identifier names no line. *)
Definition PinNotFound (e : error) : Prop :=
  match e with
  | ErrPinNameRequired | ErrInvalidLineOffset _ | ErrInvalidPinName _ => True
  | _ => False
  end.

(** A requested [gpiocdev.Line]: the options it was granted with, and
    whether [Close] has run. *)
Record Line := mkLine { l_opts : list LineReqOption; closed : bool }.

(** The character device: the outcome of [gpiocdev.RequestLine] for a chip,
    an offset and a list of options ([None] for a [nil] error). *)
Definition Chardev := string -> Z -> list LineReqOption -> option string.

(** A [button]; [last] is the variable of that name captured by the event
    handler that [AddButton] builds for it.  The field [lastPress] is
    declared and never written in this variant. *)
Record button := mkButton {
  line : option Line;
  chip : string;
  offset : Z;
  config : ButtonConfig;
  lastPress : Time;
  last : Time
}.

(** The manager (its context and WaitGroup are never used in this variant)
    and the callback calls made so far. *)
Record World := mkWorld {
  buttons : gmap string button;
  calls : list (nat * string)
}.

Definition NewButtonManager : World := mkWorld ∅ [].

(** [pullOption]; [None] is [nil]. *)
Definition pullOption (p : Pull_t) : option LineReqOption :=
  if p =? PullUp then Some WithPullUp
  else if p =? PullDown then Some WithPullDown
  else if p =? PullDisabled then Some WithBiasDisabled
  else None.

(** [resolveChipLine]. *)
Definition resolveChipLine (pinName : string) : (string * Z) + error :=
  let p := TrimSpace pinName in
  if String.eqb p "" then inr ErrPinNameRequired
  else if ContainsColon p then
    let parts := SplitColon p in
    match Atoi parts.2 with
    | None => inr (ErrInvalidLineOffset parts.2)
    | Some off => inl (parts.1, off)
    end
  else
    match Atoi p with
    | None => inr (ErrInvalidPinName p)
    | Some off => inl ("gpiochip0"%string, off)
    end.

(** [fmt.Sprintf("%s:%d", chip, offset)]. *)
Definition chip_colon_offset (chip : string) (offset : Z) : string :=
  (chip ++ ":" ++ pretty offset)%string.

(** The name the handler passes to the callback, and the key under which
    [AddButton] stores the button: [PinName], or chip and offset when
    [PinName] is empty. *)
Definition registry_key (config : ButtonConfig) (chip : string) (offset : Z) : string :=
  if String.eqb (PinName config) "" then chip_colon_offset chip offset
  else PinName config.

(** The guard of the event handler: the condition under which it returns
    at once. *)
Definition burst_guard (config : ButtonConfig) (now last : Time) : bool :=
  (DebounceTime config >? 0) && negb (IsZero last)
  && (Sub now last <=? DebounceTime config ÷ 2).

(** The event handler closure of [AddButton], run at clock reading [now]
    with [last] as it stands: the new [last] and the calls. *)
Definition handler (config : ButtonConfig) (chip : string) (offset : Z)
  (now : Time) (last : Time) (cs : list (nat * string))
  : Time * list (nat * string) :=
  if burst_guard config now last then (last, cs)
  else
    (now,
     match Callback config with
     | Some f => cs ++ [(f, registry_key config chip offset)]
     | None => cs
     end).

(** The base options of every request. *)
Definition base_options (config : ButtonConfig) : list LineReqOption :=
  [AsInput; WithConsumer "gpio-buttons-go"; WithRisingEdge]
  ++ (if ActiveLow config then [AsActiveLow] else []).

(** The option sets [AddButton] tries, in order: full, without bias,
    without debounce, base only. *)
Definition combos (config : ButtonConfig) : list (list LineReqOption) :=
  let base := base_options config in
  let deb := if DebounceTime config >? 0
             then [WithDebounce (DebounceTime config)] else [] in
  let bias := match pullOption (Pull config) with
              | Some pOpt => [pOpt]
              | None => []
              end in
  let full := base ++ [WithEventHandler] ++ deb ++ bias in
  let noBias := match pullOption (Pull config) with
                | Some _ => [base ++ [WithEventHandler] ++ deb]
                | None => []
                end in
  let noDeb := if DebounceTime config >? 0
               then [base ++ [WithEventHandler] ++ bias] else [] in
  let baseOnly := base ++ [WithEventHandler] in
  [full] ++ noBias ++ noDeb ++ [baseOnly].

(** The request loop: [line] and [reqErr] after trying the option sets in
    turn, stopping at the first request that succeeds. *)
Fixpoint request_loop (dev : Chardev) (chip : string) (offset : Z)
  (sets : list (list LineReqOption)) (line : option Line)
  (reqErr : option string) : option Line * option string :=
  match sets with
  | [] => (line, reqErr)
  | opts :: rest =>
      match dev chip offset opts with
      | None => (Some (mkLine opts false), None)
      | Some cause => request_loop dev chip offset rest None (Some cause)
      end
  end.

(** The default [AddButton] applies to a configuration. *)
Definition apply_defaults (config : ButtonConfig) : ButtonConfig :=
  if DebounceTime config =? 0
  then mkConfig (PinName config) (Callback config) defaultDebounceTime
                (Pull config) (ActiveLow config)
  else config.

(** [AddButton]. *)
Definition AddButton (dev : Chardev) (config : ButtonConfig) (w : World)
  : option error * World :=
  let config := apply_defaults config in
  match resolveChipLine (PinName config) with
  | inr err => (Some err, w)
  | inl (chip, offset) =>
      match request_loop dev chip offset (combos config) None None with
      | (_, Some cause) => (Some (ErrRequestLine chip offset cause), w)
      | (line, None) =>
          let btn := mkButton line chip offset config zeroTime zeroTime in
          let key := registry_key config chip offset in
          (None, mkWorld (<[key := btn]> (buttons w)) (calls w))
      end
  end.

(** The world a successful [AddButton] leaves, for the chip and offset the
    name resolved to and the options [opts] of the request that went
    through. *)
Definition registered (config : ButtonConfig) (chip : string) (offset : Z)
  (opts : list LineReqOption) (w : World) : World :=
  let config' := apply_defaults config in
  mkWorld
    (<[registry_key config' chip offset :=
         mkButton (Some (mkLine opts false)) chip offset config' zeroTime zeroTime]>
       (buttons w))
    (calls w).

(** The four requests of the fallback as the specification lists them, for
    a configuration with a positive window and the bias option [bias]:
    debounce and bias, debounce only, bias only, bare input. *)
Definition fallback_attempts (config : ButtonConfig) (bias : LineReqOption)
  : list (list LineReqOption) :=
  let bare := base_options config ++ [WithEventHandler] in
  [ bare ++ [WithDebounce (DebounceTime config); bias];
    bare ++ [WithDebounce (DebounceTime config)];
    bare ++ [bias];
    bare ].

(** A request with the options [opts] is refused. *)
Definition refused (dev : Chardev) (chip : string) (offset : Z)
  (opts : list LineReqOption) : Prop :=
  dev chip offset opts <> None.

Definition GetButtonCount (w : World) : nat := size (buttons w).

(** [Start]. *)
Definition Start (w : World) : option error * World :=
  if Nat.eqb (size (buttons w)) 0 then (Some ErrNoButtons, w) else (None, w).

(** [line.Close()]: releases the line; closing again only returns an
    error. *)
Definition Close (l : Line) : Line * option string :=
  (mkLine (l_opts l) true,
   if closed l then Some "line already closed"%string else None).

Definition close_button (btn : button) : button :=
  mkButton ((fun l => (Close l).1) <$> line btn) (chip btn) (offset btn)
           (config btn) (lastPress btn) (last btn).

(** [Stop]: closes the line of every registry entry. *)
Definition Stop (w : World) : World :=
  mkWorld (close_button <$> buttons w) (calls w).

(** Is the line of the entry [key] requested and not yet closed? *)
Definition line_open (w : World) (key : string) : bool :=
  match buttons w !! key with
  | Some (mkButton (Some l) _ _ _ _ _) => negb (closed l)
  | _ => false
  end.

(** The library delivers an event on the line of the entry [key], at clock
    reading [now]: the handler of that entry runs.  Only a line that is
    requested and not closed delivers events. *)
Definition deliver (key : string) (now : Time) (w : World) : option World :=
  match buttons w !! key with
  | Some btn =>
      if line_open w key then
        let '(last', cs) :=
          handler (config btn) (chip btn) (offset btn) now (last btn) (calls w) in
        Some (mkWorld
                (<[key := mkButton (line btn) (chip btn) (offset btn)
                                   (config btn) (lastPress btn) last']>
                   (buttons w))
                cs)
      else None
  | None => None
  end.

(** The events of [evs], in order, on the entry [key]. *)
Fixpoint deliver_all (key : string) (evs : list Time) (w : World) : option World :=
  match evs with
  | [] => Some w
  | now :: rest =>
      match deliver key now w with
      | Some w' => deliver_all key rest w'
      | None => None
      end
  end.

(** The calls on the manager and the events the library delivers, one
    step at a time; each call runs under the manager's lock. *)
Inductive action :=
| CallAddButton (config : ButtonConfig)
| CallStart
| CallStop
| Event (key : string) (now : Time).

Definition step (dev : Chardev) (a : action) (w : World) : option World :=
  match a with
  | CallAddButton config => Some (AddButton dev config w).2
  | CallStart => Some (Start w).2
  | CallStop => Some (Stop w)
  | Event key now => deliver key now w
  end.

Fixpoint run (dev : Chardev) (acts : list action) (w : World) : option World :=
  match acts with
  | [] => Some w
  | a :: rest =>
      match step dev a w with
      | Some w' => run dev rest w'
      | None => None
      end
  end.

Definition reading_of (a : action) : option Time :=
  match a with Event _ now => Some now | _ => None end.

Definition readings (acts : list action) : list Time := omap reading_of acts.

(** Every handler's [last] is the zero time or one of the clock readings
    [ts]. *)
Definition stamped (ts : list Time) (w : World) : Prop :=
  forall key btn, buttons w !! key = Some btn ->
                  last btn = zeroTime \/ last btn ∈ ts.

Definition is_AddButton (a : action) : bool :=
  match a with CallAddButton _ => true | _ => false end.

End Gpiocdev.

(** ** Sample data: a board, its clock, a few configurations *)
Module Sample.
Import GoTime.

(** Wall clock instant at which the sample process starts. *)
Definition boot : Z := 63900000000 * Second.

(** The clock reading [ms] milliseconds after the start of the process. *)
Definition at_ms (ms : Z) : Time := reading boot (ms * Millisecond).

(** A periph.io board with two pins; every request succeeds. *)
Definition board : Periph.Host :=
  Periph.mkHost
    (fun name => if decide (name = "GPIO11" \/ name = "GPIO1_A0")
                 then Some name else None)
    (fun _ _ _ => None)
    (fun _ => None).

Definition periph_config (name : string) (window : Duration) : Periph.ButtonConfig :=
  Periph.mkConfig name (Some 7%nat) window Periph.PullNoChange.

(** A character device on which every request succeeds. *)
Definition dev_any : Gpiocdev.Chardev := fun _ _ _ => None.

(** A character device whose lines accept no bias and no debounce option:
    only the bare input request succeeds. *)
Definition dev_bare : Gpiocdev.Chardev :=
  fun _ _ opts =>
    if forallb (fun o => match o with
                         | Gpiocdev.WithDebounce _ | Gpiocdev.WithPullUp
                         | Gpiocdev.WithPullDown | Gpiocdev.WithBiasDisabled => false
                         | _ => true
                         end) opts
    then None else Some "operation not supported"%string.

(** A character device that refuses every request. *)
Definition dev_none : Gpiocdev.Chardev := fun _ _ _ => Some "device or resource busy"%string.

Definition cdev_config (name : string) (window : Duration) (pull : Gpiocdev.Pull_t)
  : Gpiocdev.ButtonConfig :=
  Gpiocdev.mkConfig name (Some 7%nat) window pull true.

(** A button of the poll variant on pin GPIO11 that has not been pressed. *)
Definition fresh_button (window : Duration) : Periph.button :=
  Periph.mkButton "GPIO11" (periph_config "GPIO11" window) zeroTime.

(** An edge handled [ms] milliseconds after the start, level low. *)
Definition low_at (ms : Z) : Periph.edge_event :=
  Periph.mkEdge Periph.Low (at_ms ms) (at_ms ms).

(** The push variant's manager after registering line 23 with a window of
    50 ms and a pull-up on the device that grants bare inputs only. *)
Definition cdev_registered : Gpiocdev.World :=
  (Gpiocdev.AddButton dev_bare (cdev_config "23" (50 * Millisecond) Gpiocdev.PullUp)
     Gpiocdev.NewButtonManager).2.

(** The poll variant's manager after registering pin GPIO11 with a window
    of 50 ms. *)
Definition periph_registered : Periph.World :=
  (Periph.AddButton board (periph_config "GPIO11" (50 * Millisecond))
     Periph.NewButtonManager).2.

(** A session of the poll variant: register GPIO11, start, one press is
    handled and dispatched, then Stop is called; its caller cancels, the
    goroutine wakes on one more edge and returns, and Stop runs to its
    end. *)
Definition session : list Periph.action :=
  [ Periph.CallAddButton (periph_config "GPIO11" (50 * Millisecond));
    Periph.CallStart;
    Periph.Wake 0 true; Periph.Check 0;
    Periph.Read 0 Periph.Low (at_ms 10); Periph.Dispatch 0 (at_ms 10);
    Periph.CallStop; Periph.StopStep 0;
    Periph.Wake 0 true; Periph.Check 0;
    Periph.StopStep 0; Periph.StopStep 0 ].

(** What may follow it: another [Start], whose goroutine wakes on an edge
    and finds the context cancelled. *)
Definition aftermath : list Periph.action :=
  [ Periph.CallStart; Periph.Wake 1 true; Periph.Check 1 ].

(** The first steps of [session], up to the accepted press. *)
Definition session_start : list Periph.action := take 5 session.

(** The poll variant's manager after GPIO11 is registered and [Start] has
    run: one goroutine, blocked in [WaitForEdge]. *)
Definition periph_started : Periph.World := (Periph.Start periph_registered).2.

End Sample.

(** ** The timed poll variant (periph.io, the first revision of the library)

    Its goroutine looks at the context before every wait, waits for an
    edge for at most 100 ms, and checks and updates the last press in one
    critical section, with one clock reading. *)
Module Timed.
Import GoTime.

Inductive error :=
| ErrNotInitialized
| ErrFindPin (name : string)
| ErrConfigurePin (name : string) (cause : string)
| ErrNoButtons.

Record ButtonManager := mkManager {
  buttons : gmap string nat;
  ctx_done : bool;
  wg : nat;
  initialized : bool
}.

(** Where a [monitorButton] goroutine stands. *)
Inductive monitor_pc :=
| AtSelect    (* before the select on ctx.Done() *)
| AtWait      (* in WaitForEdge(100 ms) *)
| AtEdge      (* WaitForEdge returned true, before pin.Read() *)
| Exited.     (* returned; wg.Done has run *)

Record monitor := mkMonitor { m_btn : nat; m_pc : monitor_pc }.

(** The configuration and the button are those of the poll variant. *)
Record World := mkWorld {
  bm : ButtonManager;
  heap : list Periph.button;
  pins : gmap Periph.PinIO Periph.PinMode;
  monitors : list monitor;
  stoppers : list Periph.stop_pc;
  calls : list (nat * string)
}.

(** [NewButtonManager], after a successful [host.Init]. *)
Definition NewButtonManager : World :=
  mkWorld (mkManager ∅ false 0 true) [] ∅ [] [] [].

(** The zero value [ButtonManager{}]: no map, no context, no cancel
    function, [initialized] false. *)
Definition zeroManager : World :=
  mkWorld (mkManager ∅ false 0 false) [] ∅ [] [] [].

Definition set_bm (f : ButtonManager -> ButtonManager) (w : World) : World :=
  mkWorld (f (bm w)) (heap w) (pins w) (monitors w) (stoppers w) (calls w).
Definition set_monitors (f : list monitor -> list monitor) (w : World) : World :=
  mkWorld (bm w) (heap w) (pins w) (f (monitors w)) (stoppers w) (calls w).
Definition set_stoppers (f : list Periph.stop_pc -> list Periph.stop_pc) (w : World)
  : World :=
  mkWorld (bm w) (heap w) (pins w) (monitors w) (f (stoppers w)) (calls w).

(** The defaults [AddButton] sets: a window of 50 ms, and a pull-up where
    the configuration leaves the pull at [PullNoChange]. *)
Definition apply_defaults (config : Periph.ButtonConfig) : Periph.ButtonConfig :=
  let config :=
    if Periph.DebounceTime config =? 0
    then Periph.mkConfig (Periph.PinName config) (Periph.Callback config)
                         (50 * Millisecond) (Periph.Pull config)
    else config in
  if Periph.Pull config =? Periph.PullNoChange
  then Periph.mkConfig (Periph.PinName config) (Periph.Callback config)
                       (Periph.DebounceTime config) Periph.PullUp
  else config.

(** [AddButton]. *)
Definition AddButton (h : Periph.Host) (config : Periph.ButtonConfig) (w : World)
  : option error * World :=
  if negb (initialized (bm w)) then (Some ErrNotInitialized, w)
  else
    let config := apply_defaults config in
    match Periph.ByName h (Periph.PinName config) with
    | None => (Some (ErrFindPin (Periph.PinName config)), w)
    | Some p =>
        match Periph.In_err h p (Periph.Pull config) Periph.BothEdges with
        | Some cause => (Some (ErrConfigurePin (Periph.PinName config) cause), w)
        | None =>
            (None,
             mkWorld
               (mkManager (<[Periph.PinName config := length (heap w)]>
                             (buttons (bm w)))
                          (ctx_done (bm w)) (wg (bm w)) (initialized (bm w)))
               (heap w ++ [Periph.mkButton p config zeroTime])
               (<[p := Periph.InputMode (Periph.Pull config) Periph.BothEdges]>
                  (pins w))
               (monitors w) (stoppers w) (calls w))
        end
    end.

Definition GetButtonCount (w : World) : nat := size (buttons (bm w)).

(** [Start]. *)
Definition Start (w : World) : option error * World :=
  if Nat.eqb (size (buttons (bm w))) 0 then (Some ErrNoButtons, w)
  else
    let spawned := (fun kv : string * nat => mkMonitor kv.2 AtSelect)
                     <$> map_to_list (buttons (bm w)) in
    let w := set_bm (fun m => mkManager (buttons m) (ctx_done m)
                                        (wg m + length spawned)%nat
                                        (initialized m)) w in
    (None, set_monitors (fun ms => ms ++ spawned) w).

(** The first step of [Stop]: [bm.cancel()], when there is a cancel
    function; there is one exactly in a manager made by
    [NewButtonManager]. *)
Definition cancel (w : World) : World :=
  set_bm (fun m => mkManager (buttons m) (ctx_done m || initialized m) (wg m)
                             (initialized m)) w.

(** The last step of [Stop]: [Halt] on the pin of every registry entry. *)
Definition halt_all (h : Periph.Host) (w : World) : World :=
  mkWorld (bm w) (heap w)
    (foldr (fun kv => Periph.halt_pin h (heap w) kv.2) (pins w)
           (map_to_list (buttons (bm w))))
    (monitors w) (stoppers w) (calls w).

(** What a goroutine does with an edge: read the level and, when it is
    low, check the window and record the press under one lock, at one
    clock reading [now], then dispatch the callback. *)
Definition press (lvl : Periph.Level) (now : Time)
  (btn : Periph.button) (cs : list (nat * string))
  : Periph.button * list (nat * string) :=
  match lvl with
  | Periph.Low =>
      if Sub now (Periph.lastPress btn) >? Periph.DebounceTime (Periph.config btn)
      then (Periph.mkButton (Periph.pin btn) (Periph.config btn) now,
            match Periph.Callback (Periph.config btn) with
            | Some f => cs ++ [(f, Periph.PinName (Periph.config btn))]
            | None => cs
            end)
      else (btn, cs)
  | Periph.High => (btn, cs)
  end.

(** The steps of the system. *)
Inductive action :=
| CallAddButton (config : Periph.ButtonConfig)
| CallStart
| CallStop
| StopStep (i : nat)
| Select (i : nat)                 (* goroutine i runs the select *)
| Return (i : nat) (edge : bool)   (* WaitForEdge returns: an edge, or the
                                      100 ms have passed *)
| Handle (i : nat) (lvl : Periph.Level) (now : Time).
                                   (* read, check, record, dispatch *)

Definition set_pc (i : nat) (pc : monitor_pc) (w : World) : World :=
  set_monitors (alter (fun m => mkMonitor (m_btn m) pc) i) w.

Definition wg_Done (w : World) : World :=
  set_bm (fun m => mkManager (buttons m) (ctx_done m) (Nat.pred (wg m))
                             (initialized m)) w.

(** One step; [None] when the step cannot be taken in [w]. *)
Definition step (h : Periph.Host) (a : action) (w : World) : option World :=
  match a with
  | CallAddButton config => Some (AddButton h config w).2
  | CallStart => Some (Start w).2
  | CallStop => Some (set_stoppers (fun ss => ss ++ [Periph.SCancel]) w)
  | StopStep i =>
      match stoppers w !! i with
      | Some Periph.SCancel =>
          Some (set_stoppers (<[i := Periph.SWait]>) (cancel w))
      | Some Periph.SWait =>
          if Nat.eqb (wg (bm w)) 0
          then Some (set_stoppers (<[i := Periph.SHalt]>) w)
          else None
      | Some Periph.SHalt =>
          Some (set_stoppers (<[i := Periph.SDone]>) (halt_all h w))
      | _ => None
      end
  | Select i =>
      match monitors w !! i with
      | Some (mkMonitor _ AtSelect) =>
          if ctx_done (bm w) then Some (wg_Done (set_pc i Exited w))
          else Some (set_pc i AtWait w)
      | _ => None
      end
  | Return i edge =>
      match monitors w !! i with
      | Some (mkMonitor _ AtWait) =>
          Some (set_pc i (if edge then AtEdge else AtSelect) w)
      | _ => None
      end
  | Handle i lvl now =>
      match monitors w !! i with
      | Some (mkMonitor b AtEdge) =>
          match heap w !! b with
          | Some btn =>
              let '(btn', cs) := press lvl now btn (calls w) in
              Some (set_pc i AtSelect
                      (mkWorld (bm w) (<[b := btn']> (heap w)) (pins w)
                               (monitors w) (stoppers w) cs))
          | None => None
          end
      | _ => None
      end
  end.

Fixpoint run (h : Periph.Host) (acts : list action) (w : World) : option World :=
  match acts with
  | [] => Some w
  | a :: rest =>
      match step h a w with
      | Some w' => run h rest w'
      | None => None
      end
  end.

(** The clock readings of a run, in order. *)
Definition reading_of (a : action) : option Time :=
  match a with Handle _ _ now => Some now | _ => None end.
Definition readings (acts : list action) : list Time := omap reading_of acts.

Definition is_AddButton (a : action) : bool :=
  match a with CallAddButton _ => true | _ => false end.

(** Steps in which [WaitForEdge] reports an edge. *)
Definition is_edge (a : action) : bool :=
  match a with Return _ true => true | _ => false end.

Definition live (m : monitor) : bool :=
  match m_pc m with Exited => false | _ => true end.

Definition live_count (ms : list monitor) : nat := length (List.filter live ms).

(** What holds of every state reached from a new manager: the WaitGroup
    counts the goroutines that have not returned; once a caller of [Stop]
    is past [bm.cancel()] the context is cancelled; every registry entry
    and every goroutine points to a button. *)
Record consistent (w : World) : Prop := mkConsistent {
  wg_counts_live : wg (bm w) = live_count (monitors w);
  is_initialized : initialized (bm w) = true;
  waited_cancelled :
    forall s, s ∈ stoppers w -> s <> Periph.SCancel -> ctx_done (bm w) = true;
  registry_in_heap :
    forall name addr, buttons (bm w) !! name = Some addr -> is_Some (heap w !! addr);
  monitors_in_heap :
    forall m, m ∈ monitors w -> is_Some (heap w !! m_btn m)
}.

(** A manager that was not made by [NewButtonManager] and has done
    nothing. *)
Definition inert (w : World) : Prop :=
  initialized (bm w) = false /\ buttons (bm w) = ∅ /\ ctx_done (bm w) = false
  /\ wg (bm w) = 0%nat /\ monitors w = [] /\ calls w = [] /\ pins w = ∅.

(** The steps that bring goroutine [i] to its return once the context is
    cancelled, without any edge: the wait, if it is in one, ends by its
    timeout; an edge already reported is handled with the level [lvl] read
    at [now]. *)
Definition drain_one (lvl : Periph.Level) (now : Time) (i : nat) (m : monitor)
  : list action :=
  match m_pc m with
  | AtSelect => [Select i]
  | AtWait => [Return i false; Select i]
  | AtEdge => [Handle i lvl now; Select i]
  | Exited => []
  end.

Fixpoint drain_from (lvl : Periph.Level) (now : Time) (i : nat) (ms : list monitor)
  : list action :=
  match ms with
  | [] => []
  | m :: rest => drain_one lvl now i m ++ drain_from lvl now (S i) rest
  end.

(** What running goroutine [i], which was [m], to its return leaves: the
    context cancelled, the callers of [Stop] and the other goroutines as
    they were, goroutine [i] returned. *)
Definition drained (i : nat) (m : monitor) (w w' : World) : Prop :=
  ctx_done (bm w') = true
  /\ stoppers w' = stoppers w
  /\ take i (monitors w') = take i (monitors w)
  /\ drop (S i) (monitors w') = drop (S i) (monitors w)
  /\ monitors w' !! i = Some (mkMonitor (m_btn m) Exited).

(** A button whose last press is within [W] of every clock reading of
    [ts]. *)
Definition settled (W : Duration) (ts : list Time) (btn : Periph.button) : bool :=
  forallb (fun t => Sub t (Periph.lastPress btn) <=? W) ts.

Definition settled_count (W : Duration) (ts : list Time) (hp : list Periph.button)
  : nat :=
  length (List.filter (settled W ts) hp).

(** The goroutines that wait for an edge or have one to handle. *)
Definition at_pin (m : monitor) : bool :=
  match m_pc m with AtWait | AtEdge => true | _ => false end.

(** The context is cancelled and no goroutine is at its pin: none waits
    for an edge, none has one to handle. *)
Definition quiet (w : World) : Prop :=
  ctx_done (bm w) = true /\ Forall (fun m => at_pin m = false) (monitors w).

(** The goroutines that have an edge to handle. *)
Definition at_edge (m : monitor) : bool :=
  match m_pc m with AtEdge => true | _ => false end.

End Timed.

(** ** How the example programs and the discovery tool use the library *)
Module Callers.
Import GoTime.

(** The registration phase of the example programs of the poll variant:
    [AddButton] for each configuration in turn; a failure is logged as a
    warning and the program goes on. *)
Definition register_all (h : Periph.Host) (configs : list Periph.ButtonConfig)
  (w : Periph.World) : Periph.World :=
  foldl (fun w config => (Periph.AddButton h config w).2) w configs.

(** The example program up to [Start]: [None] when it ends in [log.Fatal]
    because no button was configured, else what [Start] returns. *)
Definition example_start (h : Periph.Host) (configs : list Periph.ButtonConfig)
  : option (option Periph.error * Periph.World) :=
  let w := register_all h configs Periph.NewButtonManager in
  if Nat.eqb (Periph.GetButtonCount w) 0 then None else Some (Periph.Start w).

(** A configuration whose registration succeeds on the host [h]. *)
Definition registers (h : Periph.Host) (config : Periph.ButtonConfig) : bool :=
  match Periph.ByName h (Periph.PinName config) with
  | Some p =>
      match Periph.In_err h p (Periph.Pull (Periph.apply_defaults config))
                          Periph.BothEdges with
      | None => true
      | Some _ => false
      end
  | None => false
  end.

(** A name that starts with a visible ASCII character, or is empty. *)
Definition graphic_first (s : string) : Prop :=
  match s with
  | EmptyString => True
  | String c _ => (33 <= GoStrings.code c <= 126)%N
  end.

End Callers.


(** ** The Debounce Gate as the specification words it *)
Module SpecGate.
Import GoTime.

(** [consider(now, window)]: accept iff [now - last_accepted > window]. *)
Definition consider (window : Duration) (last_accepted now : Time) : bool :=
  Sub now last_accepted >? window.

(** A gate over the candidates in order, deciding by [accept]: on accept
    [last_accepted] becomes the candidate.  The decisions, and the time
    of the last accepted candidate at the end. *)
Fixpoint decisions (accept : Time -> Time -> bool) (last_accepted : Time)
  (candidates : list Time) : list bool * Time :=
  match candidates with
  | [] => ([], last_accepted)
  | now :: rest =>
      if accept last_accepted now
      then (true :: (decisions accept now rest).1, (decisions accept now rest).2)
      else (false :: (decisions accept last_accepted rest).1,
            (decisions accept last_accepted rest).2)
  end.

(** The number of accepted candidates. *)
Definition accepted (ds : list bool) : nat := length (List.filter id ds).

(** One call of the callback, with [name], per accepted candidate. *)
Definition calls_of (callback : option nat) (name : string) (ds : list bool)
  : list (nat * string) :=
  match callback with
  | Some f => repeat (f, name) (accepted ds)
  | None => []
  end.

End SpecGate.

(** ** What holds of the states the managers reach *)
Module Reach.
Import GoTime.

(** The candidates the poll loop puts to its gate: the clock readings of
    the edges at which the level read is low. *)
Definition candidates (evs : list Periph.edge_event) : list Time :=
  Periph.e_checked
    <$> List.filter (fun ev => Periph.isPressed (Periph.e_level ev)) evs.

(** The decisions of the poll loop over the edges [evs], one after the
    other, from the last press [last]: an edge at which the level read is
    low is a candidate; it is accepted iff the reading of
    [isDebouncePassed] is more than [window] after [last], and then the
    reading of [updateLastPress] becomes [last].  The decisions on the
    candidates, and [last] at the end. *)
Fixpoint loop_decisions (window : Duration) (last : Time)
  (evs : list Periph.edge_event) : list bool * Time :=
  match evs with
  | [] => ([], last)
  | ev :: rest =>
      if Periph.isPressed (Periph.e_level ev) then
        if Sub (Periph.e_checked ev) last >? window
        then (true :: (loop_decisions window (Periph.e_updated ev) rest).1,
              (loop_decisions window (Periph.e_updated ev) rest).2)
        else (false :: (loop_decisions window last rest).1,
              (loop_decisions window last rest).2)
      else loop_decisions window last rest
  end.

(** The event handler of the push variant lets an event at [now] through,
    [last] being the time of the last event it let through. *)
Definition passes (config : Gpiocdev.ButtonConfig) (last now : Time) : bool :=
  negb (Gpiocdev.burst_guard config now last).

(** Every entry of the push variant's registry is stored under the
    [PinName] of its configuration, which resolves to its chip and
    offset; its window is not zero, its line was requested, and its
    [lastPress] field is still the zero time. *)
Definition well_formed (w : Gpiocdev.World) : Prop :=
  forall key btn,
    Gpiocdev.buttons w !! key = Some btn ->
    key = Gpiocdev.PinName (Gpiocdev.config btn)
    /\ Gpiocdev.resolveChipLine key = inl (Gpiocdev.chip btn, Gpiocdev.offset btn)
    /\ Gpiocdev.DebounceTime (Gpiocdev.config btn) <> 0
    /\ Gpiocdev.lastPress btn = zeroTime
    /\ is_Some (Gpiocdev.line btn).

(** Every call so far carries the name of a registry entry. *)
Definition named_calls (w : Gpiocdev.World) : Prop :=
  forall f name, (f, name) ∈ Gpiocdev.calls w ->
                 is_Some (Gpiocdev.buttons w !! name).

(** No line of the push variant's registry is open. *)
Definition all_closed (w : Gpiocdev.World) : Prop :=
  forall key, Gpiocdev.line_open w key = false.

Definition is_Event (a : Gpiocdev.action) : bool :=
  match a with Gpiocdev.Event _ _ => true | _ => false end.

(** The number of goroutines of the poll variant that are past
    [isShuttingDown] and before their next wait. *)
Definition handling_count (ms : list Periph.monitor) : nat :=
  length (List.filter Periph.handling ms).

(** Some goroutine of the poll variant watches the button at [addr]. *)
Definition watched (w : Periph.World) (addr : nat) : Prop :=
  addr ∈ Periph.m_btn <$> Periph.monitors w.

(** Every goroutine of the poll variant watches a button of the heap. *)
Definition monitors_in_heap (w : Periph.World) : Prop :=
  forall addr, watched w addr -> is_Some (Periph.heap w !! addr).

(** The call [c] is the callback of a button that a goroutine watches in
    [w], with that button's [PinName]. *)
Definition by_watched (w : Periph.World) (c : nat * string) : Prop :=
  exists addr btn,
    watched w addr
    /\ Periph.heap w !! addr = Some btn
    /\ Periph.Callback (Periph.config btn) = Some c.1
    /\ Periph.PinName (Periph.config btn) = c.2.

(** The steps that bring goroutine [i] of the poll variant to its return
    once the context is cancelled: one more edge ends its wait; a level
    still to be read is read as high at [now]; a press already accepted
    is dispatched at [now]. *)
Definition drain_one (now : Time) (i : nat) (m : Periph.monitor)
  : list Periph.action :=
  match Periph.m_pc m with
  | Periph.AtWait => [Periph.Wake i true; Periph.Check i]
  | Periph.Woken _ => [Periph.Check i]
  | Periph.Handling =>
      [Periph.Read i Periph.High now; Periph.Wake i true; Periph.Check i]
  | Periph.Accepted =>
      [Periph.Dispatch i now; Periph.Wake i true; Periph.Check i]
  | Periph.Exited => []
  end.

Fixpoint drain_from (now : Time) (i : nat) (ms : list Periph.monitor)
  : list Periph.action :=
  match ms with
  | [] => []
  | m :: rest => drain_one now i m ++ drain_from now (S i) rest
  end.

(** What running goroutine [i], which was [m], to its return leaves. *)
Definition drained (i : nat) (m : Periph.monitor) (w w' : Periph.World) : Prop :=
  Periph.ctx_done (Periph.bm w') = true
  /\ Periph.stoppers w' = Periph.stoppers w
  /\ take i (Periph.monitors w') = take i (Periph.monitors w)
  /\ drop (S i) (Periph.monitors w') = drop (S i) (Periph.monitors w)
  /\ Periph.monitors w' !! i
     = Some (Periph.mkMonitor (Periph.m_btn m) Periph.Exited).

(** A goroutine that has accepted a press and not yet dispatched it. *)
Definition accepted (m : Periph.monitor) : bool :=
  match Periph.m_pc m with Periph.Accepted => true | _ => false end.

(** A goroutine whose next return from [WaitForEdge] is still to come. *)
Definition to_wake (m : Periph.monitor) : bool :=
  match Periph.m_pc m with
  | Periph.AtWait | Periph.Handling | Periph.Accepted => true
  | _ => false
  end.

End Reach.

(** ** Further sample data *)
Module Scenario.
Import GoTime Sample.

(** The state a run reaches, or the state it started from when a step
    cannot be taken. *)
Definition after (h : Periph.Host) (acts : list Periph.action) (w : Periph.World)
  : Periph.World :=
  default w (Periph.run h acts w).

Definition timed_after (h : Periph.Host) (acts : list Timed.action) (w : Timed.World)
  : Timed.World :=
  default w (Timed.run h acts w).

(** GPIO11 registered and [Start] called twice: two goroutines watch the
    same button, and both have seen an edge. *)
Definition started_twice : Periph.World :=
  after board
    [ Periph.CallAddButton (periph_config "GPIO11" (50 * Millisecond));
      Periph.CallStart; Periph.CallStart;
      Periph.Wake 0 true; Periph.Check 0; Periph.Wake 1 true; Periph.Check 1 ]
    Periph.NewButtonManager.

(** GPIO11 registered and watched; [Stop] is called while the goroutine
    handles an edge. *)
Definition stopping_steps : list Periph.action :=
  [ Periph.CallAddButton (periph_config "GPIO11" (50 * Millisecond));
    Periph.CallStart; Periph.Wake 0 true; Periph.Check 0;
    Periph.CallStop; Periph.StopStep 0 ].

Definition stopping : Periph.World :=
  after board stopping_steps Periph.NewButtonManager.

(** A button added after [Start], then a press of the first button. *)
Definition late_button : list Periph.action :=
  [ Periph.CallAddButton (periph_config "GPIO1_A0" (50 * Millisecond));
    Periph.Wake 0 true; Periph.Check 0;
    Periph.Read 0 Periph.Low (at_ms 10); Periph.Dispatch 0 (at_ms 10) ].

(** The goroutine finishes with its edge after the context is cancelled,
    finds the context cancelled and returns; [Start] is called again. *)
Definition last_dispatch : list Periph.action :=
  [ Periph.Read 0 Periph.Low (at_ms 10); Periph.Dispatch 0 (at_ms 10);
    Periph.Wake 0 true; Periph.Check 0; Periph.CallStart ].

(** What is called on a manager of the timed variant that was not made by
    [NewButtonManager]. *)
Definition unmade_session : list Timed.action :=
  [ Timed.CallAddButton (periph_config "GPIO11" 0); Timed.CallStart;
    Timed.CallStop; Timed.StopStep 0; Timed.StopStep 0; Timed.StopStep 0 ].

(** The timed variant: GPIO11 registered, its goroutine in the wait, a
    caller of [Stop] waiting for it. *)
Definition timed_stopping : list Timed.action :=
  [ Timed.CallAddButton (periph_config "GPIO11" (50 * Millisecond));
    Timed.CallStart; Timed.Select 0; Timed.CallStop; Timed.StopStep 0 ].

(** The timed variant: the same, then the wait times out, the goroutine
    returns and [Stop] runs to its end. *)
Definition timed_stopped : list Timed.action :=
  timed_stopping
  ++ [ Timed.Return 0 false; Timed.Select 0; Timed.StopStep 0; Timed.StopStep 0 ].

(** What may follow: the button is added again, [Start] is called again,
    and the new goroutine finds the context cancelled. *)
Definition timed_restart : list Timed.action :=
  [ Timed.CallAddButton (periph_config "GPIO11" (50 * Millisecond));
    Timed.CallStart; Timed.Select 1 ].

(** The timed variant: GPIO11 registered and watched. *)
Definition timed_started : Timed.World :=
  timed_after board
    [ Timed.CallAddButton (periph_config "GPIO11" (50 * Millisecond));
      Timed.CallStart ]
    Timed.NewButtonManager.

(** Two presses 25 ms apart. *)
Definition two_presses : list Timed.action :=
  [ Timed.Select 0; Timed.Return 0 true; Timed.Handle 0 Periph.Low (at_ms 5);
    Timed.Select 0; Timed.Return 0 true; Timed.Handle 0 Periph.Low (at_ms 30) ].

End Scenario.
(** * Properties *)

(** ** Durations and clock readings *)
Section Clock.
Import GoTime.

Lemma saturate_id (d : Z) :
  minDuration <= d <= maxDuration -> saturate d = d.
Proof.
  intros [Hlo Hhi]. unfold saturate.
  destruct (Z.gtb_spec d maxDuration); [lia|].
  destruct (Z.ltb_spec d minDuration); [lia|]. reflexivity.
Qed.

Lemma saturate_pos (d : Z) : 0 < d -> 0 < saturate d.
Proof.
  intros Hd. unfold saturate.
  destruct (Z.gtb_spec d maxDuration); [reflexivity|].
  destruct (Z.ltb_spec d minDuration); [|assumption].
  unfold minDuration in *. lia.
Qed.

Lemma saturate_nonneg (d : Z) : 0 <= d -> 0 <= saturate d.
Proof.
  intros Hd. unfold saturate.
  destruct (Z.gtb_spec d maxDuration); [unfold maxDuration; lia|].
  destruct (Z.ltb_spec d minDuration); [|assumption].
  unfold minDuration in *. lia.
Qed.

Lemma is_now_inv (t : Time) :
  is_now t = true ->
  exists m, mono t = Some m /\ 0 <= m <= maxDuration /\ 0 < wall t.
Proof.
  unfold is_now. destruct (mono t) as [m|]; [|discriminate].
  intros H. apply andb_prop in H as [H Hw]. apply andb_prop in H as [H1 H2].
  exists m. repeat split; lia.
Qed.

(** Between two readings of the process clock, [Sub] is the plain
    difference of the monotonic readings. *)
Lemma Sub_now (t u : Time) (a b : Z) :
  is_now t = true -> is_now u = true ->
  mono t = Some a -> mono u = Some b -> Sub t u = a - b.
Proof.
  intros Ht Hu Ha Hb.
  apply is_now_inv in Ht as (a' & Ha' & Hra & _).
  apply is_now_inv in Hu as (b' & Hb' & Hrb & _).
  assert (a' = a) by congruence. assert (b' = b) by congruence. subst.
  unfold Sub. rewrite Ha, Hb. apply saturate_id.
  unfold minDuration, maxDuration in *. lia.
Qed.

(** Measured against the zero time, every reading is far away. *)
Lemma Sub_zeroTime (t : Time) : is_now t = true -> 0 < Sub t zeroTime.
Proof.
  intros Ht. apply is_now_inv in Ht as (m & Hm & _ & Hw).
  unfold Sub. rewrite Hm. simpl. apply saturate_pos. lia.
Qed.

Lemma clock_le_Before (t u : Time) : clock_le t u -> Before u t = false.
Proof.
  unfold clock_le, Before.
  destruct (mono t), (mono u); try contradiction. lia.
Qed.

Lemma clock_le_trans (t u v : Time) : clock_le t u -> clock_le u v -> clock_le t v.
Proof.
  unfold clock_le. destruct (mono t), (mono u), (mono v); try contradiction; lia.
Qed.

Lemma clock_lt_Sub (t u : Time) : clock_lt u t -> 0 < Sub t u.
Proof.
  unfold clock_lt, Sub. destruct (mono u), (mono t); try contradiction.
  intros H. apply saturate_pos. lia.
Qed.

Lemma clock_le_Sub (t u : Time) : clock_le u t -> 0 <= Sub t u.
Proof.
  unfold clock_le, Sub. destruct (mono u), (mono t); try contradiction.
  intros H. apply saturate_nonneg. lia.
Qed.

End Clock.

(** ** The debounce gate *)
Section DebounceGate.
Import GoTime.

Lemma isDebouncePassed_iff (now : Time) (btn : Periph.button) :
  Periph.isDebouncePassed now btn = true
  <-> Since now (Periph.lastPress btn) > Periph.DebounceTime (Periph.config btn).
Proof.
  unfold Periph.isDebouncePassed. rewrite Z.gtb_gt. lia.
Qed.

Lemma burst_guard_false_iff (cfg : Gpiocdev.ButtonConfig) (now last : Time) :
  Gpiocdev.burst_guard cfg now last = false
  <-> (Gpiocdev.DebounceTime cfg <= 0 \/ IsZero last = true
       \/ Sub now last > Gpiocdev.DebounceTime cfg ÷ 2).
Proof.
  unfold Gpiocdev.burst_guard.
  rewrite !andb_false_iff, negb_false_iff, Z.leb_gt.
  destruct (Z.gtb_spec (Gpiocdev.DebounceTime cfg) 0) as [Hpos|Hneg];
    split; intros H.
  - destruct H as [[H|H]|H]; [discriminate|auto|right; right; lia].
  - destruct H as [H|[H|H]]; [lia|auto|right; lia].
  - left; assumption.
  - left; left; reflexivity.
Qed.

Lemma on_edges_cons (ev : Periph.edge_event) (evs : list Periph.edge_event)
  (st : Periph.button * list (nat * string)) :
  Periph.on_edges (ev :: evs) st = Periph.on_edges evs (Periph.on_edge ev st).
Proof. reflexivity. Qed.

(** [on_edge] is what goroutine [i] does with one edge in the stepwise
    system, from [isPressed] back to [WaitForEdge]: the step [Read], and
    the step [Dispatch] when the press is accepted. *)
Lemma on_edge_as_steps (h : Periph.Host) (i b : nat) (btn : Periph.button)
  (ev : Periph.edge_event) (w : Periph.World) :
  Periph.monitors w !! i = Some (Periph.mkMonitor b Periph.Handling) ->
  Periph.heap w !! b = Some btn ->
  exists w',
    Periph.run h
      (Periph.Read i (Periph.e_level ev) (Periph.e_checked ev)
       :: if Periph.isPressed (Periph.e_level ev)
             && Periph.isDebouncePassed (Periph.e_checked ev) btn
          then [Periph.Dispatch i (Periph.e_updated ev)] else []) w
    = Some w'
    /\ Periph.heap w' !! b = Some (Periph.on_edge ev (btn, Periph.calls w)).1
    /\ Periph.calls w' = (Periph.on_edge ev (btn, Periph.calls w)).2
    /\ Periph.monitors w' !! i = Some (Periph.mkMonitor b Periph.AtWait).
Proof.
  intros Hi Hb.
  assert (Hlt : (i < length (Periph.monitors w))%nat)
    by (by apply lookup_lt_Some with (Periph.mkMonitor b Periph.Handling)).
  unfold Periph.on_edge. simpl. rewrite Hi, Hb.
  destruct (Periph.isPressed (Periph.e_level ev)
            && Periph.isDebouncePassed (Periph.e_checked ev) btn); simpl.
  - rewrite list_lookup_alter_eq, Hi. simpl. rewrite Hb.
    eexists. split; [reflexivity|]. simpl. repeat split.
    + apply list_lookup_insert_eq. by apply lookup_lt_Some with btn.
    + by rewrite !list_lookup_alter_eq, Hi.
  - eexists. split; [reflexivity|]. simpl. repeat split; try assumption.
    by rewrite list_lookup_alter_eq, Hi.
Qed.

(** With a window of zero and strictly increasing readings, the poll loop
    dispatches one call per pressed edge. *)
Lemma on_edges_window_zero (evs : list Periph.edge_event) :
  forall (btn : Periph.button) (cs : list (nat * string)) (f : nat),
    Periph.DebounceTime (Periph.config btn) = 0 ->
    Periph.Callback (Periph.config btn) = Some f ->
    Forall Periph.pressed evs ->
    Periph.spaced (Periph.lastPress btn) evs ->
    (Periph.on_edges evs (btn, cs)).2
    = cs ++ repeat (f, Periph.PinName (Periph.config btn)) (length evs).
Proof.
  induction evs as [|ev evs IH]; intros btn cs f Hw Hf Hp Hs.
  - simpl. by rewrite app_nil_r.
  - apply Forall_cons in Hp as [Hlow Hp].
    destruct Hs as (Hnow & Hlast & Hle & Hs).
    assert (Hacc : Periph.isDebouncePassed (Periph.e_checked ev) btn = true).
    { apply isDebouncePassed_iff. rewrite Hw. unfold Since.
      destruct Hlast as [Hz|Hlt].
      - rewrite Hz. pose proof (Sub_zeroTime _ Hnow). lia.
      - pose proof (clock_lt_Sub _ _ Hlt). lia. }
    rewrite on_edges_cons. unfold Periph.on_edge.
    red in Hlow. rewrite Hlow, Hacc. simpl andb. cbv iota.
    rewrite (IH _ _ f); try assumption.
    unfold Periph.invokeCallback. rewrite Hf. simpl.
    by rewrite <- app_assoc.
Qed.

End DebounceGate.

Section DebounceGateExamples.
Import GoTime Sample.

(** The poll loop on the scenario of the specification: a window of 50 ms,
    low edges at 0, 30 and 80 ms; two calls. *)
Example poll_loop_0_30_80 :
  (Periph.on_edges [low_at 0; low_at 30; low_at 80]
     (fresh_button (50 * Millisecond), [])).2
  = [(7%nat, "GPIO11"%string); (7%nat, "GPIO11"%string)].
Proof. vm_compute. reflexivity. Qed.

(** A gap of exactly the window is rejected by the poll gate. *)
Example poll_gate_exact_window_rejected :
  Periph.isDebouncePassed (at_ms 50)
    (Periph.updateLastPress (at_ms 0) (fresh_button (50 * Millisecond))) = false.
Proof. vm_compute. reflexivity. Qed.

End DebounceGateExamples.

(** ** Registration, poll variant *)
Section PeriphRegistration.
Import GoTime.
Variable h : Periph.Host.

Lemma periph_defaults_PinName (cfg : Periph.ButtonConfig) :
  Periph.PinName (Periph.apply_defaults cfg) = Periph.PinName cfg.
Proof.
  unfold Periph.apply_defaults.
  destruct (Periph.DebounceTime cfg =? 0); simpl;
    destruct (Periph.Pull cfg =? 0); reflexivity.
Qed.

Lemma periph_defaults_Callback (cfg : Periph.ButtonConfig) :
  Periph.Callback (Periph.apply_defaults cfg) = Periph.Callback cfg.
Proof.
  unfold Periph.apply_defaults.
  destruct (Periph.DebounceTime cfg =? 0); simpl;
    destruct (Periph.Pull cfg =? 0); reflexivity.
Qed.

Lemma periph_defaults_DebounceTime (cfg : Periph.ButtonConfig) :
  Periph.DebounceTime (Periph.apply_defaults cfg)
  = if Periph.DebounceTime cfg =? 0 then Periph.defaultDebounceTime
    else Periph.DebounceTime cfg.
Proof.
  unfold Periph.apply_defaults.
  destruct (Periph.DebounceTime cfg =? 0); simpl;
    destruct (Periph.Pull cfg =? 0); reflexivity.
Qed.

Lemma periph_AddButton_not_found (cfg : Periph.ButtonConfig) (w : Periph.World) :
  Periph.ByName h (Periph.PinName cfg) = None ->
  Periph.AddButton h cfg w = (Some (Periph.ErrFindPin (Periph.PinName cfg)), w).
Proof.
  intros Hn. unfold Periph.AddButton.
  rewrite periph_defaults_PinName, Hn. reflexivity.
Qed.

Lemma periph_AddButton_refused (cfg : Periph.ButtonConfig) (w : Periph.World)
  (p : Periph.PinIO) (cause : string) :
  Periph.ByName h (Periph.PinName cfg) = Some p ->
  Periph.In_err h p (Periph.Pull (Periph.apply_defaults cfg)) Periph.BothEdges
  = Some cause ->
  Periph.AddButton h cfg w
  = (Some (Periph.ErrConfigurePin (Periph.PinName cfg) cause), w).
Proof.
  intros Hn Hi. unfold Periph.AddButton.
  rewrite periph_defaults_PinName, Hn, Hi. reflexivity.
Qed.

Lemma periph_AddButton_ok (cfg : Periph.ButtonConfig) (w : Periph.World)
  (p : Periph.PinIO) :
  Periph.ByName h (Periph.PinName cfg) = Some p ->
  Periph.In_err h p (Periph.Pull (Periph.apply_defaults cfg)) Periph.BothEdges = None ->
  Periph.AddButton h cfg w = (None, Periph.registered cfg p w).
Proof.
  intros Hn Hi. unfold Periph.AddButton.
  rewrite periph_defaults_PinName, Hn, Hi. reflexivity.
Qed.

(** [AddButton] has exactly these three outcomes. *)
Lemma periph_AddButton_cases (cfg : Periph.ButtonConfig) (w : Periph.World) :
  (Periph.ByName h (Periph.PinName cfg) = None
   /\ Periph.AddButton h cfg w = (Some (Periph.ErrFindPin (Periph.PinName cfg)), w))
  \/ (exists p cause,
         Periph.ByName h (Periph.PinName cfg) = Some p
         /\ Periph.AddButton h cfg w
            = (Some (Periph.ErrConfigurePin (Periph.PinName cfg) cause), w))
  \/ (exists p,
         Periph.ByName h (Periph.PinName cfg) = Some p
         /\ Periph.AddButton h cfg w = (None, Periph.registered cfg p w)).
Proof.
  destruct (Periph.ByName h (Periph.PinName cfg)) as [p|] eqn:Hn.
  - destruct (Periph.In_err h p (Periph.Pull (Periph.apply_defaults cfg))
                Periph.BothEdges) as [cause|] eqn:Hi.
    + right; left. exists p, cause. split; [reflexivity|].
      apply (periph_AddButton_refused cfg w p cause); assumption.
    + right; right. exists p. split; [reflexivity|].
      apply (periph_AddButton_ok cfg w p); assumption.
  - left. split; [reflexivity|]. by apply periph_AddButton_not_found.
Qed.

End PeriphRegistration.

(** ** Registration, push variant *)
Section CdevRegistration.
Import GoTime.
Variable dev : Gpiocdev.Chardev.

Lemma cdev_defaults_PinName (cfg : Gpiocdev.ButtonConfig) :
  Gpiocdev.PinName (Gpiocdev.apply_defaults cfg) = Gpiocdev.PinName cfg.
Proof.
  unfold Gpiocdev.apply_defaults.
  destruct (Gpiocdev.DebounceTime cfg =? 0); reflexivity.
Qed.

Lemma cdev_defaults_DebounceTime (cfg : Gpiocdev.ButtonConfig) :
  Gpiocdev.DebounceTime (Gpiocdev.apply_defaults cfg)
  = if Gpiocdev.DebounceTime cfg =? 0 then Gpiocdev.defaultDebounceTime
    else Gpiocdev.DebounceTime cfg.
Proof.
  unfold Gpiocdev.apply_defaults.
  destruct (Gpiocdev.DebounceTime cfg =? 0); reflexivity.
Qed.

Lemma cdev_defaults_nonzero (cfg : Gpiocdev.ButtonConfig) :
  Gpiocdev.DebounceTime cfg <> 0 -> Gpiocdev.apply_defaults cfg = cfg.
Proof.
  intros Hnz. unfold Gpiocdev.apply_defaults.
  destruct (Z.eqb_spec (Gpiocdev.DebounceTime cfg) 0); [contradiction|reflexivity].
Qed.

(** The request loop stops at the first option set that is granted. *)
Lemma request_loop_first (chip : string) (offset : Z)
  (pre : list (list Gpiocdev.LineReqOption)) :
  forall (opts : list Gpiocdev.LineReqOption)
         (post : list (list Gpiocdev.LineReqOption))
         (l : option Gpiocdev.Line) (e : option string),
    Forall (Gpiocdev.refused dev chip offset) pre ->
    dev chip offset opts = None ->
    Gpiocdev.request_loop dev chip offset (pre ++ opts :: post) l e
    = (Some (Gpiocdev.mkLine opts false), None).
Proof.
  induction pre as [|o pre IH]; intros opts post l e Hpre Hok; simpl.
  - by rewrite Hok.
  - apply Forall_cons in Hpre as [Ho Hpre]. red in Ho.
    destruct (dev chip offset o) as [cause|]; [|contradiction].
    by apply IH.
Qed.

(** When every option set is refused, the loop ends with the error of the
    last request. *)
Lemma request_loop_all_refused (chip : string) (offset : Z)
  (sets : list (list Gpiocdev.LineReqOption)) :
  forall (opts : list Gpiocdev.LineReqOption)
         (l : option Gpiocdev.Line) (e : option string),
    Forall (Gpiocdev.refused dev chip offset) (sets ++ [opts]) ->
    Gpiocdev.request_loop dev chip offset (sets ++ [opts]) l e
    = (None, dev chip offset opts).
Proof.
  induction sets as [|o sets IH]; intros opts l e Hall; simpl.
  - apply Forall_cons in Hall as [Ho _]. red in Ho.
    destruct (dev chip offset opts) as [cause|]; [reflexivity|contradiction].
  - apply Forall_cons in Hall as [Ho Hall]. red in Ho.
    destruct (dev chip offset o) as [cause|]; [|contradiction].
    by apply IH.
Qed.

(** Either some option set is the first to be granted, or all are
    refused. *)
Lemma first_granted_or_all_refused (chip : string) (offset : Z)
  (sets : list (list Gpiocdev.LineReqOption)) :
  (exists pre opts post,
      sets = pre ++ opts :: post
      /\ Forall (Gpiocdev.refused dev chip offset) pre
      /\ dev chip offset opts = None)
  \/ Forall (Gpiocdev.refused dev chip offset) sets.
Proof.
  induction sets as [|o sets IH].
  - right. constructor.
  - destruct (dev chip offset o) as [cause|] eqn:Ho.
    + destruct IH as [(pre & opts & post & -> & Hpre & Hok)|Hall].
      * left. exists (o :: pre), opts, post. split; [reflexivity|].
        split; [|assumption]. constructor; [|assumption].
        unfold Gpiocdev.refused. by rewrite Ho.
      * right. constructor; [|assumption].
        unfold Gpiocdev.refused. by rewrite Ho.
    + left. exists [], o, sets. repeat split; [constructor|assumption].
Qed.

(** The option sets always end with the bare input request. *)
Lemma combos_snoc (cfg : Gpiocdev.ButtonConfig) :
  exists sets,
    Gpiocdev.combos cfg
    = sets ++ [Gpiocdev.base_options cfg ++ [Gpiocdev.WithEventHandler]].
Proof.
  unfold Gpiocdev.combos.
  eexists. rewrite !app_assoc. reflexivity.
Qed.

Lemma cdev_AddButton_unresolved (cfg : Gpiocdev.ButtonConfig) (w : Gpiocdev.World)
  (err : Gpiocdev.error) :
  Gpiocdev.resolveChipLine (Gpiocdev.PinName cfg) = inr err ->
  Gpiocdev.AddButton dev cfg w = (Some err, w).
Proof.
  intros Hr. unfold Gpiocdev.AddButton.
  rewrite cdev_defaults_PinName, Hr. reflexivity.
Qed.

Lemma cdev_AddButton_granted (cfg : Gpiocdev.ButtonConfig) (w : Gpiocdev.World)
  (chip : string) (offset : Z)
  (pre : list (list Gpiocdev.LineReqOption)) (opts : list Gpiocdev.LineReqOption)
  (post : list (list Gpiocdev.LineReqOption)) :
  Gpiocdev.resolveChipLine (Gpiocdev.PinName cfg) = inl (chip, offset) ->
  Gpiocdev.combos (Gpiocdev.apply_defaults cfg) = pre ++ opts :: post ->
  Forall (Gpiocdev.refused dev chip offset) pre ->
  dev chip offset opts = None ->
  Gpiocdev.AddButton dev cfg w = (None, Gpiocdev.registered cfg chip offset opts w).
Proof.
  intros Hr Hc Hpre Hok. unfold Gpiocdev.AddButton.
  rewrite cdev_defaults_PinName, Hr, Hc.
  rewrite (request_loop_first chip offset pre opts post None None Hpre Hok).
  reflexivity.
Qed.

Lemma cdev_AddButton_refused (cfg : Gpiocdev.ButtonConfig) (w : Gpiocdev.World)
  (chip : string) (offset : Z) :
  Gpiocdev.resolveChipLine (Gpiocdev.PinName cfg) = inl (chip, offset) ->
  Forall (Gpiocdev.refused dev chip offset)
         (Gpiocdev.combos (Gpiocdev.apply_defaults cfg)) ->
  exists cause,
    dev chip offset (Gpiocdev.base_options (Gpiocdev.apply_defaults cfg)
                     ++ [Gpiocdev.WithEventHandler]) = Some cause
    /\ Gpiocdev.AddButton dev cfg w
       = (Some (Gpiocdev.ErrRequestLine chip offset cause), w).
Proof.
  intros Hr Hall. unfold Gpiocdev.AddButton.
  rewrite cdev_defaults_PinName, Hr.
  destruct (combos_snoc (Gpiocdev.apply_defaults cfg)) as [sets Hs].
  rewrite Hs in Hall |- *.
  rewrite (request_loop_all_refused chip offset sets _ None None Hall).
  apply Forall_app in Hall as [_ Hlast].
  apply Forall_cons in Hlast as [Hlast _]. red in Hlast.
  destruct (dev chip offset _) as [cause|]; [|contradiction].
  exists cause. split; reflexivity.
Qed.

End CdevRegistration.

(** ** Identifiers that do not resolve *)
Section Unresolved.
Import Sample.

Lemma resolveChipLine_error_kind (name : string) (err : Gpiocdev.error) :
  Gpiocdev.resolveChipLine name = inr err -> Gpiocdev.PinNotFound err.
Proof.
  unfold Gpiocdev.resolveChipLine.
  destruct (String.eqb _ _); [intros [= <-]; exact I|].
  destruct (GoStrings.ContainsColon _).
  - destruct (GoStrings.Atoi _); [discriminate|]. intros [= <-]. exact I.
  - destruct (GoStrings.Atoi _); [discriminate|]. intros [= <-]. exact I.
Qed.

(** C3.  When the identifier does not resolve ([gpioreg.ByName] returns
    nil in the poll variant, [resolveChipLine] returns an error in the push
    variant), [AddButton] returns the error that reports it and leaves the
    manager, hence the button count, as it was. *)
Theorem unresolved_identifier_rejected :
  (forall (h : Periph.Host) (cfg : Periph.ButtonConfig) (w : Periph.World),
      Periph.ByName h (Periph.PinName cfg) = None ->
      exists err,
        Periph.AddButton h cfg w = (Some err, w)
        /\ Periph.PinNotFound err
        /\ Periph.GetButtonCount (Periph.AddButton h cfg w).2
           = Periph.GetButtonCount w)
  /\ (forall (dev : Gpiocdev.Chardev) (cfg : Gpiocdev.ButtonConfig)
             (w : Gpiocdev.World) (err : Gpiocdev.error),
         Gpiocdev.resolveChipLine (Gpiocdev.PinName cfg) = inr err ->
         Gpiocdev.AddButton dev cfg w = (Some err, w)
         /\ Gpiocdev.PinNotFound err
         /\ Gpiocdev.GetButtonCount (Gpiocdev.AddButton dev cfg w).2
            = Gpiocdev.GetButtonCount w).
Proof.
  split.
  - intros h cfg w Hn. exists (Periph.ErrFindPin (Periph.PinName cfg)).
    rewrite (periph_AddButton_not_found h cfg w Hn). repeat split.
  - intros dev cfg w err Hr.
    rewrite (cdev_AddButton_unresolved dev cfg w err Hr).
    repeat split. by apply (resolveChipLine_error_kind (Gpiocdev.PinName cfg)).
Qed.

Lemma unresolved_identifier_rejected_witness :
  (exists err,
      Periph.AddButton board (periph_config "GPIO99" 0) periph_registered
      = (Some err, periph_registered)
      /\ Periph.PinNotFound err
      /\ Periph.GetButtonCount
           (Periph.AddButton board (periph_config "GPIO99" 0) periph_registered).2
         = Periph.GetButtonCount periph_registered)
  /\ (Gpiocdev.AddButton dev_any (cdev_config "gpiochip0:x" 0 Gpiocdev.PullUp)
        cdev_registered
      = (Some (Gpiocdev.ErrInvalidLineOffset "x"), cdev_registered)
      /\ Gpiocdev.PinNotFound (Gpiocdev.ErrInvalidLineOffset "x")
      /\ Gpiocdev.GetButtonCount
           (Gpiocdev.AddButton dev_any (cdev_config "gpiochip0:x" 0 Gpiocdev.PullUp)
              cdev_registered).2
         = Gpiocdev.GetButtonCount cdev_registered).
Proof.
  split.
  - apply (proj1 unresolved_identifier_rejected board). reflexivity.
  - apply (proj2 unresolved_identifier_rejected dev_any). reflexivity.
Defined.

(** Identifiers [resolveChipLine] accepts and rejects. *)
Example resolveChipLine_samples :
  Gpiocdev.resolveChipLine " gpiochip1:7 " = inl ("gpiochip1"%string, 7)
  /\ Gpiocdev.resolveChipLine "23" = inl ("gpiochip0"%string, 23)
  /\ Gpiocdev.resolveChipLine "" = inr Gpiocdev.ErrPinNameRequired
  /\ Gpiocdev.resolveChipLine "GPIO11" = inr (Gpiocdev.ErrInvalidPinName "GPIO11")
  /\ Gpiocdev.resolveChipLine "gpiochip0:" = inr (Gpiocdev.ErrInvalidLineOffset "").
Proof. repeat split. Qed.

End Unresolved.

(** ** Start *)
Section StartCalls.
Import Sample.

Lemma periph_Start_cases (w : Periph.World) :
  (Periph.GetButtonCount w = 0%nat
   /\ Periph.Start w = (Some Periph.ErrNoButtons, w))
  \/ (Periph.GetButtonCount w <> 0%nat /\ (Periph.Start w).1 = None
      /\ Periph.buttons (Periph.bm (Periph.Start w).2) = Periph.buttons (Periph.bm w)
      /\ Periph.wg (Periph.bm (Periph.Start w).2)
         = (Periph.wg (Periph.bm w) + Periph.GetButtonCount w)%nat
      /\ length (Periph.monitors (Periph.Start w).2)
         = (length (Periph.monitors w) + Periph.GetButtonCount w)%nat).
Proof.
  unfold Periph.Start, Periph.GetButtonCount.
  destruct (Nat.eqb_spec (size (Periph.buttons (Periph.bm w))) 0) as [Hz|Hnz].
  - left. split; [assumption|reflexivity].
  - right. simpl.
    rewrite length_app, !length_fmap, length_map_to_list. repeat split; assumption.
Qed.

Lemma cdev_Start_cases (w : Gpiocdev.World) :
  (Gpiocdev.GetButtonCount w = 0%nat
   /\ Gpiocdev.Start w = (Some Gpiocdev.ErrNoButtons, w))
  \/ (Gpiocdev.GetButtonCount w <> 0%nat /\ Gpiocdev.Start w = (None, w)).
Proof.
  unfold Gpiocdev.Start, Gpiocdev.GetButtonCount.
  destruct (Nat.eqb_spec (size (Gpiocdev.buttons w)) 0) as [Hz|Hnz].
  - left. split; [assumption|reflexivity].
  - right. split; [assumption|reflexivity].
Qed.

(** C4 fails in its last part: after a first [Start] that returned no
    error, a second [Start] returns no error either, in both variants. *)
Lemma second_start_returns_no_error :
  (Periph.Start periph_registered).1 = None
  /\ (Periph.Start (Periph.Start periph_registered).2).1 = None
  /\ (Gpiocdev.Start cdev_registered).1 = None
  /\ (Gpiocdev.Start (Gpiocdev.Start cdev_registered).2).1 = None.
Proof. vm_compute. repeat split. Qed.

(** C4, as amended.  [Start] returns the no-buttons error iff the registry
    is empty at the call, and no error iff it holds a button.  It keeps no
    record of having run: a second call on a registry that holds a button
    returns no error either; in the poll variant it starts one more
    goroutine per button, in the push variant it changes nothing. *)
Theorem start_error_iff_registry_empty :
  (forall w : Periph.World,
      ((Periph.Start w).1 = Some Periph.ErrNoButtons
       <-> Periph.GetButtonCount w = 0%nat)
      /\ ((Periph.Start w).1 = None <-> Periph.GetButtonCount w <> 0%nat))
  /\ (forall w : Periph.World,
         Periph.GetButtonCount w <> 0%nat ->
         (Periph.Start (Periph.Start w).2).1 = None
         /\ length (Periph.monitors (Periph.Start (Periph.Start w).2).2)
            = (length (Periph.monitors w) + 2 * Periph.GetButtonCount w)%nat)
  /\ (forall w : Gpiocdev.World,
         ((Gpiocdev.Start w).1 = Some Gpiocdev.ErrNoButtons
          <-> Gpiocdev.GetButtonCount w = 0%nat)
         /\ ((Gpiocdev.Start w).1 = None <-> Gpiocdev.GetButtonCount w <> 0%nat)
         /\ (Gpiocdev.Start w).2 = w)
  /\ (forall w : Gpiocdev.World,
         Gpiocdev.GetButtonCount w <> 0%nat ->
         Gpiocdev.Start (Gpiocdev.Start w).2 = (None, w)).
Proof.
  split; [|split; [|split]].
  - intros w. split; split.
    + intros Hs. destruct (periph_Start_cases w) as [[Hz _]|(_ & Hn & _)];
        [assumption|congruence].
    + intros Hz. destruct (periph_Start_cases w) as [[_ ->]|(Hnz & _)];
        [reflexivity|contradiction].
    + intros Hs Hz. destruct (periph_Start_cases w) as [[_ He]|(Hnz & _)];
        [rewrite He in Hs; discriminate|contradiction].
    + intros Hnz. destruct (periph_Start_cases w) as [[Hz _]|(_ & Hn & _)];
        [contradiction|assumption].
  - intros w Hnz.
    destruct (periph_Start_cases w) as [[Hz _]|(_ & _ & Hb & _ & Hm)]; [contradiction|].
    destruct (periph_Start_cases (Periph.Start w).2)
      as [[Hz _]|(_ & Hn & _ & _ & Hm')].
    + unfold Periph.GetButtonCount in *. rewrite Hb in Hz. contradiction.
    + split; [assumption|].
      rewrite Hm', Hm. unfold Periph.GetButtonCount. rewrite Hb. lia.
  - intros w. split; [split|split; [split|]].
    + intros Hs. destruct (cdev_Start_cases w) as [[Hz _]|[_ He]];
        [assumption|rewrite He in Hs; discriminate].
    + intros Hz. destruct (cdev_Start_cases w) as [[_ ->]|[Hnz _]];
        [reflexivity|contradiction].
    + intros Hs Hz. destruct (cdev_Start_cases w) as [[_ He]|[Hnz _]];
        [rewrite He in Hs; discriminate|contradiction].
    + intros Hnz. destruct (cdev_Start_cases w) as [[Hz _]|[_ ->]];
        [contradiction|reflexivity].
    + destruct (cdev_Start_cases w) as [[_ ->]|[_ ->]]; reflexivity.
  - intros w Hnz. destruct (cdev_Start_cases w) as [[Hz _]|[_ He]]; [contradiction|].
    rewrite He. simpl. exact He.
Qed.

Lemma start_error_iff_registry_empty_witness :
  ((Periph.Start (Periph.Start periph_registered).2).1 = None
   /\ length (Periph.monitors (Periph.Start (Periph.Start periph_registered).2).2)
      = (length (Periph.monitors periph_registered)
         + 2 * Periph.GetButtonCount periph_registered)%nat)
  /\ Gpiocdev.Start (Gpiocdev.Start cdev_registered).2 = (None, cdev_registered).
Proof.
  split.
  - apply (proj1 (proj2 start_error_iff_registry_empty) periph_registered).
    vm_compute. discriminate.
  - apply (proj2 (proj2 (proj2 start_error_iff_registry_empty)) cdev_registered).
    vm_compute. discriminate.
Defined.

End StartCalls.

(** ** The fallback of the line request *)
Section Fallback.
Import GoTime Sample.

Lemma cdev_defaults_Pull (cfg : Gpiocdev.ButtonConfig) :
  Gpiocdev.Pull (Gpiocdev.apply_defaults cfg) = Gpiocdev.Pull cfg.
Proof.
  unfold Gpiocdev.apply_defaults.
  destruct (Gpiocdev.DebounceTime cfg =? 0); reflexivity.
Qed.

Lemma combos_with_bias_and_debounce (cfg : Gpiocdev.ButtonConfig)
  (bias : Gpiocdev.LineReqOption) :
  Gpiocdev.pullOption (Gpiocdev.Pull cfg) = Some bias ->
  Gpiocdev.DebounceTime cfg > 0 ->
  Gpiocdev.combos cfg = Gpiocdev.fallback_attempts cfg bias.
Proof.
  intros Hb Hd. unfold Gpiocdev.combos, Gpiocdev.fallback_attempts.
  rewrite Hb. apply Z.gt_lt, Z.gtb_lt in Hd. rewrite Hd.
  simpl. rewrite <- !app_assoc. reflexivity.
Qed.

Lemma registered_line_open (cfg : Gpiocdev.ButtonConfig) (chip : string)
  (offset : Z) (opts : list Gpiocdev.LineReqOption) (w : Gpiocdev.World) :
  Gpiocdev.line_open (Gpiocdev.registered cfg chip offset opts w)
    (Gpiocdev.registry_key (Gpiocdev.apply_defaults cfg) chip offset) = true.
Proof.
  unfold Gpiocdev.line_open, Gpiocdev.registered. simpl.
  by rewrite lookup_insert_eq.
Qed.

Lemma open_line_delivers (key : string) (now : Time) (w : Gpiocdev.World) :
  Gpiocdev.line_open w key = true -> is_Some (Gpiocdev.deliver key now w).
Proof.
  intros Ho. unfold Gpiocdev.deliver.
  destruct (Gpiocdev.buttons w !! key) as [btn|] eqn:Hk.
  - rewrite Ho. destruct (Gpiocdev.handler _ _ _ _ _ _). eauto.
  - unfold Gpiocdev.line_open in Ho. rewrite Hk in Ho. discriminate.
Qed.

(** On a device that refuses every request, registration fails with the
    cause of the last refusal and the registry stays empty. *)
Example all_requests_refused :
  Gpiocdev.AddButton dev_none (cdev_config "23" (50 * Millisecond) Gpiocdev.PullUp)
    Gpiocdev.NewButtonManager
  = (Some (Gpiocdev.ErrRequestLine "gpiochip0" 23 "device or resource busy"),
     Gpiocdev.NewButtonManager).
Proof. reflexivity. Qed.

End Fallback.

(** ** Registering an identifier again *)
Section Reregistration.
Import GoTime Sample.

(** C7 fails on the poll variant: pin GPIO11 is registered and its handle
    is open (configured, never halted); registering GPIO11 again, with
    another window, returns no error and makes the entry point to a new
    button, and the count stays 1. *)
Lemma reregistration_replaces_unreleased :
  Periph.buttons (Periph.bm periph_registered) !! "GPIO11"%string = Some 0%nat
  /\ Periph.pins periph_registered !! "GPIO11"%string
     = Some (Periph.InputMode Periph.PullNoChange Periph.BothEdges)
  /\ (Periph.AddButton board (periph_config "GPIO11" (10 * Millisecond))
        periph_registered).1 = None
  /\ Periph.buttons
       (Periph.bm (Periph.AddButton board (periph_config "GPIO11" (10 * Millisecond))
                     periph_registered).2) !! "GPIO11"%string
     = Some 1%nat
  /\ Periph.heap (Periph.AddButton board (periph_config "GPIO11" (10 * Millisecond))
                    periph_registered).2 !! 1%nat
     = Some (Periph.mkButton "GPIO11" (periph_config "GPIO11" (10 * Millisecond))
               zeroTime)
  /\ Periph.GetButtonCount
       (Periph.AddButton board (periph_config "GPIO11" (10 * Millisecond))
          periph_registered).2 = 1%nat.
Proof. vm_compute. repeat split. Qed.

(** C7, as amended.  The registry is a map, so an identifier names at most
    one entry.  Registering a configuration whose identifier already names
    an entry replaces that entry whenever the pin resolves and configures
    (poll variant), or some line request is granted (push variant); the
    state of the prior entry's handle is not consulted, and the count does
    not change. *)
Theorem reregistration_replaces_entry :
  (forall (h : Periph.Host) (cfg : Periph.ButtonConfig) (w : Periph.World)
          (p : Periph.PinIO) (prior : nat),
      Periph.buttons (Periph.bm w) !! Periph.PinName cfg = Some prior ->
      Periph.ByName h (Periph.PinName cfg) = Some p ->
      Periph.In_err h p (Periph.Pull (Periph.apply_defaults cfg)) Periph.BothEdges
      = None ->
      Periph.AddButton h cfg w = (None, Periph.registered cfg p w)
      /\ Periph.buttons (Periph.bm (Periph.registered cfg p w)) !! Periph.PinName cfg
         = Some (length (Periph.heap w))
      /\ Periph.heap (Periph.registered cfg p w) !! length (Periph.heap w)
         = Some (Periph.mkButton p (Periph.apply_defaults cfg) zeroTime)
      /\ Periph.GetButtonCount (Periph.registered cfg p w) = Periph.GetButtonCount w)
  /\ (forall (dev : Gpiocdev.Chardev) (cfg : Gpiocdev.ButtonConfig)
             (w : Gpiocdev.World) (chip : string) (offset : Z)
             (pre : list (list Gpiocdev.LineReqOption))
             (opts : list Gpiocdev.LineReqOption)
             (post : list (list Gpiocdev.LineReqOption)) (prior : Gpiocdev.button),
         Gpiocdev.buttons w
           !! Gpiocdev.registry_key (Gpiocdev.apply_defaults cfg) chip offset
         = Some prior ->
         Gpiocdev.resolveChipLine (Gpiocdev.PinName cfg) = inl (chip, offset) ->
         Gpiocdev.combos (Gpiocdev.apply_defaults cfg) = pre ++ opts :: post ->
         Forall (Gpiocdev.refused dev chip offset) pre ->
         dev chip offset opts = None ->
         Gpiocdev.AddButton dev cfg w
         = (None, Gpiocdev.registered cfg chip offset opts w)
         /\ Gpiocdev.buttons (Gpiocdev.registered cfg chip offset opts w)
              !! Gpiocdev.registry_key (Gpiocdev.apply_defaults cfg) chip offset
            = Some (Gpiocdev.mkButton (Some (Gpiocdev.mkLine opts false)) chip offset
                      (Gpiocdev.apply_defaults cfg) zeroTime zeroTime)
         /\ Gpiocdev.GetButtonCount (Gpiocdev.registered cfg chip offset opts w)
            = Gpiocdev.GetButtonCount w).
Proof.
  split.
  - intros h cfg w p prior Hprior Hn Hi.
    split; [by apply periph_AddButton_ok|].
    unfold Periph.registered, Periph.GetButtonCount. simpl.
    split; [by rewrite lookup_insert_eq|].
    split; [by rewrite lookup_app_r, Nat.sub_diag|].
    apply map_size_insert_Some. by exists prior.
  - intros dev cfg w chip offset pre opts post prior Hprior Hr Hc Hpre Hok.
    split; [by apply (cdev_AddButton_granted dev cfg w chip offset pre opts post)|].
    unfold Gpiocdev.registered, Gpiocdev.GetButtonCount. simpl.
    split; [by rewrite lookup_insert_eq|].
    apply map_size_insert_Some. by exists prior.
Qed.

Lemma reregistration_replaces_entry_witness :
  Periph.AddButton board (periph_config "GPIO11" (10 * Millisecond)) periph_registered
  = (None,
     Periph.registered (periph_config "GPIO11" (10 * Millisecond)) "GPIO11"
       periph_registered)
  /\ Periph.GetButtonCount
       (Periph.registered (periph_config "GPIO11" (10 * Millisecond)) "GPIO11"
          periph_registered)
     = Periph.GetButtonCount periph_registered.
Proof.
  destruct (proj1 reregistration_replaces_entry board
              (periph_config "GPIO11" (10 * Millisecond)) periph_registered
              "GPIO11"%string 0%nat) as (Hadd & _ & _ & Hcount).
  - vm_compute. reflexivity.
  - reflexivity.
  - reflexivity.
  - split; [exact Hadd|exact Hcount].
Defined.

End Reregistration.

(** ** Negative debounce windows *)
Section NegativeWindow.
Import GoTime Sample.

(** C10.  [AddButton] replaces the configured window by 50 ms only when it
    is exactly zero.  A negative window is kept in the stored button, and
    registration succeeds with it whenever the hardware layer grants the
    line.  Under a negative window the poll gate accepts every press the
    clock does not place before the last one, and the push handler lets
    every event through. *)
Theorem negative_window_kept_and_accepts :
  (forall cfg : Periph.ButtonConfig,
      Periph.DebounceTime (Periph.apply_defaults cfg)
      = if Periph.DebounceTime cfg =? 0 then 50 * Millisecond
        else Periph.DebounceTime cfg)
  /\ (forall (h : Periph.Host) (cfg : Periph.ButtonConfig) (w : Periph.World)
             (p : Periph.PinIO),
         Periph.DebounceTime cfg < 0 ->
         Periph.ByName h (Periph.PinName cfg) = Some p ->
         Periph.In_err h p (Periph.Pull (Periph.apply_defaults cfg)) Periph.BothEdges
         = None ->
         exists btn,
           Periph.AddButton h cfg w = (None, Periph.registered cfg p w)
           /\ Periph.buttons (Periph.bm (Periph.registered cfg p w))
                !! Periph.PinName cfg = Some (length (Periph.heap w))
           /\ Periph.heap (Periph.registered cfg p w) !! length (Periph.heap w)
              = Some btn
           /\ Periph.DebounceTime (Periph.config btn) = Periph.DebounceTime cfg)
  /\ (forall (btn : Periph.button) (now : Time),
         Periph.DebounceTime (Periph.config btn) < 0 ->
         (Periph.lastPress btn = zeroTime /\ is_now now = true)
         \/ clock_le (Periph.lastPress btn) now ->
         Periph.isDebouncePassed now btn = true)
  /\ (forall cfg : Gpiocdev.ButtonConfig,
         Gpiocdev.DebounceTime (Gpiocdev.apply_defaults cfg)
         = if Gpiocdev.DebounceTime cfg =? 0 then 50 * Millisecond
           else Gpiocdev.DebounceTime cfg)
  /\ (forall (dev : Gpiocdev.Chardev) (cfg : Gpiocdev.ButtonConfig)
             (w : Gpiocdev.World) (chip : string) (offset : Z),
         Gpiocdev.DebounceTime cfg < 0 ->
         Gpiocdev.resolveChipLine (Gpiocdev.PinName cfg) = inl (chip, offset) ->
         dev chip offset (Gpiocdev.base_options cfg ++ [Gpiocdev.WithEventHandler])
         = None ->
         exists line,
           Gpiocdev.AddButton dev cfg w
           = (None,
              Gpiocdev.mkWorld
                (<[Gpiocdev.registry_key cfg chip offset :=
                     Gpiocdev.mkButton (Some line) chip offset cfg zeroTime zeroTime]>
                   (Gpiocdev.buttons w))
                (Gpiocdev.calls w)))
  /\ (forall (cfg : Gpiocdev.ButtonConfig) (chip : string) (offset : Z)
             (now last : Time) (cs : list (nat * string)),
         Gpiocdev.DebounceTime cfg < 0 ->
         Gpiocdev.burst_guard cfg now last = false
         /\ (Gpiocdev.handler cfg chip offset now last cs).1 = now).
Proof.
  split; [exact periph_defaults_DebounceTime|]. split; [|split; [|split; [|split]]].
  - intros h cfg w p Hneg Hn Hi.
    exists (Periph.mkButton p (Periph.apply_defaults cfg) zeroTime).
    split; [by apply periph_AddButton_ok|].
    unfold Periph.registered. simpl.
    split; [by rewrite lookup_insert_eq|].
    split; [by rewrite lookup_app_r, Nat.sub_diag|].
    rewrite periph_defaults_DebounceTime.
    destruct (Z.eqb_spec (Periph.DebounceTime cfg) 0); [lia|reflexivity].
  - intros btn now Hneg Hclock. apply isDebouncePassed_iff. unfold Since.
    destruct Hclock as [[Hz Hnow]|Hle].
    + rewrite Hz. pose proof (Sub_zeroTime now Hnow). lia.
    + pose proof (clock_le_Sub _ _ Hle). lia.
  - exact cdev_defaults_DebounceTime.
  - intros dev cfg w chip offset Hneg Hr Hbare.
    assert (Hid : Gpiocdev.apply_defaults cfg = cfg)
      by (apply cdev_defaults_nonzero; lia).
    destruct (first_granted_or_all_refused dev chip offset (Gpiocdev.combos cfg))
      as [(pre & opts & post & Hsplit & Hpre & Hok)|Hall].
    + exists (Gpiocdev.mkLine opts false).
      rewrite (cdev_AddButton_granted dev cfg w chip offset pre opts post);
        try assumption; [|by rewrite Hid].
      unfold Gpiocdev.registered. by rewrite Hid.
    + destruct (combos_snoc cfg) as [sets Hs]. rewrite Hs in Hall.
      apply Forall_app in Hall as [_ Hlast].
      apply Forall_cons in Hlast as [Hlast _]. by destruct Hlast.
  - intros cfg chip offset now last cs Hneg.
    assert (Hg : Gpiocdev.burst_guard cfg now last = false).
    { apply burst_guard_false_iff. left. lia. }
    split; [exact Hg|]. unfold Gpiocdev.handler. by rewrite Hg.
Qed.

Lemma negative_window_kept_and_accepts_witness :
  (exists btn,
      Periph.AddButton board (periph_config "GPIO11" (-5)) Periph.NewButtonManager
      = (None, Periph.registered (periph_config "GPIO11" (-5)) "GPIO11"
                 Periph.NewButtonManager)
      /\ Periph.buttons
           (Periph.bm (Periph.registered (periph_config "GPIO11" (-5)) "GPIO11"
                         Periph.NewButtonManager))
           !! Periph.PinName (periph_config "GPIO11" (-5))
         = Some (length (Periph.heap Periph.NewButtonManager))
      /\ Periph.heap (Periph.registered (periph_config "GPIO11" (-5)) "GPIO11"
                        Periph.NewButtonManager)
           !! length (Periph.heap Periph.NewButtonManager) = Some btn
      /\ Periph.DebounceTime (Periph.config btn)
         = Periph.DebounceTime (periph_config "GPIO11" (-5)))
  /\ Periph.isDebouncePassed (at_ms 3)
       (Periph.updateLastPress (at_ms 3) (fresh_button (-5))) = true.
Proof.
  split.
  - apply (proj1 (proj2 negative_window_kept_and_accepts) board
             (periph_config "GPIO11" (-5)) Periph.NewButtonManager "GPIO11"%string).
    + reflexivity.
    + reflexivity.
    + reflexivity.
  - apply (proj1 (proj2 (proj2 negative_window_kept_and_accepts))).
    + reflexivity.
    + right. vm_compute. discriminate.
Defined.

End NegativeWindow.

(** ** Which edges count as a press *)
Section PressClassification.
Import GoTime.

Lemma on_edge_High (ev : Periph.edge_event) (btn : Periph.button)
  (cs : list (nat * string)) :
  Periph.e_level ev = Periph.High -> Periph.on_edge ev (btn, cs) = (btn, cs).
Proof. intros Hl. unfold Periph.on_edge. by rewrite Hl. Qed.

Lemma on_edge_Low (ev : Periph.edge_event) (btn : Periph.button)
  (cs : list (nat * string)) :
  Periph.e_level ev = Periph.Low ->
  Periph.on_edge ev (btn, cs)
  = if Periph.isDebouncePassed (Periph.e_checked ev) btn
    then (Periph.updateLastPress (Periph.e_updated ev) btn,
          Periph.invokeCallback btn cs)
    else (btn, cs).
Proof. intros Hl. unfold Periph.on_edge. by rewrite Hl. Qed.

Lemma combos_shape (cfg : Gpiocdev.ButtonConfig) (opts : list Gpiocdev.LineReqOption) :
  opts ∈ Gpiocdev.combos cfg ->
  exists extra,
    opts = Gpiocdev.base_options cfg ++ Gpiocdev.WithEventHandler :: extra
    /\ Gpiocdev.AsActiveLow ∉ extra.
Proof.
  unfold Gpiocdev.combos, Gpiocdev.pullOption.
  destruct (Gpiocdev.DebounceTime cfg >? 0);
    destruct (Gpiocdev.Pull cfg =? Gpiocdev.PullUp);
    destruct (Gpiocdev.Pull cfg =? Gpiocdev.PullDown);
    destruct (Gpiocdev.Pull cfg =? Gpiocdev.PullDisabled);
    simpl; intros Hin;
    repeat (apply elem_of_cons in Hin as [->|Hin]);
    try (by apply elem_of_nil in Hin);
    eexists; (split; [reflexivity|]);
    intros Hal; repeat (apply elem_of_cons in Hal as [Hal|Hal]; [discriminate|]);
    by apply elem_of_nil in Hal.
Qed.

(** C5 fails on the poll loop, the one that reads a level: its test does
    not follow a polarity.  For an active-high button a high level is a
    press in the specification's sense, and the loop drops it without
    consulting the gate. *)
Lemma poll_loop_ignores_polarity :
  Periph.pressed_for_polarity false Periph.High = true
  /\ Periph.isPressed Periph.High = false
  /\ Periph.on_edge (Periph.mkEdge Periph.High (Sample.at_ms 0) (Sample.at_ms 0))
       (Sample.fresh_button (50 * Millisecond), [])
     = (Sample.fresh_button (50 * Millisecond), []).
Proof. repeat split. Qed.

(** C5, as amended.  In the poll loop a level read after an edge counts as
    a press iff it is low, whatever the configuration (there is no
    polarity flag in that variant), and only a press reaches the gate: a
    high level changes nothing, and a goroutine moves on to dispatch only
    after a low level the gate accepted.  In the push variant the
    polarity flag goes into the line request: every option set asks for
    rising edges and carries [AsActiveLow] iff the flag is set. *)
Theorem press_classification :
  (forall read : Periph.Level,
      Periph.isPressed read = Periph.pressed_for_polarity true read)
  /\ (forall (ev : Periph.edge_event) (btn : Periph.button) (cs : list (nat * string)),
         Periph.on_edge ev (btn, cs)
         = if Periph.isPressed (Periph.e_level ev)
           then if Periph.isDebouncePassed (Periph.e_checked ev) btn
                then (Periph.updateLastPress (Periph.e_updated ev) btn,
                      Periph.invokeCallback btn cs)
                else (btn, cs)
           else (btn, cs))
  /\ (forall (h : Periph.Host) (i : nat) (lvl : Periph.Level) (now : Time)
             (w w' : Periph.World) (m : Periph.monitor),
         Periph.step h (Periph.Read i lvl now) w = Some w' ->
         Periph.monitors w' !! i = Some m ->
         Periph.m_pc m = Periph.Accepted ->
         lvl = Periph.Low
         /\ exists btn,
             Periph.heap w !! Periph.m_btn m = Some btn
             /\ Periph.isDebouncePassed now btn = true)
  /\ (forall (cfg : Gpiocdev.ButtonConfig) (opts : list Gpiocdev.LineReqOption),
         opts ∈ Gpiocdev.combos cfg ->
         Gpiocdev.WithRisingEdge ∈ opts
         /\ (Gpiocdev.AsActiveLow ∈ opts <-> Gpiocdev.ActiveLow cfg = true)).
Proof.
  split; [by intros []|]. split; [|split].
  - intros ev btn cs. unfold Periph.on_edge.
    destruct (Periph.isPressed _); reflexivity.
  - intros h i lvl now w w' m Hstep Hm Hpc. simpl in Hstep.
    destruct (Periph.monitors w !! i) as [[b pc]|] eqn:Hi; [|discriminate].
    destruct pc; try discriminate.
    destruct (Periph.heap w !! b) as [btn|] eqn:Hb; [|discriminate].
    destruct (Periph.isPressed lvl && Periph.isDebouncePassed now btn) eqn:Hacc;
      injection Hstep as <-; simpl in Hm;
      rewrite list_lookup_alter_eq, Hi in Hm; injection Hm as <-.
    + apply andb_prop in Hacc as [Hp Hd].
      split; [by destruct lvl|]. exists btn. split; assumption.
    + discriminate.
  - intros cfg opts Hin.
    destruct (combos_shape cfg opts Hin) as (extra & -> & Hextra).
    unfold Gpiocdev.base_options. split.
    + destruct (Gpiocdev.ActiveLow cfg); simpl; do 2 right; left.
    + destruct (Gpiocdev.ActiveLow cfg); simpl.
      * split; [reflexivity|]. intros _. do 3 right. left.
      * split; [|discriminate]. intros Hal.
        repeat (apply elem_of_cons in Hal as [Hal|Hal]; [discriminate|]).
        contradiction.
Qed.

Lemma press_classification_witness :
  Gpiocdev.WithRisingEdge
    ∈ [Gpiocdev.AsInput; Gpiocdev.WithConsumer "gpio-buttons-go";
       Gpiocdev.WithRisingEdge; Gpiocdev.AsActiveLow; Gpiocdev.WithEventHandler]
  /\ (Gpiocdev.AsActiveLow
        ∈ [Gpiocdev.AsInput; Gpiocdev.WithConsumer "gpio-buttons-go";
           Gpiocdev.WithRisingEdge; Gpiocdev.AsActiveLow; Gpiocdev.WithEventHandler]
      <-> Gpiocdev.ActiveLow
            (Sample.cdev_config "23" (50 * Millisecond) Gpiocdev.PullUp) = true).
Proof.
  apply (proj2 (proj2 (proj2 press_classification))
           (Sample.cdev_config "23" (50 * Millisecond) Gpiocdev.PullUp)).
  vm_compute. do 3 right. left.
Defined.

End PressClassification.

(** ** The goroutines of the poll variant *)
Section Goroutines.
Import GoTime.
Variable h : Periph.Host.

Lemma live_count_app (a b : list Periph.monitor) :
  Periph.live_count (a ++ b) = (Periph.live_count a + Periph.live_count b)%nat.
Proof.
  unfold Periph.live_count. induction a as [|m a IH]; [reflexivity|].
  simpl. destruct (Periph.live m); simpl; lia.
Qed.

Lemma live_count_spawned (l : list (string * nat)) :
  Periph.live_count ((fun kv : string * nat => Periph.mkMonitor kv.2 Periph.AtWait) <$> l)
  = length l.
Proof.
  unfold Periph.live_count. induction l as [|kv l IH]; [reflexivity|].
  rewrite fmap_cons. cbn [List.filter Periph.live Periph.m_pc length].
  by rewrite IH.
Qed.

Lemma live_count_alter (f : Periph.monitor -> Periph.monitor)
  (ms : list Periph.monitor) :
  forall (i : nat) (m : Periph.monitor),
    ms !! i = Some m ->
    (Periph.live_count (alter f i ms) + Nat.b2n (Periph.live m)
     = Periph.live_count ms + Nat.b2n (Periph.live (f m)))%nat.
Proof.
  unfold Periph.live_count.
  induction ms as [|m0 ms IH]; intros [|i] m Hi; try discriminate.
  - injection Hi as ->. simpl.
    destruct (Periph.live m), (Periph.live (f m)); simpl; lia.
  - simpl in Hi. specialize (IH i m Hi). unfold alter in IH. simpl.
    destruct (Periph.live m0); simpl; lia.
Qed.

Lemma live_count_zero (ms : list Periph.monitor) :
  Periph.live_count ms = 0%nat ->
  Forall (fun m => Periph.m_pc m = Periph.Exited) ms.
Proof.
  unfold Periph.live_count. induction ms as [|m ms IH]; intros Hz; [constructor|].
  simpl in Hz. destruct (Periph.live m) eqn:Hl; [discriminate|].
  constructor; [|by apply IH].
  unfold Periph.live in Hl. by destruct (Periph.m_pc m).
Qed.

Lemma live_count_pos (ms : list Periph.monitor) (i : nat) (m : Periph.monitor) :
  ms !! i = Some m -> Periph.live m = true -> (0 < Periph.live_count ms)%nat.
Proof.
  unfold Periph.live_count. revert i.
  induction ms as [|m0 ms IH]; intros [|i] Hi Hl; try discriminate.
  - injection Hi as ->. simpl. rewrite Hl. simpl. lia.
  - simpl in Hi. specialize (IH i Hi Hl). simpl.
    destruct (Periph.live m0); simpl; lia.
Qed.

(** Changing the program counter of goroutine [i]. *)
Lemma Forall_alter_pc (P : Periph.monitor -> Prop) (ms : list Periph.monitor)
  (i : nat) (pc : Periph.monitor_pc) :
  Forall P ms ->
  (forall m, ms !! i = Some m -> P (Periph.mkMonitor (Periph.m_btn m) pc)) ->
  Forall P (alter (fun m => Periph.mkMonitor (Periph.m_btn m) pc) i ms).
Proof.
  intros Hall Hnew. apply Forall_lookup. intros j m' Hj.
  destruct (decide (i = j)) as [->|Hne].
  - rewrite list_lookup_alter_eq in Hj.
    destruct (ms !! j) as [m|] eqn:Hm; [|discriminate].
    injection Hj as <-. by apply Hnew.
  - rewrite list_lookup_alter_ne in Hj by assumption.
    by apply (Forall_lookup_1 _ _ _ _ Hall Hj).
Qed.

Lemma elem_of_insert_inv (ss : list Periph.stop_pc) (i : nat)
  (x s : Periph.stop_pc) :
  s ∈ <[i := x]> ss -> s = x \/ s ∈ ss.
Proof.
  intros Hin. apply list_elem_of_lookup in Hin as [j Hj].
  apply list_lookup_insert_Some in Hj as [(-> & -> & _)|[Hne Hj]].
  - by left.
  - right. by apply list_elem_of_lookup_2 with j.
Qed.

Lemma AddButton_consistent (cfg : Periph.ButtonConfig) (w : Periph.World) :
  Periph.consistent w -> Periph.consistent (Periph.AddButton h cfg w).2.
Proof.
  intros [H1 H2 H3 H4].
  destruct (periph_AddButton_cases h cfg w)
    as [[_ ->]|[(p & cause & _ & ->)|(p & _ & ->)]]; try by constructor.
  unfold Periph.registered. constructor; simpl; try assumption.
  intros name addr Hl. destruct (decide (Periph.PinName cfg = name)) as [<-|Hne].
  - rewrite lookup_insert_eq in Hl. injection Hl as <-.
    rewrite lookup_app_r, Nat.sub_diag by lia. by eexists.
  - rewrite lookup_insert_ne in Hl by done.
    destruct (H4 _ _ Hl) as [b Hb]. exists b. by apply lookup_app_l_Some.
Qed.

Lemma Start_consistent (w : Periph.World) :
  Periph.consistent w -> Periph.consistent (Periph.Start w).2.
Proof.
  intros [H1 H2 H3 H4]. unfold Periph.Start.
  destruct (Nat.eqb _ _); [by constructor|]. constructor; simpl; try assumption.
  - by rewrite live_count_app, live_count_spawned, length_fmap, H1.
  - intros s Hs Hp. apply Forall_app. split; [by apply (H3 s)|].
    apply Forall_fmap, Forall_forall. by intros kv _.
Qed.

Lemma StopStep_consistent (i : nat) (w w' : Periph.World) :
  Periph.consistent w -> Periph.step h (Periph.StopStep i) w = Some w' ->
  Periph.consistent w'.
Proof.
  intros [H1 H2 H3 H4] Hstep. simpl in Hstep.
  destruct (Periph.stoppers w !! i) as [s0|] eqn:Hi; [|discriminate].
  assert (Hin : s0 ∈ Periph.stoppers w) by (by apply list_elem_of_lookup_2 with i).
  destruct s0; try discriminate.
  - injection Hstep as <-. constructor; simpl; try assumption.
    + by intros.
    + intros s Hs Hp. apply elem_of_insert_inv in Hs as [->|Hs];
        [discriminate|by apply (H3 s)].
  - destruct (Nat.eqb_spec (Periph.wg (Periph.bm w)) 0) as [Hz|]; [|discriminate].
    injection Hstep as <-. constructor; simpl; try assumption.
    + intros s Hs Hne. apply elem_of_insert_inv in Hs as [->|Hs];
        [by apply (H2 Periph.SWait)|by apply (H2 s)].
    + intros s _ _. rewrite Hz in H1. symmetry in H1.
      apply live_count_zero in H1. eapply Forall_impl; [exact H1|].
      intros m Hm. unfold Periph.handling. by rewrite Hm.
  - injection Hstep as <-. constructor; simpl; try assumption.
    + intros s Hs Hne. apply elem_of_insert_inv in Hs as [->|Hs];
        [by apply (H2 Periph.SHalt)|by apply (H2 s)].
    + intros s Hs Hp. apply elem_of_insert_inv in Hs as [->|Hs];
        [by apply (H3 Periph.SHalt)|by apply (H3 s)].
Qed.

(** A goroutine that moves between two program counters at which it has
    not returned leaves the state consistent, provided it does not enter
    the handling part while a caller of [Stop] is past [wg.Wait]. *)
Lemma set_pc_consistent (i b : nat) (pc pc' : Periph.monitor_pc) (w : Periph.World) :
  Periph.consistent w ->
  Periph.monitors w !! i = Some (Periph.mkMonitor b pc) ->
  Periph.live (Periph.mkMonitor b pc) = true ->
  Periph.live (Periph.mkMonitor b pc') = true ->
  (Periph.handling (Periph.mkMonitor b pc') = true ->
   Forall (fun s => Periph.past_wait s = false) (Periph.stoppers w)) ->
  Periph.consistent (Periph.set_pc i pc' w).
Proof.
  intros [H1 H2 H3 H4] Hi Hl Hl' Hq. constructor; simpl; try assumption.
  - pose proof (live_count_alter
                  (fun m => Periph.mkMonitor (Periph.m_btn m) pc')
                  (Periph.monitors w) i _ Hi) as Hc.
    simpl in Hc. rewrite Hl, Hl' in Hc. simpl in Hc. lia.
  - intros s Hs Hp. apply Forall_alter_pc; [by apply (H3 s)|].
    intros m Hm. rewrite Hi in Hm. injection Hm as <-. simpl.
    destruct (Periph.handling (Periph.mkMonitor b pc')) eqn:Hh; [|reflexivity].
    specialize (Hq eq_refl). rewrite Forall_forall in Hq.
    specialize (Hq s Hs). congruence.
Qed.

(** While a caller of [Stop] is past [wg.Wait], no goroutine is in the
    handling part. *)
Lemma handling_excludes_past_wait (i b : nat) (pc : Periph.monitor_pc)
  (w : Periph.World) :
  Periph.consistent w ->
  Periph.monitors w !! i = Some (Periph.mkMonitor b pc) ->
  Periph.handling (Periph.mkMonitor b pc) = true ->
  Forall (fun s => Periph.past_wait s = false) (Periph.stoppers w).
Proof.
  intros [_ _ H3 _] Hi Hh. apply Forall_forall. intros s Hs.
  destruct (Periph.past_wait s) eqn:Hp; [|reflexivity].
  specialize (H3 s Hs Hp).
  pose proof (Forall_lookup_1 _ _ _ _ H3 Hi) as Hf. simpl in Hf. congruence.
Qed.

Lemma step_consistent (a : Periph.action) (w w' : Periph.World) :
  Periph.consistent w -> Periph.step h a w = Some w' -> Periph.consistent w'.
Proof.
  intros Hc Hstep. destruct a as [cfg| | |i|i edge|i|i lvl now|i now].
  - injection Hstep as <-. by apply AddButton_consistent.
  - injection Hstep as <-. by apply Start_consistent.
  - injection Hstep as <-. destruct Hc as [H1 H2 H3 H4].
    constructor; simpl; try assumption.
    + intros s Hs Hne. apply elem_of_app in Hs as [Hs|Hs]; [by apply (H2 s)|].
      apply list_elem_of_singleton in Hs. contradiction.
    + intros s Hs Hp. apply elem_of_app in Hs as [Hs|Hs]; [by apply (H3 s)|].
      apply list_elem_of_singleton in Hs. subst. discriminate.
  - by apply (StopStep_consistent i w).
  - simpl in Hstep.
    destruct (Periph.monitors w !! i) as [[b pc]|] eqn:Hi; [|discriminate].
    destruct pc; try discriminate. injection Hstep as <-.
    by apply (set_pc_consistent i b Periph.AtWait).
  - simpl in Hstep.
    destruct (Periph.monitors w !! i) as [[b pc]|] eqn:Hi; [|discriminate].
    destruct pc; try discriminate.
    destruct (Periph.isShuttingDown w) eqn:Hsd; injection Hstep as <-.
    + destruct Hc as [H1 H2 H3 H4]. constructor; simpl; try assumption.
      * pose proof (live_count_alter
                      (fun m => Periph.mkMonitor (Periph.m_btn m) Periph.Exited)
                      (Periph.monitors w) i _ Hi) as Hc.
        simpl in Hc. lia.
      * intros s Hs Hp. apply Forall_alter_pc; [by apply (H3 s)|]. by intros.
    + apply (set_pc_consistent i b (Periph.Woken edge)); try done.
      * by destruct edge.
      * intros _. apply Forall_forall. intros s Hs.
        destruct (Periph.past_wait s) eqn:Hp; [|reflexivity].
        destruct Hc as [_ H2 _ _].
        assert (Periph.ctx_done (Periph.bm w) = true)
          by (apply (H2 s Hs); by destruct s).
        unfold Periph.isShuttingDown in Hsd. congruence.
  - simpl in Hstep.
    destruct (Periph.monitors w !! i) as [[b pc]|] eqn:Hi; [|discriminate].
    destruct pc; try discriminate.
    destruct (Periph.heap w !! b) as [btn|]; [|discriminate].
    pose proof (handling_excludes_past_wait i b Periph.Handling w Hc Hi eq_refl).
    destruct (_ && _); injection Hstep as <-;
      by apply (set_pc_consistent i b Periph.Handling).
  - simpl in Hstep.
    destruct (Periph.monitors w !! i) as [[b pc]|] eqn:Hi; [|discriminate].
    destruct pc; try discriminate.
    destruct (Periph.heap w !! b) as [btn|] eqn:Hb; [|discriminate].
    injection Hstep as <-.
    apply (set_pc_consistent i b Periph.Accepted); try done.
    destruct Hc as [H1 H2 H3 H4]. constructor; simpl; try assumption.
    intros name addr Hl. apply lookup_lt_is_Some. rewrite length_insert.
    apply lookup_lt_is_Some. by apply (H4 name).
Qed.

(** Every state a run reaches from a consistent state is consistent. *)
Lemma run_consistent (acts : list Periph.action) :
  forall w w' : Periph.World,
    Periph.consistent w -> Periph.run h acts w = Some w' -> Periph.consistent w'.
Proof.
  induction acts as [|a acts IH]; intros w w' Hc Hrun; simpl in Hrun.
  - by injection Hrun as <-.
  - destruct (Periph.step h a w) as [w1|] eqn:Hs; [|discriminate].
    apply (IH w1); [|assumption]. by apply (step_consistent a w).
Qed.

Lemma NewButtonManager_consistent : Periph.consistent Periph.NewButtonManager.
Proof.
  constructor; simpl.
  - reflexivity.
  - intros s Hs. by apply elem_of_nil in Hs.
  - intros s Hs. by apply elem_of_nil in Hs.
  - intros name addr Hl. by rewrite lookup_empty in Hl.
Qed.

Lemma run_app (a b : list Periph.action) :
  forall w : Periph.World,
    Periph.run h (a ++ b) w
    = match Periph.run h a w with
      | Some w' => Periph.run h b w'
      | None => None
      end.
Proof.
  induction a as [|x a IH]; intros w; simpl; [reflexivity|].
  destruct (Periph.step h x w); [apply IH|reflexivity].
Qed.

End Goroutines.

(** ** Stop, poll variant *)
Section PeriphStop.
Import GoTime.
Variable h : Periph.Host.

Lemma halt_pin_keeps_halted (hp : list Periph.button) (addr : nat)
  (ps : gmap Periph.PinIO Periph.PinMode) (q : Periph.PinIO) :
  ps !! q = Some Periph.Halted ->
  Periph.halt_pin h hp addr ps !! q = Some Periph.Halted.
Proof.
  intros Hq. unfold Periph.halt_pin.
  destruct (hp !! addr) as [btn|]; [|assumption].
  destruct (Periph.Halt_err h (Periph.pin btn)); [assumption|].
  destruct (decide (Periph.pin btn = q)) as [->|Hne].
  - by rewrite lookup_insert_eq.
  - by rewrite lookup_insert_ne.
Qed.

Lemma halt_fold_halted (hp : list Periph.button) (l : list (string * nat))
  (ps : gmap Periph.PinIO Periph.PinMode) (kv : string * nat) (btn : Periph.button) :
  kv ∈ l ->
  hp !! kv.2 = Some btn ->
  Periph.Halt_err h (Periph.pin btn) = None ->
  foldr (fun kv => Periph.halt_pin h hp kv.2) ps l !! Periph.pin btn
  = Some Periph.Halted.
Proof.
  intros Hin Hb Hok. induction l as [|kv0 l IH]; [by apply elem_of_nil in Hin|].
  simpl. apply elem_of_cons in Hin as [<-|Hin].
  - unfold Periph.halt_pin at 1. rewrite Hb, Hok. by rewrite lookup_insert_eq.
  - apply halt_pin_keeps_halted. by apply IH.
Qed.

(** After [haltAllPins], the pin of every registry entry is halted, unless
    its [Halt] failed. *)
Lemma haltAllPins_halts (w : Periph.World) (name : string) (addr : nat)
  (btn : Periph.button) :
  Periph.buttons (Periph.bm w) !! name = Some addr ->
  Periph.heap w !! addr = Some btn ->
  Periph.Halt_err h (Periph.pin btn) = None ->
  Periph.pins (Periph.haltAllPins h w) !! Periph.pin btn = Some Periph.Halted.
Proof.
  intros Hn Hb Hok. unfold Periph.haltAllPins. simpl.
  apply (halt_fold_halted (Periph.heap w) _ _ (name, addr)); try assumption.
  by apply elem_of_map_to_list.
Qed.

(** Once a call of [Stop] has returned, a step dispatches no callback, and
    the call stays returned. *)
Lemma step_after_stop (a : Periph.action) (w w' : Periph.World) :
  Periph.consistent w -> Periph.stop_returned w ->
  Periph.step h a w = Some w' ->
  Periph.calls w' = Periph.calls w /\ Periph.stop_returned w'.
Proof.
  unfold Periph.stop_returned. intros Hc Hdone Hstep.
  destruct a as [cfg| | |i|i edge|i|i lvl now|i now]; simpl in Hstep.
  - injection Hstep as <-.
    destruct (periph_AddButton_cases h cfg w)
      as [[_ ->]|[(p & cause & _ & ->)|(p & _ & ->)]]; by split.
  - injection Hstep as <-. unfold Periph.Start.
    destruct (Nat.eqb _ _); by split.
  - injection Hstep as <-. split; [reflexivity|]. simpl.
    apply elem_of_app. by left.
  - apply list_elem_of_lookup in Hdone as [j Hj].
    destruct (Periph.stoppers w !! i) as [s0|] eqn:Hi; [|discriminate].
    assert (Hne : i <> j) by (intros ->; rewrite Hj in Hi; by destruct s0).
    assert (Hkeep : forall x, Periph.SDone ∈ <[i := x]> (Periph.stoppers w)).
    { intros x. apply list_elem_of_lookup_2 with j.
      by rewrite list_lookup_insert_ne. }
    destruct s0; try discriminate.
    + injection Hstep as <-. split; [reflexivity|apply Hkeep].
    + destruct (Nat.eqb _ _); [|discriminate].
      injection Hstep as <-. split; [reflexivity|apply Hkeep].
    + injection Hstep as <-. split; [reflexivity|apply Hkeep].
  - destruct (Periph.monitors w !! i) as [[b pc]|]; [|discriminate].
    destruct pc; try discriminate. injection Hstep as <-. by split.
  - destruct (Periph.monitors w !! i) as [[b pc]|]; [|discriminate].
    destruct pc; try discriminate.
    destruct (Periph.isShuttingDown w); injection Hstep as <-; by split.
  - destruct (Periph.monitors w !! i) as [[b pc]|]; [|discriminate].
    destruct pc; try discriminate.
    destruct (Periph.heap w !! b); [|discriminate].
    destruct (_ && _); injection Hstep as <-; by split.
  - destruct (Periph.monitors w !! i) as [[b pc]|] eqn:Hi; [|discriminate].
    destruct pc; try discriminate.
    pose proof (handling_excludes_past_wait i b Periph.Accepted w Hc Hi eq_refl)
      as Hq.
    rewrite Forall_forall in Hq. specialize (Hq _ Hdone). discriminate.
Qed.

Lemma run_after_stop (acts : list Periph.action) :
  forall w w' : Periph.World,
    Periph.consistent w -> Periph.stop_returned w ->
    Periph.run h acts w = Some w' ->
    Periph.calls w' = Periph.calls w.
Proof.
  induction acts as [|a acts IH]; intros w w' Hc Hdone Hrun; simpl in Hrun.
  - by injection Hrun as <-.
  - destruct (Periph.step h a w) as [w1|] eqn:Hs; [|discriminate].
    destruct (step_after_stop a w w1 Hc Hdone Hs) as [Hcalls Hdone1].
    rewrite <- Hcalls. apply IH; try assumption.
    by apply (step_consistent h a w).
Qed.

(** C2.  In every state the poll variant reaches: a caller of [Stop] gets
    past [wg.Wait] only when every [monitorButton] goroutine has returned,
    and is blocked there while one has not; the step that ends [Stop]
    leaves the pin of every registry entry halted (where [Halt] did not
    fail); and once a call of [Stop] has returned, no run of further
    steps, edges included, dispatches a callback.  In the push variant,
    after [Stop] no registry entry has an open line and no event is
    delivered. *)
Theorem stop_waits_and_silences (acts : list Periph.action) (w : Periph.World) :
  Periph.run h acts Periph.NewButtonManager = Some w ->
  (forall (i : nat) (w' : Periph.World),
      Periph.stoppers w !! i = Some Periph.SWait ->
      Periph.step h (Periph.StopStep i) w = Some w' ->
      Forall (fun m => Periph.m_pc m = Periph.Exited) (Periph.monitors w))
  /\ (forall (i j : nat) (m : Periph.monitor),
         Periph.stoppers w !! i = Some Periph.SWait ->
         Periph.monitors w !! j = Some m -> Periph.live m = true ->
         Periph.step h (Periph.StopStep i) w = None)
  /\ (forall (i : nat) (w' : Periph.World),
         Periph.stoppers w !! i = Some Periph.SHalt ->
         Periph.step h (Periph.StopStep i) w = Some w' ->
         Periph.stoppers w' !! i = Some Periph.SDone
         /\ forall (name : string) (addr : nat),
             Periph.buttons (Periph.bm w') !! name = Some addr ->
             exists btn,
               Periph.heap w' !! addr = Some btn
               /\ (Periph.Halt_err h (Periph.pin btn) = None ->
                   Periph.pins w' !! Periph.pin btn = Some Periph.Halted))
  /\ (Periph.stop_returned w ->
      forall (more : list Periph.action) (w' : Periph.World),
        Periph.run h more w = Some w' -> Periph.calls w' = Periph.calls w)
  /\ (forall (v : Gpiocdev.World) (key : string) (now : Time),
         Gpiocdev.line_open (Gpiocdev.Stop v) key = false
         /\ Gpiocdev.deliver key now (Gpiocdev.Stop v) = None
         /\ Gpiocdev.calls (Gpiocdev.Stop v) = Gpiocdev.calls v).
Proof.
  intros Hrun.
  assert (Hc : Periph.consistent w)
    by (by apply (run_consistent h acts _ _ (NewButtonManager_consistent))).
  split; [|split; [|split; [|split]]].
  - intros i w' Hi Hstep. simpl in Hstep. rewrite Hi in Hstep.
    destruct (Nat.eqb_spec (Periph.wg (Periph.bm w)) 0) as [Hz|]; [|discriminate].
    apply live_count_zero. destruct Hc as [H1 _ _ _]. congruence.
  - intros i j m Hi Hj Hl. simpl. rewrite Hi.
    pose proof (live_count_pos _ _ _ Hj Hl) as Hpos.
    destruct Hc as [H1 _ _ _].
    destruct (Nat.eqb_spec (Periph.wg (Periph.bm w)) 0) as [Hz|]; [lia|reflexivity].
  - intros i w' Hi Hstep. simpl in Hstep. rewrite Hi in Hstep.
    injection Hstep as <-. simpl. split.
    + apply list_lookup_insert_eq. by apply lookup_lt_Some with Periph.SHalt.
    + intros name addr Hl. destruct Hc as [_ _ _ H4].
      destruct (H4 name addr Hl) as [btn Hb]. exists btn. split; [assumption|].
      intros Hok. by apply (haltAllPins_halts w name addr).
  - intros Hdone more w' Hmore. by apply (run_after_stop more w).
  - intros v key now.
    assert (Hclosed : Gpiocdev.line_open (Gpiocdev.Stop v) key = false).
    { unfold Gpiocdev.line_open, Gpiocdev.Stop. simpl. rewrite lookup_fmap.
      destruct (Gpiocdev.buttons v !! key) as [[[l|] ? ? ? ? ?]|]; reflexivity. }
    split; [assumption|]. split; [|reflexivity].
    unfold Gpiocdev.deliver. rewrite Hclosed.
    by destruct (Gpiocdev.buttons (Gpiocdev.Stop v) !! key).
Qed.

End PeriphStop.

Section PeriphStopWitness.
Import Sample.

Lemma stop_waits_and_silences_witness :
  exists w,
    Periph.run board session Periph.NewButtonManager = Some w
    /\ Periph.stop_returned w
    /\ Periph.calls w = [(7%nat, "GPIO11"%string)]
    /\ (Periph.calls <$> Periph.run board aftermath w) = Some (Periph.calls w).
Proof.
  destruct (Periph.run board session Periph.NewButtonManager) as [w|] eqn:Hrun;
    [|vm_compute in Hrun; discriminate].
  exists w. split; [reflexivity|].
  assert (Hdone : Periph.stop_returned w).
  { vm_compute in Hrun. injection Hrun as <-. left. }
  split; [exact Hdone|]. split.
  - vm_compute in Hrun. by injection Hrun as <-.
  - destruct (Periph.run board aftermath w) as [w'|] eqn:Hmore.
    + simpl. f_equal.
      exact (proj1 (proj2 (proj2 (proj2 (stop_waits_and_silences board session w Hrun))))
               Hdone aftermath w' Hmore).
    + vm_compute in Hrun. injection Hrun as <-. vm_compute in Hmore. discriminate.
Defined.

End PeriphStopWitness.

(** ** The last-press timestamp *)
Section LastPress.
Import GoTime.

Lemma Before_irrefl (t : Time) : Before t t = false.
Proof. unfold Before. destruct (mono t); lia. Qed.

Lemma Before_zeroTime (now : Time) : is_now now = true -> Before now zeroTime = false.
Proof.
  intros Hn. apply is_now_inv in Hn as (m & Hm & _ & Hw).
  unfold Before. rewrite Hm. simpl. lia.
Qed.

(** A reading that is not earlier than the readings [ts] is not before a
    timestamp that is the zero time or one of [ts]. *)
Lemma not_Before_stamp (now stamp : Time) (ts : list Time) :
  is_now now = true -> Forall (fun u => clock_le u now) ts ->
  stamp = zeroTime \/ stamp ∈ ts ->
  Before now stamp = false.
Proof.
  intros Hn Hts [->|Hin]; [by apply Before_zeroTime|].
  rewrite Forall_forall in Hts. by apply clock_le_Before, Hts.
Qed.

Lemma periph_readings_snoc (acts : list Periph.action) (a : Periph.action) :
  Periph.readings (acts ++ [a])
  = Periph.readings acts ++ match Periph.reading_of a with
                            | Some t => [t]
                            | None => []
                            end.
Proof.
  unfold Periph.readings. rewrite omap_app. simpl.
  by destruct (Periph.reading_of a).
Qed.

Lemma periph_stamped_mono (ts ts' : list Time) (w : Periph.World) :
  Periph.stamped ts w -> ts ⊆ ts' -> Periph.stamped ts' w.
Proof.
  intros Hs Hsub addr btn Hb. destruct (Hs addr btn Hb) as [Hz|Hin]; [by left|].
  right. by apply Hsub.
Qed.

Lemma periph_step_stamped (h : Periph.Host) (pre : list Periph.action)
  (a : Periph.action) (w w' : Periph.World) :
  Periph.stamped (Periph.readings pre) w ->
  Periph.step h a w = Some w' ->
  Periph.stamped (Periph.readings (pre ++ [a])) w'.
Proof.
  intros Hs Hstep. rewrite periph_readings_snoc.
  assert (Hkeep : Periph.heap w' = Periph.heap w ->
                  Periph.stamped
                    (Periph.readings pre ++ match Periph.reading_of a with
                                            | Some t => [t]
                                            | None => []
                                            end) w').
  { intros Hh addr btn Hb. rewrite Hh in Hb.
    destruct (Hs addr btn Hb) as [Hz|Hin]; [by left|].
    right. apply elem_of_app. by left. }
  destruct a as [cfg| | |i|i edge|i|i lvl now|i now]; simpl in Hstep.
  - injection Hstep as <-.
    destruct (periph_AddButton_cases h cfg w)
      as [[_ He]|[(p & cause & _ & He)|(p & _ & He)]]; rewrite He in *;
      try by apply Hkeep.
    simpl. rewrite app_nil_r. intros addr btn Hb. simpl in Hb.
    apply lookup_app_Some in Hb as [Hb|[_ Hb]]; [by apply (Hs addr)|].
    destruct (addr - length (Periph.heap w))%nat; [|discriminate].
    injection Hb as <-. by left.
  - injection Hstep as <-. apply Hkeep. unfold Periph.Start.
    by destruct (Nat.eqb _ _).
  - injection Hstep as <-. by apply Hkeep.
  - destruct (Periph.stoppers w !! i) as [[]|]; try discriminate.
    + injection Hstep as <-. by apply Hkeep.
    + destruct (Nat.eqb _ _); [|discriminate].
      injection Hstep as <-. by apply Hkeep.
    + injection Hstep as <-. by apply Hkeep.
  - destruct (Periph.monitors w !! i) as [[b pc]|]; [|discriminate].
    destruct pc; try discriminate. injection Hstep as <-. by apply Hkeep.
  - destruct (Periph.monitors w !! i) as [[b pc]|]; [|discriminate].
    destruct pc; try discriminate.
    destruct (Periph.isShuttingDown w); injection Hstep as <-; by apply Hkeep.
  - destruct (Periph.monitors w !! i) as [[b pc]|]; [|discriminate].
    destruct pc; try discriminate.
    destruct (Periph.heap w !! b); [|discriminate].
    destruct (_ && _); injection Hstep as <-; by apply Hkeep.
  - destruct (Periph.monitors w !! i) as [[b pc]|]; [|discriminate].
    destruct pc; try discriminate.
    destruct (Periph.heap w !! b) as [btn0|] eqn:Hb0; [|discriminate].
    injection Hstep as <-. intros addr btn Hb. simpl in Hb.
    apply list_lookup_insert_Some in Hb as [(-> & <- & _)|[Hne Hb]].
    + right. simpl. apply elem_of_app. right. left.
    + destruct (Hs addr btn Hb) as [Hz|Hin]; [by left|].
      right. apply elem_of_app. by left.
Qed.

Lemma periph_run_stamped (h : Periph.Host) (acts : list Periph.action) :
  forall (pre : list Periph.action) (w w' : Periph.World),
    Periph.stamped (Periph.readings pre) w ->
    Periph.run h acts w = Some w' ->
    Periph.stamped (Periph.readings (pre ++ acts)) w'.
Proof.
  induction acts as [|a acts IH]; intros pre w w' Hs Hrun; simpl in Hrun.
  - injection Hrun as <-. by rewrite app_nil_r.
  - destruct (Periph.step h a w) as [w1|] eqn:Hstep; [|discriminate].
    replace (pre ++ a :: acts) with ((pre ++ [a]) ++ acts)
      by (by rewrite <- app_assoc).
    apply (IH _ w1); [|assumption]. by apply (periph_step_stamped h pre a w).
Qed.

(** A step of the poll variant moves no last-press timestamp backwards,
    provided its clock reading is not earlier than the readings [ts] that
    stamped the buttons. *)
Lemma periph_step_lastPress (h : Periph.Host) (ts : list Time)
  (a : Periph.action) (w w' : Periph.World) :
  Periph.stamped ts w ->
  Periph.step h a w = Some w' ->
  (forall now, Periph.reading_of a = Some now ->
               is_now now = true /\ Forall (fun u => clock_le u now) ts) ->
  forall (addr : nat) (btn : Periph.button),
    Periph.heap w !! addr = Some btn ->
    exists btn',
      Periph.heap w' !! addr = Some btn'
      /\ Before (Periph.lastPress btn') (Periph.lastPress btn) = false.
Proof.
  intros Hs Hstep Hclock addr btn Hb.
  assert (Hkeep : Periph.heap w' = Periph.heap w ->
                  exists btn',
                    Periph.heap w' !! addr = Some btn'
                    /\ Before (Periph.lastPress btn') (Periph.lastPress btn) = false).
  { intros ->. exists btn. split; [assumption|apply Before_irrefl]. }
  destruct a as [cfg| | |i|i edge|i|i lvl now|i now]; simpl in Hstep.
  - injection Hstep as <-.
    destruct (periph_AddButton_cases h cfg w)
      as [[_ He]|[(p & cause & _ & He)|(p & _ & He)]]; rewrite He in *;
      try by apply Hkeep.
    exists btn. split; [|apply Before_irrefl]. simpl. by apply lookup_app_l_Some.
  - injection Hstep as <-. apply Hkeep. unfold Periph.Start.
    by destruct (Nat.eqb _ _).
  - injection Hstep as <-. by apply Hkeep.
  - destruct (Periph.stoppers w !! i) as [[]|]; try discriminate.
    + injection Hstep as <-. by apply Hkeep.
    + destruct (Nat.eqb _ _); [|discriminate].
      injection Hstep as <-. by apply Hkeep.
    + injection Hstep as <-. by apply Hkeep.
  - destruct (Periph.monitors w !! i) as [[b pc]|]; [|discriminate].
    destruct pc; try discriminate. injection Hstep as <-. by apply Hkeep.
  - destruct (Periph.monitors w !! i) as [[b pc]|]; [|discriminate].
    destruct pc; try discriminate.
    destruct (Periph.isShuttingDown w); injection Hstep as <-; by apply Hkeep.
  - destruct (Periph.monitors w !! i) as [[b pc]|]; [|discriminate].
    destruct pc; try discriminate.
    destruct (Periph.heap w !! b); [|discriminate].
    destruct (_ && _); injection Hstep as <-; by apply Hkeep.
  - destruct (Periph.monitors w !! i) as [[b pc]|]; [|discriminate].
    destruct pc; try discriminate.
    destruct (Periph.heap w !! b) as [btn0|] eqn:Hb0; [|discriminate].
    injection Hstep as <-. simpl.
    destruct (Hclock now eq_refl) as [Hnow Hts].
    destruct (decide (b = addr)) as [->|Hne].
    + exists (Periph.updateLastPress now btn0). split.
      * apply list_lookup_insert_eq. by apply lookup_lt_Some with btn0.
      * simpl. apply (not_Before_stamp now _ ts); try assumption.
        apply (Hs addr). congruence.
    + exists btn. split; [|apply Before_irrefl].
      by rewrite list_lookup_insert_ne.
Qed.

Lemma cdev_AddButton_cases (dev : Gpiocdev.Chardev) (cfg : Gpiocdev.ButtonConfig)
  (w : Gpiocdev.World) :
  (Gpiocdev.AddButton dev cfg w).2 = w
  \/ exists key line chip offset,
      (Gpiocdev.AddButton dev cfg w).2
      = Gpiocdev.mkWorld
          (<[key := Gpiocdev.mkButton line chip offset (Gpiocdev.apply_defaults cfg)
                      zeroTime zeroTime]> (Gpiocdev.buttons w))
          (Gpiocdev.calls w).
Proof.
  unfold Gpiocdev.AddButton.
  destruct (Gpiocdev.resolveChipLine _) as [[chip offset]|err]; [|by left].
  destruct (Gpiocdev.request_loop _ _ _ _ _ _) as [line [cause|]]; [by left|].
  right. by exists (Gpiocdev.registry_key (Gpiocdev.apply_defaults cfg) chip offset),
                  line, chip, offset.
Qed.

Lemma handler_last (cfg : Gpiocdev.ButtonConfig) (chip : string) (offset : Z)
  (now last : Time) (cs : list (nat * string)) :
  (Gpiocdev.handler cfg chip offset now last cs).1 = last
  \/ (Gpiocdev.handler cfg chip offset now last cs).1 = now.
Proof.
  unfold Gpiocdev.handler. destruct (Gpiocdev.burst_guard _ _ _); [by left|by right].
Qed.

Lemma cdev_readings_snoc (acts : list Gpiocdev.action) (a : Gpiocdev.action) :
  Gpiocdev.readings (acts ++ [a])
  = Gpiocdev.readings acts ++ match Gpiocdev.reading_of a with
                              | Some t => [t]
                              | None => []
                              end.
Proof.
  unfold Gpiocdev.readings. rewrite omap_app. simpl.
  by destruct (Gpiocdev.reading_of a).
Qed.

(** What [deliver] leaves: the entry [key] with the handler's new [last],
    every other entry as it was. *)
Lemma deliver_inv (key : string) (now : Time) (w w' : Gpiocdev.World) :
  Gpiocdev.deliver key now w = Some w' ->
  exists btn,
    Gpiocdev.buttons w !! key = Some btn
    /\ Gpiocdev.buttons w'
       = <[key := Gpiocdev.mkButton (Gpiocdev.line btn) (Gpiocdev.chip btn)
                    (Gpiocdev.offset btn) (Gpiocdev.config btn)
                    (Gpiocdev.lastPress btn)
                    (Gpiocdev.handler (Gpiocdev.config btn) (Gpiocdev.chip btn)
                       (Gpiocdev.offset btn) now (Gpiocdev.last btn)
                       (Gpiocdev.calls w)).1]> (Gpiocdev.buttons w).
Proof.
  unfold Gpiocdev.deliver.
  destruct (Gpiocdev.buttons w !! key) as [btn|]; [|discriminate].
  destruct (Gpiocdev.line_open w key); [|discriminate].
  destruct (Gpiocdev.handler _ _ _ _ _ _) as [last' cs] eqn:Hh.
  intros [= <-]. exists btn. split; [reflexivity|]. simpl. by rewrite Hh.
Qed.

Lemma cdev_step_stamped (dev : Gpiocdev.Chardev) (pre : list Gpiocdev.action)
  (a : Gpiocdev.action) (w w' : Gpiocdev.World) :
  Gpiocdev.stamped (Gpiocdev.readings pre) w ->
  Gpiocdev.step dev a w = Some w' ->
  Gpiocdev.stamped (Gpiocdev.readings (pre ++ [a])) w'.
Proof.
  intros Hs Hstep. rewrite cdev_readings_snoc.
  assert (Hold : forall key btn,
             Gpiocdev.buttons w !! key = Some btn ->
             Gpiocdev.last btn = zeroTime
             \/ Gpiocdev.last btn
                ∈ Gpiocdev.readings pre ++ match Gpiocdev.reading_of a with
                                           | Some t => [t]
                                           | None => []
                                           end).
  { intros key btn Hb. destruct (Hs key btn Hb) as [Hz|Hin]; [by left|].
    right. apply elem_of_app. by left. }
  destruct a as [cfg| | |key now]; simpl in Hstep.
  - injection Hstep as <-.
    destruct (cdev_AddButton_cases dev cfg w)
      as [->|(key & line & chip & offset & ->)]; [exact Hold|].
    intros k btn Hb. simpl in Hb.
    destruct (decide (key = k)) as [->|Hne].
    + rewrite lookup_insert_eq in Hb. injection Hb as <-. by left.
    + rewrite lookup_insert_ne in Hb by done. by apply (Hold k).
  - injection Hstep as <-. unfold Gpiocdev.Start.
    destruct (Nat.eqb _ _); exact Hold.
  - injection Hstep as <-. intros k btn Hb. simpl in Hb.
    rewrite lookup_fmap in Hb.
    destruct (Gpiocdev.buttons w !! k) as [btn0|] eqn:Hb0; [|discriminate].
    injection Hb as <-. simpl. by apply (Hold k).
  - apply deliver_inv in Hstep as (btn0 & Hb0 & Hbs).
    intros k btn Hb. rewrite Hbs in Hb.
    destruct (decide (key = k)) as [->|Hne].
    + rewrite lookup_insert_eq in Hb. injection Hb as <-. simpl.
      destruct (handler_last (Gpiocdev.config btn0) (Gpiocdev.chip btn0)
                  (Gpiocdev.offset btn0) now (Gpiocdev.last btn0) (Gpiocdev.calls w))
        as [->| ->].
      * by apply (Hold k).
      * right. apply elem_of_app. right. left.
    + rewrite lookup_insert_ne in Hb by done. by apply (Hold k).
Qed.

Lemma cdev_run_stamped (dev : Gpiocdev.Chardev) (acts : list Gpiocdev.action) :
  forall (pre : list Gpiocdev.action) (w w' : Gpiocdev.World),
    Gpiocdev.stamped (Gpiocdev.readings pre) w ->
    Gpiocdev.run dev acts w = Some w' ->
    Gpiocdev.stamped (Gpiocdev.readings (pre ++ acts)) w'.
Proof.
  induction acts as [|a acts IH]; intros pre w w' Hs Hrun; simpl in Hrun.
  - injection Hrun as <-. by rewrite app_nil_r.
  - destruct (Gpiocdev.step dev a w) as [w1|] eqn:Hstep; [|discriminate].
    replace (pre ++ a :: acts) with ((pre ++ [a]) ++ acts)
      by (by rewrite <- app_assoc).
    apply (IH _ w1); [|assumption]. by apply (cdev_step_stamped dev pre a w).
Qed.

Lemma cdev_step_last (dev : Gpiocdev.Chardev) (ts : list Time)
  (a : Gpiocdev.action) (w w' : Gpiocdev.World) :
  Gpiocdev.stamped ts w ->
  Gpiocdev.step dev a w = Some w' ->
  Gpiocdev.is_AddButton a = false ->
  (forall now, Gpiocdev.reading_of a = Some now ->
               is_now now = true /\ Forall (fun u => clock_le u now) ts) ->
  forall (key : string) (btn : Gpiocdev.button),
    Gpiocdev.buttons w !! key = Some btn ->
    exists btn',
      Gpiocdev.buttons w' !! key = Some btn'
      /\ Before (Gpiocdev.last btn') (Gpiocdev.last btn) = false.
Proof.
  intros Hs Hstep Hna Hclock k btn Hb.
  destruct a as [cfg| | |key now]; simpl in Hstep; try discriminate.
  - injection Hstep as <-. exists btn. unfold Gpiocdev.Start.
    destruct (Nat.eqb _ _); (split; [assumption|apply Before_irrefl]).
  - injection Hstep as <-. exists (Gpiocdev.close_button btn). split.
    + simpl. by rewrite lookup_fmap, Hb.
    + apply Before_irrefl.
  - apply deliver_inv in Hstep as (btn0 & Hb0 & Hbs).
    destruct (Hclock now eq_refl) as [Hnow Hts]. rewrite Hbs.
    destruct (decide (key = k)) as [->|Hne].
    + rewrite lookup_insert_eq. eexists. split; [reflexivity|]. simpl.
      assert (btn0 = btn) as -> by congruence.
      destruct (handler_last (Gpiocdev.config btn) (Gpiocdev.chip btn)
                  (Gpiocdev.offset btn) now (Gpiocdev.last btn) (Gpiocdev.calls w))
        as [->| ->].
      * apply Before_irrefl.
      * apply (not_Before_stamp now _ ts); try assumption. by apply (Hs k).
    + rewrite lookup_insert_ne by done. exists btn.
      split; [assumption|apply Before_irrefl].
Qed.

(** C8.  Along every run from a new manager, a step whose clock reading
    is not earlier than the readings taken before it moves no button's
    last-press timestamp backwards: in the poll variant [lastPress] of
    every button object, in the push variant the handler's [last] of every
    registry entry (a registration aside, which makes a new button). *)
Theorem last_press_never_decreases :
  (forall (h : Periph.Host) (acts : list Periph.action) (a : Periph.action)
          (w w' : Periph.World),
      Periph.run h acts Periph.NewButtonManager = Some w ->
      Periph.step h a w = Some w' ->
      (forall now, Periph.reading_of a = Some now ->
                   is_now now = true
                   /\ Forall (fun u => clock_le u now) (Periph.readings acts)) ->
      forall (addr : nat) (btn : Periph.button),
        Periph.heap w !! addr = Some btn ->
        exists btn',
          Periph.heap w' !! addr = Some btn'
          /\ Before (Periph.lastPress btn') (Periph.lastPress btn) = false)
  /\ (forall (dev : Gpiocdev.Chardev) (acts : list Gpiocdev.action)
             (a : Gpiocdev.action) (w w' : Gpiocdev.World),
         Gpiocdev.run dev acts Gpiocdev.NewButtonManager = Some w ->
         Gpiocdev.step dev a w = Some w' ->
         Gpiocdev.is_AddButton a = false ->
         (forall now, Gpiocdev.reading_of a = Some now ->
                      is_now now = true
                      /\ Forall (fun u => clock_le u now) (Gpiocdev.readings acts)) ->
         forall (key : string) (btn : Gpiocdev.button),
           Gpiocdev.buttons w !! key = Some btn ->
           exists btn',
             Gpiocdev.buttons w' !! key = Some btn'
             /\ Before (Gpiocdev.last btn') (Gpiocdev.last btn) = false).
Proof.
  split.
  - intros h acts a w w' Hrun Hstep Hclock.
    apply (periph_step_lastPress h (Periph.readings acts) a w w'); try assumption.
    apply (periph_run_stamped h acts [] Periph.NewButtonManager w); [|assumption].
    intros addr btn Hb. discriminate.
  - intros dev acts a w w' Hrun Hstep Hna Hclock.
    apply (cdev_step_last dev (Gpiocdev.readings acts) a w w'); try assumption.
    apply (cdev_run_stamped dev acts [] Gpiocdev.NewButtonManager w); [|assumption].
    intros key btn Hb. simpl in Hb. by rewrite lookup_empty in Hb.
Qed.

End LastPress.

Section LastPressWitness.
Import GoTime Sample.

Lemma last_press_never_decreases_witness :
  exists w w' btn btn',
    Periph.run board session_start Periph.NewButtonManager = Some w
    /\ Periph.step board (Periph.Dispatch 0 (at_ms 10)) w = Some w'
    /\ Periph.heap w !! 0%nat = Some btn
    /\ Periph.heap w' !! 0%nat = Some btn'
    /\ Before (Periph.lastPress btn') (Periph.lastPress btn) = false.
Proof.
  destruct (Periph.run board session_start Periph.NewButtonManager) as [w|] eqn:Hrun;
    [|vm_compute in Hrun; discriminate].
  destruct (Periph.step board (Periph.Dispatch 0 (at_ms 10)) w) as [w'|] eqn:Hstep;
    [|vm_compute in Hrun; injection Hrun as <-; vm_compute in Hstep; discriminate].
  destruct (Periph.heap w !! 0%nat) as [btn|] eqn:Hb;
    [|vm_compute in Hrun; injection Hrun as <-; vm_compute in Hb; discriminate].
  destruct (proj1 last_press_never_decreases board session_start
              (Periph.Dispatch 0 (at_ms 10)) w w' Hrun Hstep) with (addr := 0%nat)
                                                                   (btn := btn)
    as (btn' & Hb' & Hnot).
  - intros now [= <-]. split; [reflexivity|].
    repeat constructor. vm_compute. discriminate.
  - exact Hb.
  - exists w, w', btn, btn'. repeat split; assumption.
Defined.

End LastPressWitness.

(** ** Calling Stop again *)
Section StopAgain.
Import GoTime.
Variable h : Periph.Host.

(** A pin keeps its mode under the fold of [haltAllPins], unless an entry
    of the list halts it. *)
Lemma halt_fold_cases (hp : list Periph.button) (l : list (string * nat))
  (ps : gmap Periph.PinIO Periph.PinMode) (q : Periph.PinIO) :
  foldr (fun kv => Periph.halt_pin h hp kv.2) ps l !! q = ps !! q
  \/ exists kv btn,
      kv ∈ l /\ hp !! kv.2 = Some btn
      /\ Periph.Halt_err h (Periph.pin btn) = None /\ Periph.pin btn = q.
Proof.
  induction l as [|kv l IH]; [by left|]. simpl.
  destruct IH as [IH|(kv' & btn & Hin & Hb & Hok & Hq)].
  - unfold Periph.halt_pin at 1.
    destruct (hp !! kv.2) as [btn|] eqn:Hb; [|by left].
    destruct (Periph.Halt_err h (Periph.pin btn)) eqn:Hok; [by left|].
    destruct (decide (Periph.pin btn = q)) as [Hq|Hne].
    + right. exists kv, btn. repeat split; try assumption. left.
    + left. by rewrite lookup_insert_ne.
  - right. exists kv', btn. repeat split; try assumption. by right.
Qed.

Lemma halt_fold_idempotent (hp : list Periph.button) (l : list (string * nat))
  (ps : gmap Periph.PinIO Periph.PinMode) :
  foldr (fun kv => Periph.halt_pin h hp kv.2)
        (foldr (fun kv => Periph.halt_pin h hp kv.2) ps l) l
  = foldr (fun kv => Periph.halt_pin h hp kv.2) ps l.
Proof.
  apply map_eq. intros q.
  destruct (halt_fold_cases hp l
              (foldr (fun kv => Periph.halt_pin h hp kv.2) ps l) q)
    as [Hsame|(kv & btn & Hin & Hb & Hok & <-)]; [assumption|].
  by rewrite !(halt_fold_halted h hp l _ kv btn Hin Hb Hok).
Qed.

Lemma haltAllPins_idempotent (w : Periph.World) :
  Periph.haltAllPins h (Periph.haltAllPins h w) = Periph.haltAllPins h w.
Proof.
  unfold Periph.haltAllPins, Periph.set_pins. simpl. f_equal.
  apply halt_fold_idempotent.
Qed.

Lemma Stop_returns_iff (w : Periph.World) :
  is_Some (Periph.Stop h w) <-> Periph.wg (Periph.bm w) = 0%nat.
Proof.
  unfold Periph.Stop. simpl.
  destruct (Nat.eqb_spec (Periph.wg (Periph.bm w)) 0) as [Hz|Hnz]; split.
  - by intros _.
  - intros _. by eexists.
  - by intros [? ?].
  - contradiction.
Qed.

Lemma Stop_inv (w w' : Periph.World) :
  Periph.Stop h w = Some w' ->
  Periph.wg (Periph.bm w) = 0%nat /\ w' = Periph.haltAllPins h (Periph.cancel w).
Proof.
  unfold Periph.Stop. simpl.
  destruct (Nat.eqb_spec (Periph.wg (Periph.bm w)) 0) as [Hz|Hnz]; [|discriminate].
  intros [= <-]. by split.
Qed.

Lemma Stop_again (w w' : Periph.World) :
  Periph.Stop h w = Some w' -> Periph.Stop h w' = Some w'.
Proof.
  intros Hs. apply Stop_inv in Hs as [Hz ->].
  unfold Periph.Stop. simpl. rewrite Hz. simpl. f_equal.
  change (Periph.cancel (Periph.haltAllPins h (Periph.cancel w)))
    with (Periph.haltAllPins h (Periph.cancel w)).
  apply haltAllPins_idempotent.
Qed.

Lemma snoc_lookup (ss : list Periph.stop_pc) (x : Periph.stop_pc) :
  (ss ++ [x]) !! length ss = Some x.
Proof. induction ss as [|s ss IH]; [reflexivity|exact IH]. Qed.

Lemma snoc_insert (ss : list Periph.stop_pc) (x y : Periph.stop_pc) :
  <[length ss := y]> (ss ++ [x]) = ss ++ [y].
Proof.
  induction ss as [|s ss IH]; [reflexivity|]. simpl. f_equal. exact IH.
Qed.

(** The function [Stop] is what the three steps of a caller amount to when
    nothing else moves. *)
Lemma Stop_as_steps (w w' : Periph.World) :
  Periph.Stop h w = Some w' ->
  Periph.run h (Periph.stop_steps (length (Periph.stoppers w))) w
  = Some (Periph.set_stoppers (fun ss => ss ++ [Periph.SDone]) w').
Proof.
  intros Hs. apply Stop_inv in Hs as [Hz ->].
  destruct w as [[bs cd g] hp ps ms ss cs]. simpl in Hz. subst g.
  unfold Periph.stop_steps. simpl.
  repeat (first [rewrite snoc_insert | rewrite snoc_lookup]; simpl).
  unfold Periph.set_stoppers, Periph.haltAllPins, Periph.cancel,
    Periph.set_pins, Periph.set_bm. simpl.
  by rewrite !snoc_insert.
Qed.

(** Without a call of [Start] there is no goroutine, the WaitGroup counter
    is zero and no callback is dispatched. *)
Lemma run_without_Start (acts : list Periph.action) :
  forall w w' : Periph.World,
    Periph.monitors w = [] -> Periph.wg (Periph.bm w) = 0%nat ->
    Forall (fun a => Periph.is_Start a = false) acts ->
    Periph.run h acts w = Some w' ->
    Periph.monitors w' = [] /\ Periph.wg (Periph.bm w') = 0%nat
    /\ Periph.calls w' = Periph.calls w.
Proof.
  induction acts as [|a acts IH]; intros w w' Hm Hz Hns Hrun; simpl in Hrun.
  - by injection Hrun as <-.
  - apply Forall_cons in Hns as [Ha Hns].
    destruct (Periph.step h a w) as [w1|] eqn:Hstep; [|discriminate].
    assert (H1 : Periph.monitors w1 = [] /\ Periph.wg (Periph.bm w1) = 0%nat
                 /\ Periph.calls w1 = Periph.calls w).
    { destruct a as [cfg| | |i|i edge|i|i lvl now|i now]; simpl in Hstep;
        try discriminate; try (rewrite Hm in Hstep; discriminate).
      - injection Hstep as <-.
        destruct (periph_AddButton_cases h cfg w)
          as [[_ ->]|[(p & cause & _ & ->)|(p & _ & ->)]]; by repeat split.
      - injection Hstep as <-. by repeat split.
      - destruct (Periph.stoppers w !! i) as [[]|]; try discriminate.
        + injection Hstep as <-. by repeat split.
        + destruct (Nat.eqb _ _); [|discriminate].
          injection Hstep as <-. by repeat split.
        + injection Hstep as <-. by repeat split. }
    destruct H1 as (Hm1 & Hz1 & Hc1).
    destruct (IH w1 w' Hm1 Hz1 Hns Hrun) as (? & ? & ?).
    repeat split; congruence.
Qed.

(** While a goroutine is blocked in [WaitForEdge] and that call does not
    return, no caller of [Stop] gets past [wg.Wait]. *)
Lemma step_blocked (a : Periph.action) (i b : nat) (w w' : Periph.World) :
  Periph.consistent w ->
  Periph.monitors w !! i = Some (Periph.mkMonitor b Periph.AtWait) ->
  Forall (fun s => Periph.past_wait s = false) (Periph.stoppers w) ->
  Periph.is_wake a = false ->
  Periph.step h a w = Some w' ->
  Periph.monitors w' !! i = Some (Periph.mkMonitor b Periph.AtWait)
  /\ Forall (fun s => Periph.past_wait s = false) (Periph.stoppers w').
Proof.
  intros Hc Hi Hq Ha Hstep.
  assert (Hother : forall j bj pcj pc',
             Periph.monitors w !! j = Some (Periph.mkMonitor bj pcj) ->
             pcj <> Periph.AtWait ->
             Periph.monitors (Periph.set_pc j pc' w) !! i
             = Some (Periph.mkMonitor b Periph.AtWait)).
  { intros j bj pcj pc' Hj Hne. simpl.
    rewrite list_lookup_alter_ne; [assumption|].
    intros ->. rewrite Hi in Hj. congruence. }
  destruct a as [cfg| | |j|j edge|j|j lvl now|j now]; simpl in Hstep;
    try discriminate.
  - injection Hstep as <-.
    destruct (periph_AddButton_cases h cfg w)
      as [[_ ->]|[(p & cause & _ & ->)|(p & _ & ->)]]; by split.
  - injection Hstep as <-. unfold Periph.Start.
    destruct (Nat.eqb _ _); [by split|]. simpl. split; [|assumption].
    by apply lookup_app_l_Some.
  - injection Hstep as <-. simpl. split; [assumption|].
    apply Forall_app. split; [assumption|]. by repeat constructor.
  - destruct (Periph.stoppers w !! j) as [s0|] eqn:Hj; [|discriminate].
    pose proof (Forall_lookup_1 _ _ _ _ Hq Hj) as Hs0.
    destruct s0; try discriminate.
    + injection Hstep as <-. simpl. split; [assumption|].
      by apply Forall_insert.
    + destruct (Nat.eqb_spec (Periph.wg (Periph.bm w)) 0) as [Hz|]; [|discriminate].
      pose proof (live_count_pos _ _ _ Hi eq_refl) as Hpos.
      destruct Hc as [H1 _ _ _]. lia.
  - destruct (Periph.monitors w !! j) as [[bj pc]|] eqn:Hj; [|discriminate].
    destruct pc; try discriminate.
    destruct (Periph.isShuttingDown w); injection Hstep as <-.
    + split; [|assumption]. by apply (Hother j bj (Periph.Woken edge)).
    + split; [|assumption]. by apply (Hother j bj (Periph.Woken edge)).
  - destruct (Periph.monitors w !! j) as [[bj pc]|] eqn:Hj; [|discriminate].
    destruct pc; try discriminate.
    destruct (Periph.heap w !! bj); [|discriminate].
    destruct (_ && _); injection Hstep as <-;
      (split; [|assumption]); by apply (Hother j bj Periph.Handling).
  - destruct (Periph.monitors w !! j) as [[bj pc]|] eqn:Hj; [|discriminate].
    destruct pc; try discriminate.
    destruct (Periph.heap w !! bj); [|discriminate].
    injection Hstep as <-. split; [|assumption].
    by apply (Hother j bj Periph.Accepted).
Qed.

Lemma run_blocked (acts : list Periph.action) :
  forall (i b : nat) (w w' : Periph.World),
    Periph.consistent w ->
    Periph.monitors w !! i = Some (Periph.mkMonitor b Periph.AtWait) ->
    Forall (fun s => Periph.past_wait s = false) (Periph.stoppers w) ->
    Forall (fun a => Periph.is_wake a = false) acts ->
    Periph.run h acts w = Some w' ->
    ~ Periph.stop_returned w'.
Proof.
  induction acts as [|a acts IH]; intros i b w w' Hc Hi Hq Hnw Hrun; simpl in Hrun.
  - injection Hrun as <-. intros Hdone. rewrite Forall_forall in Hq.
    specialize (Hq _ Hdone). discriminate.
  - apply Forall_cons in Hnw as [Ha Hnw].
    destruct (Periph.step h a w) as [w1|] eqn:Hstep; [|discriminate].
    destruct (step_blocked a i b w w1 Hc Hi Hq Ha Hstep) as [Hi1 Hq1].
    apply (IH i b w1 w'); try assumption. by apply (step_consistent h a w).
Qed.

End StopAgain.

Section StopIdempotent.
Import GoTime Sample.

Lemma live_count_exited (ms : list Periph.monitor) :
  Forall (fun m => Periph.m_pc m = Periph.Exited) ms ->
  Periph.live_count ms = 0%nat.
Proof.
  unfold Periph.live_count. induction 1 as [|m ms Hm _ IH]; [reflexivity|].
  simpl. unfold Periph.live at 1. by rewrite Hm.
Qed.

Lemma close_button_idempotent (btn : Gpiocdev.button) :
  Gpiocdev.close_button (Gpiocdev.close_button btn) = Gpiocdev.close_button btn.
Proof. unfold Gpiocdev.close_button. simpl. by destruct (Gpiocdev.line btn). Qed.

Lemma cdev_Stop_idempotent (v : Gpiocdev.World) :
  Gpiocdev.Stop (Gpiocdev.Stop v) = Gpiocdev.Stop v.
Proof.
  unfold Gpiocdev.Stop. simpl. f_equal.
  rewrite <- map_fmap_compose. apply map_fmap_ext.
  intros key btn _. apply close_button_idempotent.
Qed.

(** C9.  [Stop] of the poll variant after [Start], with GPIO11
    registered and no further edge on the pin: the goroutine is blocked in
    [WaitForEdge], so [Stop] does not return, and no run of steps in
    which [WaitForEdge] does not return brings a call of [Stop] to its
    end. *)
Lemma stop_after_start_needs_an_edge :
  Periph.Stop board periph_started = None
  /\ ~ (exists (acts : list Periph.action) (w : Periph.World),
           Forall (fun a => Periph.is_wake a = false) acts
           /\ Periph.run board acts periph_started = Some w
           /\ Periph.stop_returned w).
Proof.
  split; [vm_compute; reflexivity|].
  intros (acts & w & Hnw & Hrun & Hdone).
  apply (run_blocked board acts 0%nat 0%nat periph_started w); try assumption.
  - apply (run_consistent board
             [Periph.CallAddButton (periph_config "GPIO11" (50 * Millisecond));
              Periph.CallStart] Periph.NewButtonManager);
      [apply NewButtonManager_consistent|reflexivity].
  - vm_compute. reflexivity.
  - vm_compute. constructor.
Qed.

End StopIdempotent.

(** * Further properties *)

(** ** Registration in the push variant *)
Section CdevRegistered.
Import GoTime.
Variable dev : Gpiocdev.Chardev.

(** [resolveChipLine] rejects the empty name, so the branch of [AddButton]
    and of the handler that builds a name from chip and offset is never
    taken. *)
Lemma resolved_key_is_PinName (cfg : Gpiocdev.ButtonConfig) (chip : string)
  (offset : Z) :
  Gpiocdev.resolveChipLine (Gpiocdev.PinName cfg) = inl (chip, offset) ->
  Gpiocdev.registry_key cfg chip offset = Gpiocdev.PinName cfg.
Proof.
  intros Hr. unfold Gpiocdev.registry_key.
  destruct (String.eqb_spec (Gpiocdev.PinName cfg) "") as [He|]; [|reflexivity].
  rewrite He in Hr. discriminate.
Qed.

(** The outcomes of [AddButton]: an error and the same world, or no error
    and a button with an open line stored under some key. *)
Lemma cdev_AddButton_outcome (cfg : Gpiocdev.ButtonConfig) (w : Gpiocdev.World) :
  (exists err, Gpiocdev.AddButton dev cfg w = (Some err, w))
  \/ (exists chip offset opts,
         Gpiocdev.resolveChipLine (Gpiocdev.PinName cfg) = inl (chip, offset)
         /\ opts ∈ Gpiocdev.combos (Gpiocdev.apply_defaults cfg)
         /\ dev chip offset opts = None
         /\ Gpiocdev.AddButton dev cfg w
            = (None, Gpiocdev.registered cfg chip offset opts w)).
Proof.
  destruct (Gpiocdev.resolveChipLine (Gpiocdev.PinName cfg))
    as [[chip offset]|err] eqn:Hr.
  - destruct (first_granted_or_all_refused dev chip offset
                (Gpiocdev.combos (Gpiocdev.apply_defaults cfg)))
      as [(pre & opts & post & Hsplit & Hpre & Hok)|Hall].
    + right. exists chip, offset, opts. split; [reflexivity|].
      split; [rewrite Hsplit; apply elem_of_app; right; left|].
      split; [assumption|].
      by apply (cdev_AddButton_granted dev cfg w chip offset pre opts post).
    + left. destruct (cdev_AddButton_refused dev cfg w chip offset Hr Hall)
        as (cause & _ & ->). by eexists.
  - left. exists err. by apply cdev_AddButton_unresolved.
Qed.

(** X1.  A successful [AddButton] of the push variant stores the button
    under [PinName] exactly as it was given (not trimmed, never the
    chip:offset form), with the defaulted configuration, the resolved chip
    and offset, and an open line; it leaves every other entry and the
    calls as they were. *)
Theorem registered_under_PinName (cfg : Gpiocdev.ButtonConfig) (w : Gpiocdev.World) :
  (Gpiocdev.AddButton dev cfg w).1 = None ->
  exists btn,
    Gpiocdev.buttons (Gpiocdev.AddButton dev cfg w).2 !! Gpiocdev.PinName cfg
    = Some btn
    /\ Gpiocdev.config btn = Gpiocdev.apply_defaults cfg
    /\ Gpiocdev.resolveChipLine (Gpiocdev.PinName cfg)
       = inl (Gpiocdev.chip btn, Gpiocdev.offset btn)
    /\ Gpiocdev.last btn = zeroTime
    /\ Gpiocdev.line_open (Gpiocdev.AddButton dev cfg w).2 (Gpiocdev.PinName cfg)
       = true
    /\ (forall key, key <> Gpiocdev.PinName cfg ->
                    Gpiocdev.buttons (Gpiocdev.AddButton dev cfg w).2 !! key
                    = Gpiocdev.buttons w !! key)
    /\ Gpiocdev.calls (Gpiocdev.AddButton dev cfg w).2 = Gpiocdev.calls w.
Proof.
  intros Hok.
  destruct (cdev_AddButton_outcome cfg w)
    as [[err He]|(chip & offset & opts & Hr & _ & _ & He)];
    rewrite He in Hok |- *; [discriminate|].
  assert (Hkey : Gpiocdev.registry_key (Gpiocdev.apply_defaults cfg) chip offset
                 = Gpiocdev.PinName cfg).
  { rewrite <- (cdev_defaults_PinName cfg).
    apply resolved_key_is_PinName. by rewrite cdev_defaults_PinName. }
  unfold Gpiocdev.registered, Gpiocdev.line_open. simpl. rewrite Hkey.
  eexists. rewrite lookup_insert_eq. split; [reflexivity|]. simpl.
  repeat split; try assumption.
  intros key Hne. by rewrite lookup_insert_ne.
Qed.

(** X2.  Callbacks do not wait for [Start] in the push variant: right
    after a successful [AddButton] with a callback, the first event on the
    line, at whatever time, calls the callback once, with [PinName] as
    given. *)
Theorem first_event_calls_back (cfg : Gpiocdev.ButtonConfig) (w : Gpiocdev.World)
  (f : nat) (now : Time) :
  (Gpiocdev.AddButton dev cfg w).1 = None ->
  Gpiocdev.Callback cfg = Some f ->
  exists w',
    Gpiocdev.deliver (Gpiocdev.PinName cfg) now (Gpiocdev.AddButton dev cfg w).2
    = Some w'
    /\ Gpiocdev.calls w' = Gpiocdev.calls w ++ [(f, Gpiocdev.PinName cfg)]
    /\ exists btn,
        Gpiocdev.buttons w' !! Gpiocdev.PinName cfg = Some btn
        /\ Gpiocdev.last btn = now.
Proof.
  intros Hok Hf.
  destruct (cdev_AddButton_outcome cfg w)
    as [[err He]|(chip & offset & opts & Hr & _ & _ & He)];
    rewrite He in Hok |- *; [discriminate|].
  assert (Hkey : Gpiocdev.registry_key (Gpiocdev.apply_defaults cfg) chip offset
                 = Gpiocdev.PinName cfg).
  { rewrite <- (cdev_defaults_PinName cfg).
    apply resolved_key_is_PinName. by rewrite cdev_defaults_PinName. }
  assert (Hcb : Gpiocdev.Callback (Gpiocdev.apply_defaults cfg) = Some f).
  { unfold Gpiocdev.apply_defaults. by destruct (_ =? _). }
  unfold Gpiocdev.registered, Gpiocdev.deliver, Gpiocdev.line_open. simpl.
  rewrite Hkey, lookup_insert_eq. simpl.
  unfold Gpiocdev.handler, Gpiocdev.burst_guard. simpl.
  rewrite andb_false_r. simpl. rewrite Hcb, Hkey.
  eexists. split; [reflexivity|]. simpl.
  split; [reflexivity|]. eexists. by rewrite lookup_insert_eq.
Qed.

End CdevRegistered.

(** ** Events in the push variant *)
Section CdevEvents.
Import GoTime.

Lemma button_eta (btn : Gpiocdev.button) :
  Gpiocdev.mkButton (Gpiocdev.line btn) (Gpiocdev.chip btn) (Gpiocdev.offset btn)
    (Gpiocdev.config btn) (Gpiocdev.lastPress btn) (Gpiocdev.last btn) = btn.
Proof. by destruct btn. Qed.

(** An event the guard stops changes nothing. *)
Lemma deliver_dropped (key : string) (now : Time) (w : Gpiocdev.World)
  (btn : Gpiocdev.button) :
  Gpiocdev.buttons w !! key = Some btn ->
  Gpiocdev.line_open w key = true ->
  Gpiocdev.burst_guard (Gpiocdev.config btn) now (Gpiocdev.last btn) = true ->
  Gpiocdev.deliver key now w = Some w.
Proof.
  intros Hb Ho Hg. unfold Gpiocdev.deliver, Gpiocdev.handler.
  rewrite Hb, Ho, Hg, button_eta, insert_id by assumption.
  by destruct w.
Qed.

(** An event the guard lets through sets [last] and calls the callback. *)
Lemma deliver_accepted (key : string) (now : Time) (w : Gpiocdev.World)
  (btn : Gpiocdev.button) :
  Gpiocdev.buttons w !! key = Some btn ->
  Gpiocdev.line_open w key = true ->
  Gpiocdev.burst_guard (Gpiocdev.config btn) now (Gpiocdev.last btn) = false ->
  Gpiocdev.deliver key now w
  = Some (Gpiocdev.mkWorld
            (<[key := Gpiocdev.mkButton (Gpiocdev.line btn) (Gpiocdev.chip btn)
                        (Gpiocdev.offset btn) (Gpiocdev.config btn)
                        (Gpiocdev.lastPress btn) now]> (Gpiocdev.buttons w))
            match Gpiocdev.Callback (Gpiocdev.config btn) with
            | Some f =>
                Gpiocdev.calls w
                ++ [(f, Gpiocdev.registry_key (Gpiocdev.config btn)
                          (Gpiocdev.chip btn) (Gpiocdev.offset btn))]
            | None => Gpiocdev.calls w
            end).
Proof.
  intros Hb Ho Hg. unfold Gpiocdev.deliver, Gpiocdev.handler.
  by rewrite Hb, Ho, Hg.
Qed.

Lemma burst_dropped (key : string) (evs : list Time) (w : Gpiocdev.World)
  (btn : Gpiocdev.button) :
  Gpiocdev.buttons w !! key = Some btn ->
  Gpiocdev.line_open w key = true ->
  0 < Gpiocdev.DebounceTime (Gpiocdev.config btn) ->
  IsZero (Gpiocdev.last btn) = false ->
  Forall (fun t => Sub t (Gpiocdev.last btn)
                   <= Gpiocdev.DebounceTime (Gpiocdev.config btn) ÷ 2) evs ->
  Gpiocdev.deliver_all key evs w = Some w.
Proof.
  intros Hb Ho Hpos Hnz Hall.
  induction Hall as [|t evs Ht _ IH]; [reflexivity|].
  simpl. rewrite (deliver_dropped key t w btn); try assumption.
  unfold Gpiocdev.burst_guard. rewrite Hnz. simpl.
  apply andb_true_iff. split; [|by apply Z.leb_le].
  rewrite andb_true_r. by apply Z.gtb_lt.
Qed.

(** X3.  A burst collapses to one call in the push variant: when the
    window is positive, an event that passes the guard at clock reading
    [t0], followed by any number of events that are each within half the
    window of [t0], calls the callback exactly once and leaves [t0] as the
    time of the last accepted event. *)
Theorem burst_gives_one_call (key : string) (w : Gpiocdev.World)
  (btn : Gpiocdev.button) (f : nat) (t0 : Time) (evs : list Time) :
  Gpiocdev.buttons w !! key = Some btn ->
  Gpiocdev.line_open w key = true ->
  Gpiocdev.Callback (Gpiocdev.config btn) = Some f ->
  0 < Gpiocdev.DebounceTime (Gpiocdev.config btn) ->
  IsZero t0 = false ->
  IsZero (Gpiocdev.last btn) = true
  \/ Sub t0 (Gpiocdev.last btn) > Gpiocdev.DebounceTime (Gpiocdev.config btn) ÷ 2 ->
  Forall (fun t => Sub t t0 <= Gpiocdev.DebounceTime (Gpiocdev.config btn) ÷ 2) evs ->
  exists w',
    Gpiocdev.deliver_all key (t0 :: evs) w = Some w'
    /\ Gpiocdev.calls w'
       = Gpiocdev.calls w
         ++ [(f, Gpiocdev.registry_key (Gpiocdev.config btn) (Gpiocdev.chip btn)
                   (Gpiocdev.offset btn))]
    /\ (exists btn', Gpiocdev.buttons w' !! key = Some btn'
                     /\ Gpiocdev.last btn' = t0)
    /\ forall key', key' <> key ->
                    Gpiocdev.buttons w' !! key' = Gpiocdev.buttons w !! key'.
Proof.
  intros Hb Ho Hf Hpos Hnz Hpass Hall.
  assert (Hg : Gpiocdev.burst_guard (Gpiocdev.config btn) t0 (Gpiocdev.last btn)
               = false).
  { apply burst_guard_false_iff. tauto. }
  simpl. rewrite (deliver_accepted key t0 w btn Hb Ho Hg), Hf.
  eexists. split.
  - eapply burst_dropped.
    + simpl. apply lookup_insert_eq.
    + unfold Gpiocdev.line_open in *. simpl. rewrite lookup_insert_eq.
      rewrite Hb in Ho. by destruct btn as [[l|] ? ? ? ? ?].
    + assumption.
    + assumption.
    + assumption.
  - simpl. split; [reflexivity|]. split.
    + eexists. by rewrite lookup_insert_eq.
    + intros key' Hne. by rewrite lookup_insert_ne.
Qed.

End CdevEvents.

(** ** The states the push variant reaches *)
Section CdevReach.
Import GoTime.
Variable dev : Gpiocdev.Chardev.

Lemma well_formed_key (w : Gpiocdev.World) (key : string) (btn : Gpiocdev.button) :
  Reach.well_formed w ->
  Gpiocdev.buttons w !! key = Some btn ->
  Gpiocdev.registry_key (Gpiocdev.config btn) (Gpiocdev.chip btn)
    (Gpiocdev.offset btn) = key.
Proof.
  intros Hwf Hb. destruct (Hwf key btn Hb) as (Hk & Hr & _).
  rewrite Hk in Hr |- *. by apply (resolved_key_is_PinName _ _ _ Hr).
Qed.

Lemma step_well_formed (a : Gpiocdev.action) (w w' : Gpiocdev.World) :
  Reach.well_formed w -> Gpiocdev.step dev a w = Some w' -> Reach.well_formed w'.
Proof.
  intros Hwf Hstep. destruct a as [cfg| | |key now]; simpl in Hstep.
  - injection Hstep as <-.
    destruct (cdev_AddButton_outcome dev cfg w)
      as [[err He]|(chip & offset & opts & Hr & _ & _ & He)]; rewrite He; simpl;
      [assumption|].
    assert (Hkey : Gpiocdev.registry_key (Gpiocdev.apply_defaults cfg) chip offset
                   = Gpiocdev.PinName cfg).
    { rewrite <- (cdev_defaults_PinName cfg).
      apply resolved_key_is_PinName. by rewrite cdev_defaults_PinName. }
    intros key btn. unfold Gpiocdev.registered. simpl. rewrite Hkey.
    destruct (decide (key = Gpiocdev.PinName cfg)) as [->|Hne].
    + rewrite lookup_insert_eq. intros [= <-]. simpl.
      rewrite cdev_defaults_PinName. repeat split; try assumption; [|by eexists].
      rewrite cdev_defaults_DebounceTime.
      destruct (Z.eqb_spec (Gpiocdev.DebounceTime cfg) 0); [discriminate|assumption].
    + rewrite lookup_insert_ne by congruence. apply Hwf.
  - injection Hstep as <-. unfold Gpiocdev.Start.
    by destruct (Nat.eqb _ _).
  - injection Hstep as <-. intros key btn. unfold Gpiocdev.Stop. simpl.
    rewrite lookup_fmap.
    destruct (Gpiocdev.buttons w !! key) as [old|] eqn:Hb; [|discriminate].
    intros [= <-]. destruct (Hwf key old Hb) as (Hk & Hr & Hd & Hl & Hline).
    unfold Gpiocdev.close_button. simpl. repeat split; try assumption.
    destruct Hline as [l ->]. by eexists.
  - destruct (deliver_inv key now w w' Hstep) as (old & Hb & Hbs).
    intros key' btn. rewrite Hbs.
    destruct (decide (key' = key)) as [->|Hne].
    + rewrite lookup_insert_eq. intros [= <-]. simpl. by apply Hwf.
    + rewrite lookup_insert_ne by congruence. apply Hwf.
Qed.

Lemma step_named_calls (a : Gpiocdev.action) (w w' : Gpiocdev.World) :
  Reach.well_formed w -> Reach.named_calls w ->
  Gpiocdev.step dev a w = Some w' -> Reach.named_calls w'.
Proof.
  intros Hwf Hnc Hstep. destruct a as [cfg| | |key now]; simpl in Hstep.
  - injection Hstep as <-.
    destruct (cdev_AddButton_cases dev cfg w)
      as [He|(key & line & chip & offset & He)]; rewrite He; [assumption|].
    intros f name Hin. simpl in *. apply lookup_insert_is_Some'. right.
    by apply (Hnc f).
  - injection Hstep as <-. unfold Gpiocdev.Start.
    by destruct (Nat.eqb _ _).
  - injection Hstep as <-. intros f name Hin. unfold Gpiocdev.Stop in *.
    simpl in *. rewrite lookup_fmap. apply fmap_is_Some. by apply (Hnc f).
  - unfold Gpiocdev.deliver in Hstep.
    destruct (Gpiocdev.buttons w !! key) as [btn|] eqn:Hb; [|discriminate].
    destruct (Gpiocdev.line_open w key); [|discriminate].
    unfold Gpiocdev.handler in Hstep.
    rewrite (well_formed_key w key btn Hwf Hb) in Hstep.
    destruct (Gpiocdev.burst_guard _ _ _); injection Hstep as <-;
      intros f name Hin; simpl in *; apply lookup_insert_is_Some'.
    + right. by apply (Hnc f).
    + destruct (Gpiocdev.Callback (Gpiocdev.config btn)) as [g|].
      * apply elem_of_app in Hin as [Hin|Hin]; [right; by apply (Hnc f)|].
        apply list_elem_of_singleton in Hin. injection Hin as _ ->. by left.
      * right. by apply (Hnc f).
Qed.

Lemma run_reach (acts : list Gpiocdev.action) :
  forall w w', Reach.well_formed w -> Reach.named_calls w ->
               Gpiocdev.run dev acts w = Some w' ->
               Reach.well_formed w' /\ Reach.named_calls w'.
Proof.
  induction acts as [|a acts IH]; intros w w' Hwf Hnc Hrun; simpl in Hrun.
  - injection Hrun as <-. by split.
  - destruct (Gpiocdev.step dev a w) as [w1|] eqn:Hstep; [|discriminate].
    apply (IH w1 w'); [| |assumption].
    + by apply (step_well_formed a w).
    + by apply (step_named_calls a w).
Qed.

(** X4.  In every state the push variant reaches from a new manager,
    each registry entry is stored under the [PinName] of its
    configuration, that name resolves to the entry's chip and offset, its
    window is not zero, its line was requested, and its [lastPress] field
    is still the zero time (the handler records presses in [last] only);
    and every callback so far was called with the name of an entry of the
    registry. *)
Theorem reached_registry_well_formed (acts : list Gpiocdev.action)
  (w : Gpiocdev.World) :
  Gpiocdev.run dev acts Gpiocdev.NewButtonManager = Some w ->
  Reach.well_formed w /\ Reach.named_calls w.
Proof.
  apply run_reach.
  - intros key btn Hb. simpl in Hb. by rewrite lookup_empty in Hb.
  - intros f name Hin. simpl in Hin. by apply elem_of_nil in Hin.
Qed.

End CdevReach.

(** ** The push variant after [Stop] *)
Section CdevStopped.
Import GoTime.
Variable dev : Gpiocdev.Chardev.

Lemma Stop_all_closed (w : Gpiocdev.World) : Reach.all_closed (Gpiocdev.Stop w).
Proof.
  intros key. unfold Gpiocdev.line_open, Gpiocdev.Stop. simpl.
  rewrite lookup_fmap.
  destruct (Gpiocdev.buttons w !! key) as [[[l|] ? ? ? ? ?]|]; reflexivity.
Qed.

Lemma closed_no_event (key : string) (now : Time) (w : Gpiocdev.World) :
  Reach.all_closed w -> Gpiocdev.deliver key now w = None.
Proof.
  intros Hc. unfold Gpiocdev.deliver. rewrite (Hc key).
  by destruct (Gpiocdev.buttons w !! key).
Qed.

Lemma run_all_closed (acts : list Gpiocdev.action) :
  forall w w',
    Reach.all_closed w ->
    Forall (fun a => Gpiocdev.is_AddButton a = false) acts ->
    Gpiocdev.run dev acts w = Some w' ->
    Forall (fun a => Reach.is_Event a = false) acts
    /\ Reach.all_closed w'
    /\ Gpiocdev.calls w' = Gpiocdev.calls w
    /\ Gpiocdev.GetButtonCount w' = Gpiocdev.GetButtonCount w.
Proof.
  induction acts as [|a acts IH]; intros w w' Hc Hna Hrun; simpl in Hrun.
  - injection Hrun as <-. by repeat split.
  - apply Forall_cons in Hna as [Ha Hna].
    destruct (Gpiocdev.step dev a w) as [w1|] eqn:Hstep; [|discriminate].
    destruct a as [cfg| | |key now]; simpl in Hstep, Ha; try discriminate.
    + injection Hstep as <-.
      assert (Hsame : (Gpiocdev.Start w).2 = w).
      { unfold Gpiocdev.Start. by destruct (Nat.eqb _ _). }
      rewrite Hsame in Hrun.
      destruct (IH w w' Hc Hna Hrun) as (He & Hc' & Hcs & Hn).
      repeat split; try assumption. by constructor.
    + injection Hstep as <-.
      destruct (IH (Gpiocdev.Stop w) w' (Stop_all_closed w) Hna Hrun)
        as (He & Hc' & Hcs & Hn).
      repeat split; try assumption; [by constructor|].
      rewrite Hn. unfold Gpiocdev.GetButtonCount, Gpiocdev.Stop. simpl.
      apply map_size_fmap.
    + by rewrite closed_no_event in Hstep.
Qed.

(** X5.  Once [Stop] of the push variant has run, every line of the
    registry is closed and no handler runs any more: a run that follows it
    and adds no button contains no event, leaves the calls as they were,
    keeps every line closed and keeps the button count ([Stop] removes no
    entry, and [Start] does not reopen a line). *)
Theorem stopped_lines_stay_silent (acts : list Gpiocdev.action)
  (w w' : Gpiocdev.World) :
  Forall (fun a => Gpiocdev.is_AddButton a = false) acts ->
  Gpiocdev.run dev acts (Gpiocdev.Stop w) = Some w' ->
  Forall (fun a => Reach.is_Event a = false) acts
  /\ Reach.all_closed w'
  /\ Gpiocdev.calls w' = Gpiocdev.calls w
  /\ Gpiocdev.GetButtonCount w' = Gpiocdev.GetButtonCount w.
Proof.
  intros Hna Hrun.
  destruct (run_all_closed acts (Gpiocdev.Stop w) w' (Stop_all_closed w) Hna Hrun)
    as (He & Hc & Hcs & Hn).
  repeat split; try assumption.
  rewrite Hn. unfold Gpiocdev.GetButtonCount, Gpiocdev.Stop. simpl.
  apply map_size_fmap.
Qed.

(** X6.  In the push variant only events call callbacks, each at most
    once: over any run the calls grow at the end only, by at most the
    number of events delivered. *)
Theorem calls_only_from_events (acts : list Gpiocdev.action)
  (w w' : Gpiocdev.World) :
  Gpiocdev.run dev acts w = Some w' ->
  exists cs,
    Gpiocdev.calls w' = Gpiocdev.calls w ++ cs
    /\ (length cs <= length (List.filter Reach.is_Event acts))%nat.
Proof.
  revert w. induction acts as [|a acts IH]; intros w Hrun; simpl in Hrun.
  - injection Hrun as <-. exists []. by rewrite app_nil_r.
  - destruct (Gpiocdev.step dev a w) as [w1|] eqn:Hstep; [|discriminate].
    destruct (IH w1 Hrun) as (cs & Hcs & Hlen).
    destruct a as [cfg| | |key now]; simpl in Hstep.
    + injection Hstep as <-. exists cs. split; [|exact Hlen].
      rewrite Hcs.
      by destruct (cdev_AddButton_cases dev cfg w)
        as [->|(key & line & chip & offset & ->)].
    + injection Hstep as <-. exists cs. split; [|exact Hlen].
      rewrite Hcs. unfold Gpiocdev.Start. by destruct (Nat.eqb _ _).
    + injection Hstep as <-. exists cs. by split.
    + unfold Gpiocdev.deliver, Gpiocdev.handler in Hstep.
      destruct (Gpiocdev.buttons w !! key) as [btn|]; [|discriminate].
      destruct (Gpiocdev.line_open w key); [|discriminate].
      destruct (Gpiocdev.burst_guard _ _ _); injection Hstep as <-; simpl in *.
      * exists cs. split; [assumption|lia].
      * destruct (Gpiocdev.Callback (Gpiocdev.config btn)) as [f|].
        -- eexists (_ :: cs). rewrite Hcs, <- app_assoc. split; [reflexivity|].
           simpl. lia.
        -- exists cs. split; [assumption|lia].
Qed.

End CdevStopped.

(** ** The requests of the fallback *)
Section FallbackRequests.
Import GoTime.




End FallbackRequests.

(** ** Names of the form chip:offset *)
Section ChipLineNames.
Import GoTime GoStrings.

Lemma uncodes_codes (s : string) : uncodes (codes s) = s.
Proof.
  unfold uncodes, codes, code. induction s as [|c s IH]; [reflexivity|].
  cbn in *. rewrite ascii_N_embedding. f_equal. exact IH.
Qed.

Lemma trim_with_0 (width : list N -> nat) (fuel : nat) (cs : list N) :
  width cs = 0%nat -> trim_with width fuel cs = cs.
Proof. intros Hw. destruct fuel; simpl; [reflexivity|]. by rewrite Hw. Qed.

(** A string with no white space at either end is its own trimming. *)
Lemma TrimSpace_id (s : string) :
  space_prefix (codes s) = 0%nat ->
  space_suffix (reverse (codes s)) = 0%nat ->
  TrimSpace s = s.
Proof.
  intros Hp Hs. unfold TrimSpace.
  rewrite (trim_with_0 _ _ _ Hp), (trim_with_0 _ _ _ Hs), reverse_involutive.
  apply uncodes_codes.
Qed.

(** A visible ASCII character is no white space and no part of a
    multi-byte white space rune. *)
Lemma graphic_no_space (n : N) (rest : list N) :
  (33 <= n <= 126)%N ->
  space_prefix (n :: rest) = 0%nat /\ space_suffix (n :: rest) = 0%nat.
Proof.
  intros [Hlo Hhi]. destruct n as [|p]; [lia|].
  do 7 (try destruct p as [p|p|]); try lia; (split; [reflexivity|]);
    cbn; repeat case_match; reflexivity.
Qed.

Lemma append_cons (x : ascii) (a b : string) :
  (String x a ++ b = String x (a ++ b))%string.
Proof. reflexivity. Qed.

Lemma append_nil (b : string) : (EmptyString ++ b = b)%string.
Proof. reflexivity. Qed.

Lemma string_app_assoc (a b c : string) :
  ((a ++ b) ++ c = a ++ (b ++ c))%string.
Proof.
  induction a as [|x a IH]; [reflexivity|]. by rewrite !append_cons, IH.
Qed.

Lemma pretty_char_digit (m : N) :
  (m < 10)%N ->
  is_digit (pretty_N_char m) = true
  /\ Z.of_N (code (pretty_N_char m) - 48) = Z.of_N m
  /\ (33 <= code (pretty_N_char m) <= 126)%N
  /\ Ascii.eqb (pretty_N_char m) ":" = false.
Proof.
  intros Hm. destruct m as [|p]; [by vm_compute|].
  do 4 (try destruct p as [p|p|]); try lia; by vm_compute.
Qed.

(** What [pretty_N_go] puts in front of its accumulator: decimal digits
    whose value is [x], ending in a visible character, without a colon. *)
Lemma pretty_go_digits (x : N) :
  forall s, exists t k,
    pretty_N_go x s = (t ++ s)%string
    /\ 0 <= k
    /\ (forall a s', digits a (t ++ s') = digits (a * 10 ^ k + Z.of_N x) s')
    /\ (forall s', ContainsColon (t ++ s') = ContainsColon s').
Proof.
  induction (N.lt_wf_0 x) as [x _ IH]. intros s.
  destruct (decide (0 < x)%N) as [Hpos|Hz].
  - rewrite pretty_N_go_step by assumption.
    assert (Hlt : (x `div` 10 < x)%N) by (apply N.div_lt; lia).
    assert (Hm : (x `mod` 10 < 10)%N) by (apply N.mod_lt; lia).
    destruct (IH _ Hlt (String (pretty_N_char (x `mod` 10)) s))
      as (t & k & Ht & Hk & Hd & Hc).
    destruct (pretty_char_digit _ Hm) as (Hdig & Hval & _ & Hcol).
    exists (t ++ String (pretty_N_char (x `mod` 10)) "")%string, (k + 1).
    split; [|split; [lia|split]].
    + rewrite Ht, string_app_assoc. reflexivity.
    + intros a s'. rewrite string_app_assoc, append_cons, append_nil.
      rewrite Hd. simpl. rewrite Hdig, Hval. f_equal.
      rewrite Z.pow_add_r, Z.pow_1_r by lia.
      rewrite N2Z.inj_div, N2Z.inj_mod.
      change (Z.of_N 10) with 10.
      pose proof (Z.div_mod (Z.of_N x) 10). lia.
    + intros s'. rewrite string_app_assoc, append_cons, append_nil.
      rewrite Hc. simpl. by rewrite Hcol.
  - assert (x = 0%N) as -> by lia. rewrite pretty_N_go_0.
    exists ""%string, 0. split; [reflexivity|split; [lia|split]].
    + intros a s'. rewrite append_nil. f_equal. lia.
    + reflexivity.
Qed.

Lemma codes_app (a b : string) : codes (a ++ b) = codes a ++ codes b.
Proof.
  induction a as [|x a IH]; [reflexivity|].
  rewrite append_cons. unfold codes in *. cbn. by rewrite IH.
Qed.

Lemma TrimSpace_graphic_ends (s rest front : string) (c d : ascii) :
  s = String c rest -> s = (front ++ String d EmptyString)%string ->
  (33 <= code c <= 126)%N -> (33 <= code d <= 126)%N ->
  TrimSpace s = s.
Proof.
  intros Hc Hd Hgc Hgd. apply TrimSpace_id.
  - rewrite Hc. apply (graphic_no_space (code c) (codes rest) Hgc).
  - rewrite Hd, codes_app, reverse_app.
    apply (graphic_no_space (code d) (reverse (codes front)) Hgd).
Qed.

(** The decimal digits of a positive number. *)
Lemma pretty_pos_digits (p : positive) :
  digits 0 (pretty_N_go (N.pos p) "") = Some (Z.pos p)
  /\ ContainsColon (pretty_N_go (N.pos p) "") = false
  /\ (exists front d, pretty_N_go (N.pos p) "" = (front ++ String d "")%string
                      /\ (33 <= code d <= 126)%N)
  /\ (exists c rest, pretty_N_go (N.pos p) "" = String c rest
                     /\ is_digit c = true).
Proof.
  destruct (pretty_go_digits (N.pos p) "") as (t & k & Ht & Hk & Hd & Hc).
  assert (Hval : digits 0 (pretty_N_go (N.pos p) "") = Some (Z.pos p)).
  { rewrite Ht, Hd. simpl. f_equal. }
  split; [exact Hval|]. split; [by rewrite Ht, Hc|]. split.
  - rewrite pretty_N_go_step by lia.
    assert (Hm : (N.pos p `mod` 10 < 10)%N) by (apply N.mod_lt; lia).
    destruct (pretty_char_digit _ Hm) as (_ & _ & Hg & _).
    destruct (pretty_go_digits (N.pos p `div` 10)
                (String (pretty_N_char (N.pos p `mod` 10)) ""))
      as (front & _ & Hfront & _).
    by exists front, (pretty_N_char (N.pos p `mod` 10)).
  - destruct (pretty_N_go (N.pos p) "") as [|c rest]; [discriminate|].
    exists c, rest. split; [reflexivity|].
    simpl in Hval. by destruct (is_digit c).
Qed.

Lemma digit_no_sign (c : ascii) :
  is_digit c = true ->
  Ascii.eqb c "-" = false /\ Ascii.eqb c "+" = false
  /\ (33 <= code c <= 126)%N.
Proof.
  unfold is_digit. intros Hd. apply andb_true_iff in Hd as [Hlo Hhi].
  apply N.leb_le in Hlo, Hhi. repeat split; try lia.
  - destruct (Ascii.eqb_spec c "-") as [->|]; [|reflexivity].
    vm_compute in Hlo. contradiction.
  - destruct (Ascii.eqb_spec c "+") as [->|]; [|reflexivity].
    vm_compute in Hlo. contradiction.
Qed.

(** [strconv.Atoi] reads back what [%d] prints, for every int64. *)
Lemma Atoi_pretty (z : Z) :
  - 2 ^ 63 <= z <= 2 ^ 63 - 1 -> Atoi (pretty z) = Some z.
Proof.
  intros Hr. destruct z as [|p|p].
  - reflexivity.
  - change (pretty (Z.pos p)) with (pretty_N_go (N.pos p) "").
    destruct (pretty_pos_digits p) as (Hval & _ & _ & c & rest & Hs & Hdig).
    rewrite Hs in *. destruct (digit_no_sign c Hdig) as (Hm & Hp & _).
    unfold Atoi. cbv zeta. rewrite Hm, Hp. simpl orb. cbv iota. rewrite Hval.
    destruct (Z.leb_spec (- 2 ^ 63) (Z.pos p)); [|lia].
    destruct (Z.leb_spec (Z.pos p) (2 ^ 63 - 1)); [reflexivity|lia].
  - change (pretty (Z.neg p)) with (String "-" (pretty_N_go (N.pos p) "")).
    destruct (pretty_pos_digits p) as (Hval & _ & _ & c & rest & Hs & Hdig).
    rewrite Hs in *. unfold Atoi. cbv zeta.
    change (Ascii.eqb "-" "-") with true. simpl orb. cbv iota.
    rewrite Hval.
    change (- Z.pos p) with (Z.neg p).
    destruct (Z.leb_spec (- 2 ^ 63) (Z.neg p)); [|lia].
    destruct (Z.leb_spec (Z.neg p) (2 ^ 63 - 1)); [reflexivity|lia].
Qed.

(** What [%d] prints starts and ends with a visible character and has no
    colon. *)
Lemma pretty_shape (z : Z) :
  ContainsColon (pretty z) = false
  /\ (exists front d, pretty z = (front ++ String d "")%string
                      /\ (33 <= code d <= 126)%N)
  /\ (exists c rest, pretty z = String c rest /\ (33 <= code c <= 126)%N).
Proof.
  destruct z as [|p|p].
  - split; [reflexivity|]. split.
    + exists ""%string, "0"%char. split; [reflexivity|by vm_compute].
    + exists "0"%char, ""%string. split; [reflexivity|by vm_compute].
  - change (pretty (Z.pos p)) with (pretty_N_go (N.pos p) "").
    destruct (pretty_pos_digits p)
      as (_ & Hc & (front & d & Hf & Hg) & c & rest & Hs & Hdig).
    split; [exact Hc|]. split; [by exists front, d|].
    exists c, rest. split; [exact Hs|]. by apply digit_no_sign.
  - change (pretty (Z.neg p)) with (String "-" (pretty_N_go (N.pos p) "")).
    destruct (pretty_pos_digits p)
      as (_ & Hc & (front & d & Hf & Hg) & _).
    split; [simpl; exact Hc|]. split.
    + exists (String "-" front), d. split; [|exact Hg].
      by rewrite append_cons, <- Hf.
    + exists "-"%char, (pretty_N_go (N.pos p) ""). split; [reflexivity|by vm_compute].
Qed.

Lemma ContainsColon_label (chip rest : string) :
  ContainsColon (chip ++ String ":" rest) = true.
Proof.
  induction chip as [|c chip IH]; [reflexivity|].
  rewrite append_cons. simpl. by destruct (Ascii.eqb c ":").
Qed.

Lemma SplitColon_label (chip rest : string) :
  ContainsColon chip = false ->
  SplitColon (chip ++ String ":" rest) = (chip, rest).
Proof.
  induction chip as [|c chip IH]; [reflexivity|].
  rewrite append_cons. simpl.
  destruct (Ascii.eqb c ":"); [discriminate|].
  intros Hc. by rewrite (IH Hc).
Qed.

(** X8.  The name [fmt.Sprintf("%s:%d", chip, offset)] builds resolves
    back to the same chip and offset, for every int64 offset and every
    chip name that contains no colon and does not start with white space
    (it is empty or starts with a visible ASCII character). *)
Theorem chip_offset_name_resolves (chip : string) (offset : Z) :
  ContainsColon chip = false ->
  Callers.graphic_first chip ->
  - 2 ^ 63 <= offset <= 2 ^ 63 - 1 ->
  Gpiocdev.resolveChipLine (Gpiocdev.chip_colon_offset chip offset)
  = inl (chip, offset).
Proof.
  intros Hnc Hg Hr.
  destruct (pretty_shape offset) as (_ & (front & d & Hf & Hgd) & _).
  unfold Gpiocdev.resolveChipLine, Gpiocdev.chip_colon_offset.
  change (":" ++ pretty offset)%string with (String ":" (pretty offset)).
  assert (Hfirst : exists c rest,
             (chip ++ String ":" (pretty offset))%string = String c rest
             /\ (33 <= code c <= 126)%N).
  { destruct chip as [|c chip].
    - exists ":"%char, (pretty offset). split; [reflexivity|by vm_compute].
    - exists c, (chip ++ String ":" (pretty offset))%string. by split. }
  destruct Hfirst as (c & rest & Hc & Hgc).
  rewrite (TrimSpace_graphic_ends _ rest (chip ++ String ":" front) c d Hc);
    try assumption.
  - rewrite Hc at 1. simpl String.eqb. cbv iota.
    rewrite ContainsColon_label, (SplitColon_label _ _ Hnc). simpl.
    by rewrite (Atoi_pretty offset Hr).
  - by rewrite Hf, string_app_assoc, append_cons.
Qed.

(** X9.  A name that is just the decimal form of an int64 offset, as
    [%d] prints it, resolves to that offset on the chip gpiochip0. *)
Theorem bare_offset_resolves_on_gpiochip0 (offset : Z) :
  - 2 ^ 63 <= offset <= 2 ^ 63 - 1 ->
  Gpiocdev.resolveChipLine (pretty offset) = inl ("gpiochip0"%string, offset).
Proof.
  intros Hr.
  destruct (pretty_shape offset)
    as (Hnc & (front & d & Hf & Hgd) & c & rest & Hc & Hgc).
  unfold Gpiocdev.resolveChipLine.
  rewrite (TrimSpace_graphic_ends _ rest front c d Hc Hf Hgc Hgd).
  rewrite Hnc, (Atoi_pretty offset Hr).
  rewrite Hc. reflexivity.
Qed.

End ChipLineNames.

Section PushWitnesses.
Import GoTime Sample.

Lemma registered_under_PinName_witness :
  exists btn,
    Gpiocdev.buttons
      (Gpiocdev.AddButton dev_bare
         (cdev_config "gpiochip1:17" 0 Gpiocdev.PullUp) cdev_registered).2
    !! "gpiochip1:17"%string = Some btn
    /\ Gpiocdev.resolveChipLine "gpiochip1:17"
       = inl (Gpiocdev.chip btn, Gpiocdev.offset btn)
    /\ Gpiocdev.DebounceTime (Gpiocdev.config btn) = 50 * Millisecond.
Proof.
  destruct (registered_under_PinName dev_bare
              (cdev_config "gpiochip1:17" 0 Gpiocdev.PullUp) cdev_registered)
    as (btn & Hb & Hcfg & Hr & _); [reflexivity|].
  exists btn. split; [exact Hb|]. split; [exact Hr|]. by rewrite Hcfg.
Defined.

Lemma first_event_calls_back_witness :
  exists w',
    Gpiocdev.deliver "23" (at_ms 5) cdev_registered = Some w'
    /\ Gpiocdev.calls w' = [(7%nat, "23"%string)].
Proof.
  destruct (first_event_calls_back dev_bare
              (cdev_config "23" (50 * Millisecond) Gpiocdev.PullUp)
              Gpiocdev.NewButtonManager 7%nat (at_ms 5))
    as (w' & Hd & Hc & _); [reflexivity|reflexivity|].
  exists w'. by split.
Defined.

Lemma burst_gives_one_call_witness :
  exists w',
    Gpiocdev.deliver_all "23" [at_ms 5; at_ms 10; at_ms 20; at_ms 30]
      cdev_registered = Some w'
    /\ Gpiocdev.calls w' = [(7%nat, "23"%string)].
Proof.
  destruct (Gpiocdev.buttons cdev_registered !! "23"%string) as [btn|] eqn:Hb;
    [|vm_compute in Hb; discriminate].
  destruct (burst_gives_one_call "23" cdev_registered btn 7%nat (at_ms 5)
              [at_ms 10; at_ms 20; at_ms 30] Hb)
    as (w' & Hd & Hc & _).
  - reflexivity.
  - vm_compute in Hb. by injection Hb as <-.
  - vm_compute in Hb. injection Hb as <-. by vm_compute.
  - reflexivity.
  - left. vm_compute in Hb. by injection Hb as <-.
  - vm_compute in Hb. injection Hb as <-.
    repeat constructor; vm_compute; discriminate.
  - exists w'. split; [exact Hd|]. rewrite Hc.
    vm_compute in Hb. by injection Hb as <-.
Defined.

Lemma reached_registry_well_formed_witness :
  Reach.well_formed cdev_registered /\ Reach.named_calls cdev_registered.
Proof.
  apply (reached_registry_well_formed dev_bare
           [Gpiocdev.CallAddButton
              (cdev_config "23" (50 * Millisecond) Gpiocdev.PullUp)]).
  reflexivity.
Defined.

Lemma stopped_lines_stay_silent_witness :
  Reach.all_closed (Gpiocdev.Stop (Gpiocdev.Stop cdev_registered))
  /\ Gpiocdev.GetButtonCount (Gpiocdev.Stop (Gpiocdev.Stop cdev_registered))
     = 1%nat.
Proof.
  destruct (stopped_lines_stay_silent dev_bare
              [Gpiocdev.CallStart; Gpiocdev.CallStop] cdev_registered
              (Gpiocdev.Stop (Gpiocdev.Stop cdev_registered)))
    as (_ & Hc & _ & Hn).
  - repeat constructor.
  - reflexivity.
  - split; [exact Hc|]. rewrite Hn. by vm_compute.
Defined.

Lemma calls_only_from_events_witness :
  exists cs,
    Gpiocdev.calls <$>
      Gpiocdev.run dev_bare
        [Gpiocdev.Event "23" (at_ms 5); Gpiocdev.CallStart;
         Gpiocdev.Event "23" (at_ms 10)] cdev_registered
    = Some cs
    /\ (length cs <= 2)%nat.
Proof.
  destruct (Gpiocdev.run dev_bare
              [Gpiocdev.Event "23" (at_ms 5); Gpiocdev.CallStart;
               Gpiocdev.Event "23" (at_ms 10)] cdev_registered)
    as [w'|] eqn:Hrun; [|vm_compute in Hrun; discriminate].
  destruct (calls_only_from_events dev_bare _ _ _ Hrun) as (cs & Hcs & Hlen).
  exists (Gpiocdev.calls w'). split; [reflexivity|].
  rewrite Hcs. simpl in Hlen |- *. exact Hlen.
Defined.

Lemma chip_offset_name_resolves_witness :
  Gpiocdev.resolveChipLine (Gpiocdev.chip_colon_offset "gpiochip4" 112)
  = inl ("gpiochip4"%string, 112).
Proof.
  apply chip_offset_name_resolves; [reflexivity|by vm_compute|lia].
Defined.

Lemma bare_offset_resolves_on_gpiochip0_witness :
  Gpiocdev.resolveChipLine (pretty 23) = inl ("gpiochip0"%string, 23).
Proof. apply bare_offset_resolves_on_gpiochip0. lia. Defined.

End PushWitnesses.

(** ** Bursts in the poll loop *)
Section PollBurst.
Import GoTime.

Lemma on_edges_rejected (evs : list Periph.edge_event) (btn : Periph.button)
  (cs : list (nat * string)) :
  Forall (fun ev => Since (Periph.e_checked ev) (Periph.lastPress btn)
                    <= Periph.DebounceTime (Periph.config btn)) evs ->
  Periph.on_edges evs (btn, cs) = (btn, cs).
Proof.
  intros Hall. induction Hall as [|ev evs Hev _ IH]; [reflexivity|].
  rewrite on_edges_cons. unfold Periph.on_edge.
  assert (Hrej : Periph.isDebouncePassed (Periph.e_checked ev) btn = false).
  { unfold Periph.isDebouncePassed. rewrite Z.gtb_ltb. by apply Z.ltb_ge. }
  rewrite Hrej, andb_false_r. exact IH.
Qed.

(** X10.  A burst collapses to one call in the poll loop: a low edge that
    passes the gate, followed by any number of edges that are each checked
    no later than the window after the time recorded for it, dispatches
    the callback exactly once and leaves that time as the last press. *)
Theorem poll_burst_gives_one_call (ev0 : Periph.edge_event)
  (evs : list Periph.edge_event) (btn : Periph.button)
  (cs : list (nat * string)) (f : nat) :
  Periph.e_level ev0 = Periph.Low ->
  Periph.isDebouncePassed (Periph.e_checked ev0) btn = true ->
  Periph.Callback (Periph.config btn) = Some f ->
  Forall (fun ev => Since (Periph.e_checked ev) (Periph.e_updated ev0)
                    <= Periph.DebounceTime (Periph.config btn)) evs ->
  Periph.on_edges (ev0 :: evs) (btn, cs)
  = (Periph.updateLastPress (Periph.e_updated ev0) btn,
     cs ++ [(f, Periph.PinName (Periph.config btn))]).
Proof.
  intros Hlow Hpass Hf Hall.
  rewrite on_edges_cons, (on_edge_Low ev0 btn cs Hlow), Hpass.
  rewrite on_edges_rejected by exact Hall.
  unfold Periph.invokeCallback. by rewrite Hf.
Qed.

End PollBurst.

(** ** Which buttons the goroutines of the poll variant watch *)
Section Watched.
Import GoTime.
Variable h : Periph.Host.

Lemma watchers_alter (ms : list Periph.monitor) (i : nat) (pc : Periph.monitor_pc) :
  Periph.m_btn <$> alter (fun m => Periph.mkMonitor (Periph.m_btn m) pc) i ms
  = Periph.m_btn <$> ms.
Proof.
  revert i. induction ms as [|m ms IH]; intros i; [reflexivity|].
  destruct i as [|i]; cbn; [reflexivity|]. f_equal. apply IH.
Qed.

(** A step other than [Start] leaves the watched buttons as they are. *)
Lemma step_watchers (a : Periph.action) (w w' : Periph.World) :
  Periph.is_Start a = false ->
  Periph.step h a w = Some w' ->
  Periph.m_btn <$> Periph.monitors w' = Periph.m_btn <$> Periph.monitors w.
Proof.
  intros Hns Hstep.
  destruct a as [cfg| | |i|i edge|i|i lvl now|i now]; simpl in Hstep;
    try discriminate.
  - injection Hstep as <-.
    by destruct (periph_AddButton_cases h cfg w)
      as [[_ ->]|[(p & cause & _ & ->)|(p & _ & ->)]].
  - by injection Hstep as <-.
  - destruct (Periph.stoppers w !! i) as [[| | |]|]; try discriminate.
    + by injection Hstep as <-.
    + destruct (Nat.eqb _ _); [|discriminate]. by injection Hstep as <-.
    + by injection Hstep as <-.
  - destruct (Periph.monitors w !! i) as [[b []]|]; try discriminate.
    injection Hstep as <-. apply watchers_alter.
  - destruct (Periph.monitors w !! i) as [[b []]|]; try discriminate.
    destruct (Periph.isShuttingDown w); injection Hstep as <-;
      apply watchers_alter.
  - destruct (Periph.monitors w !! i) as [[b []]|]; try discriminate.
    destruct (Periph.heap w !! b); [|discriminate].
    destruct (_ && _); injection Hstep as <-; apply watchers_alter.
  - destruct (Periph.monitors w !! i) as [[b []]|]; try discriminate.
    destruct (Periph.heap w !! b); [|discriminate].
    injection Hstep as <-. apply watchers_alter.
Qed.

(** Every step keeps the buttons of the heap where they are, with their
    configurations. *)
Lemma step_heap_config (a : Periph.action) (w w' : Periph.World) (addr : nat)
  (btn : Periph.button) :
  Periph.step h a w = Some w' ->
  Periph.heap w !! addr = Some btn ->
  exists btn', Periph.heap w' !! addr = Some btn'
               /\ Periph.config btn' = Periph.config btn.
Proof.
  intros Hstep Hb.
  destruct a as [cfg| | |i|i edge|i|i lvl now|i now]; simpl in Hstep.
  - injection Hstep as <-.
    destruct (periph_AddButton_cases h cfg w)
      as [[_ ->]|[(p & cause & _ & ->)|(p & _ & ->)]]; try by exists btn.
    exists btn. split; [|reflexivity]. simpl. by apply lookup_app_l_Some.
  - injection Hstep as <-. exists btn. split; [|reflexivity].
    unfold Periph.Start. by destruct (Nat.eqb _ _).
  - injection Hstep as <-. by exists btn.
  - destruct (Periph.stoppers w !! i) as [[| | |]|]; try discriminate.
    + injection Hstep as <-. by exists btn.
    + destruct (Nat.eqb _ _); [|discriminate]. injection Hstep as <-.
      by exists btn.
    + injection Hstep as <-. by exists btn.
  - destruct (Periph.monitors w !! i) as [[b []]|]; try discriminate.
    injection Hstep as <-. by exists btn.
  - destruct (Periph.monitors w !! i) as [[b []]|]; try discriminate.
    destruct (Periph.isShuttingDown w); injection Hstep as <-; by exists btn.
  - destruct (Periph.monitors w !! i) as [[b []]|]; try discriminate.
    destruct (Periph.heap w !! b); [|discriminate].
    destruct (_ && _); injection Hstep as <-; by exists btn.
  - destruct (Periph.monitors w !! i) as [[b []]|]; try discriminate.
    destruct (Periph.heap w !! b) as [old|] eqn:Hold; [|discriminate].
    injection Hstep as <-. simpl.
    destruct (decide (addr = b)) as [->|Hne].
    + rewrite list_lookup_insert_eq by (by apply lookup_lt_Some with old).
      eexists. split; [reflexivity|]. simpl. congruence.
    + rewrite list_lookup_insert_ne by congruence. by exists btn.
Qed.

(** The calls a step adds: none, or the callback of the button its
    goroutine watches. *)
Lemma step_calls (a : Periph.action) (w w' : Periph.World) :
  Periph.step h a w = Some w' ->
  Periph.calls w' = Periph.calls w
  \/ exists c, Periph.calls w' = Periph.calls w ++ [c] /\ Reach.by_watched w c.
Proof.
  intros Hstep.
  destruct a as [cfg| | |i|i edge|i|i lvl now|i now]; simpl in Hstep.
  - injection Hstep as <-. left.
    by destruct (periph_AddButton_cases h cfg w)
      as [[_ ->]|[(p & cause & _ & ->)|(p & _ & ->)]].
  - injection Hstep as <-. left. unfold Periph.Start.
    by destruct (Nat.eqb _ _).
  - injection Hstep as <-. by left.
  - destruct (Periph.stoppers w !! i) as [[| | |]|]; try discriminate.
    + injection Hstep as <-. by left.
    + destruct (Nat.eqb _ _); [|discriminate]. injection Hstep as <-. by left.
    + injection Hstep as <-. by left.
  - destruct (Periph.monitors w !! i) as [[b []]|]; try discriminate.
    injection Hstep as <-. by left.
  - destruct (Periph.monitors w !! i) as [[b []]|]; try discriminate.
    destruct (Periph.isShuttingDown w); injection Hstep as <-; by left.
  - destruct (Periph.monitors w !! i) as [[b []]|]; try discriminate.
    destruct (Periph.heap w !! b); [|discriminate].
    destruct (_ && _); injection Hstep as <-; by left.
  - destruct (Periph.monitors w !! i) as [[b []]|] eqn:Hi; try discriminate.
    destruct (Periph.heap w !! b) as [btn|] eqn:Hb; [|discriminate].
    injection Hstep as <-. simpl. unfold Periph.invokeCallback.
    destruct (Periph.Callback (Periph.config btn)) as [f|] eqn:Hf; [|by left].
    right. eexists. split; [reflexivity|].
    exists b, btn. repeat split; try assumption.
    unfold Reach.watched. apply list_elem_of_fmap.
    exists (Periph.mkMonitor b Periph.Accepted). split; [reflexivity|].
    by apply list_elem_of_lookup_2 with i.
Qed.

Lemma step_monitors_in_heap (a : Periph.action) (w w' : Periph.World) :
  Periph.consistent w -> Reach.monitors_in_heap w ->
  Periph.step h a w = Some w' -> Reach.monitors_in_heap w'.
Proof.
  intros Hc Hm Hstep addr Hw.
  destruct (decide (Periph.is_Start a = true)) as [Hs|Hns].
  - destruct a; try discriminate. simpl in Hstep. injection Hstep as <-.
    unfold Periph.Start, Reach.watched in *.
    destruct (Nat.eqb _ _); [by apply Hm|]. simpl in *.
    rewrite fmap_app in Hw. apply elem_of_app in Hw as [Hw|Hw]; [by apply Hm|].
    rewrite <- list_fmap_compose in Hw.
    apply list_elem_of_fmap in Hw as ([name a] & -> & Hin).
    apply elem_of_map_to_list in Hin. simpl.
    by apply (Periph.registry_in_heap w Hc name).
  - apply not_true_is_false in Hns.
    unfold Reach.watched in Hw. rewrite (step_watchers a w w' Hns Hstep) in Hw.
    destruct (Hm addr Hw) as [btn Hb].
    destruct (step_heap_config a w w' addr btn Hstep Hb) as (btn' & Hb' & _).
    by exists btn'.
Qed.

Lemma run_calls_watched (acts : list Periph.action) :
  forall w w',
    Periph.consistent w -> Reach.monitors_in_heap w ->
    Forall (fun a => Periph.is_Start a = false) acts ->
    Periph.run h acts w = Some w' ->
    Periph.m_btn <$> Periph.monitors w' = Periph.m_btn <$> Periph.monitors w
    /\ exists cs, Periph.calls w' = Periph.calls w ++ cs
                  /\ Forall (Reach.by_watched w) cs.
Proof.
  induction acts as [|a acts IH]; intros w w' Hc Hm Hns Hrun; simpl in Hrun.
  - injection Hrun as <-. split; [reflexivity|]. exists [].
    by rewrite app_nil_r.
  - apply Forall_cons in Hns as [Ha Hns].
    destruct (Periph.step h a w) as [w1|] eqn:Hstep; [|discriminate].
    destruct (IH w1 w' (step_consistent h a w w1 Hc Hstep)
                (step_monitors_in_heap a w w1 Hc Hm Hstep) Hns Hrun)
      as (Hw & cs & Hcs & Hall).
    pose proof (step_watchers a w w1 Ha Hstep) as Hw1.
    split; [by rewrite Hw|].
    assert (Hback : forall c, Reach.by_watched w1 c -> Reach.by_watched w c).
    { intros c (addr & btn1 & Hwa & Hb1 & Hf & Hn).
      unfold Reach.watched in Hwa. rewrite Hw1 in Hwa.
      destruct (Hm addr Hwa) as [btn Hb].
      destruct (step_heap_config a w w1 addr btn Hstep Hb) as (btn' & Hb' & Hcfg).
      rewrite Hb1 in Hb'. injection Hb' as <-.
      exists addr, btn. rewrite <- Hcfg. by repeat split. }
    destruct (step_calls a w w1 Hstep) as [Hsame|(c & Hadd & Hby)].
    + exists cs. rewrite Hcs, Hsame. split; [reflexivity|].
      eapply Forall_impl; [exact Hall|exact Hback].
    + exists (c :: cs). rewrite Hcs, Hadd, <- app_assoc. split; [reflexivity|].
      constructor; [exact Hby|]. eapply Forall_impl; [exact Hall|exact Hback].
Qed.

Lemma run_monitors_in_heap (acts : list Periph.action) :
  forall w w',
    Periph.consistent w -> Reach.monitors_in_heap w ->
    Periph.run h acts w = Some w' -> Reach.monitors_in_heap w'.
Proof.
  induction acts as [|a acts IH]; intros w w' Hc Hm Hrun; simpl in Hrun.
  - by injection Hrun as <-.
  - destruct (Periph.step h a w) as [w1|] eqn:Hstep; [|discriminate].
    apply (IH w1 w'); [| |assumption].
    + by apply (step_consistent h a w).
    + by apply (step_monitors_in_heap a w).
Qed.

(** X11.  In the poll variant only [Start] decides which buttons are
    watched.  From any state the manager reaches, over a run without
    [Start]: the set of watched buttons stays the same; every watched
    button was already in the heap, so a button added after the last
    [Start] is not watched; and every callback called in the run is the
    callback of a button watched at the start of the run, called with
    that button's [PinName]. *)
Theorem calls_come_from_watched_buttons (pre acts : list Periph.action)
  (w w' : Periph.World) :
  Periph.run h pre Periph.NewButtonManager = Some w ->
  Forall (fun a => Periph.is_Start a = false) acts ->
  Periph.run h acts w = Some w' ->
  (forall addr, Reach.watched w' addr <-> Reach.watched w addr)
  /\ (forall addr, Reach.watched w addr -> (addr < length (Periph.heap w))%nat)
  /\ exists cs, Periph.calls w' = Periph.calls w ++ cs
                /\ Forall (Reach.by_watched w) cs.
Proof.
  intros Hpre Hns Hrun.
  assert (Hc : Periph.consistent w).
  { apply (run_consistent h pre Periph.NewButtonManager w);
      [apply NewButtonManager_consistent|assumption]. }
  assert (Hm : Reach.monitors_in_heap w).
  { apply (run_monitors_in_heap pre Periph.NewButtonManager w);
      [apply NewButtonManager_consistent| |assumption].
    intros addr Hw. unfold Reach.watched in Hw. simpl in Hw.
    by apply elem_of_nil in Hw. }
  destruct (run_calls_watched acts w w' Hc Hm Hns Hrun) as (Hw & Hcs).
  split; [|split; [|exact Hcs]].
  - intros addr. unfold Reach.watched. by rewrite Hw.
  - intros addr Hwa. destruct (Hm addr Hwa) as [btn Hb].
    by apply lookup_lt_Some with btn.
Qed.

End Watched.

(** ** The gate of the poll variant between goroutines *)
Section GateRace.
Import GoTime.
Variable h : Periph.Host.

Lemma monitors_set_pc_eq (i b : nat) (pc pc' : Periph.monitor_pc)
  (w : Periph.World) :
  Periph.monitors w !! i = Some (Periph.mkMonitor b pc) ->
  Periph.monitors (Periph.set_pc i pc' w) !! i = Some (Periph.mkMonitor b pc').
Proof.
  intros Hi. unfold Periph.set_pc. simpl.
  by rewrite list_lookup_alter_eq, Hi.
Qed.

Lemma monitors_set_pc_ne (i j : nat) (pc' : Periph.monitor_pc)
  (w : Periph.World) :
  i <> j ->
  Periph.monitors (Periph.set_pc i pc' w) !! j = Periph.monitors w !! j.
Proof.
  intros Hne. unfold Periph.set_pc. simpl. by apply list_lookup_alter_ne.
Qed.

Lemma Read_accepts (i b : nat) (btn : Periph.button) (now : Time)
  (w : Periph.World) :
  Periph.monitors w !! i = Some (Periph.mkMonitor b Periph.Handling) ->
  Periph.heap w !! b = Some btn ->
  Periph.isDebouncePassed now btn = true ->
  Periph.step h (Periph.Read i Periph.Low now) w
  = Some (Periph.set_pc i Periph.Accepted w).
Proof. intros Hi Hb Hp. simpl. by rewrite Hi, Hb, Hp. Qed.

Lemma Dispatch_calls (i b : nat) (btn : Periph.button) (now : Time)
  (w : Periph.World) :
  Periph.monitors w !! i = Some (Periph.mkMonitor b Periph.Accepted) ->
  Periph.heap w !! b = Some btn ->
  Periph.step h (Periph.Dispatch i now) w
  = Some (Periph.set_pc i Periph.AtWait
            (Periph.set_calls (Periph.invokeCallback btn)
               (Periph.set_heap (<[b := Periph.updateLastPress now btn]>) w))).
Proof. intros Hi Hb. simpl. by rewrite Hi, Hb. Qed.

(** X12.  The check of the window and the update of the last press are
    two critical sections in the poll variant: when two goroutines watch
    the same button (as after a second [Start]) and both have seen an
    edge, both can pass the gate at the same clock reading, and the
    callback is then dispatched twice, whatever the window is. *)
Theorem unsynchronised_gate_dispatches_twice (w : Periph.World) (i j b : nat)
  (btn : Periph.button) (f : nat) (now now_i now_j : Time) :
  i <> j ->
  Periph.monitors w !! i = Some (Periph.mkMonitor b Periph.Handling) ->
  Periph.monitors w !! j = Some (Periph.mkMonitor b Periph.Handling) ->
  Periph.heap w !! b = Some btn ->
  Periph.Callback (Periph.config btn) = Some f ->
  Periph.isDebouncePassed now btn = true ->
  exists w',
    Periph.run h [Periph.Read i Periph.Low now; Periph.Read j Periph.Low now;
                  Periph.Dispatch i now_i; Periph.Dispatch j now_j] w
    = Some w'
    /\ Periph.calls w'
       = Periph.calls w ++ [(f, Periph.PinName (Periph.config btn));
                            (f, Periph.PinName (Periph.config btn))].
Proof.
  intros Hne Hi Hj Hb Hf Hp.
  assert (Hlt : (b < length (Periph.heap w))%nat)
    by (by apply lookup_lt_Some with btn).
  set (w1 := Periph.set_pc i Periph.Accepted w).
  set (w2 := Periph.set_pc j Periph.Accepted w1).
  set (w3 := Periph.set_pc i Periph.AtWait
               (Periph.set_calls (Periph.invokeCallback btn)
                  (Periph.set_heap (<[b := Periph.updateLastPress now_i btn]>) w2))).
  set (w4 := Periph.set_pc j Periph.AtWait
               (Periph.set_calls
                  (Periph.invokeCallback (Periph.updateLastPress now_i btn))
                  (Periph.set_heap
                     (<[b := Periph.updateLastPress now_j
                               (Periph.updateLastPress now_i btn)]>) w3))).
  assert (H1 : Periph.step h (Periph.Read i Periph.Low now) w = Some w1)
    by (by apply (Read_accepts i b btn)).
  assert (H2 : Periph.step h (Periph.Read j Periph.Low now) w1 = Some w2).
  { apply (Read_accepts j b btn); [|assumption|assumption].
    unfold w1. by rewrite monitors_set_pc_ne. }
  assert (H3 : Periph.step h (Periph.Dispatch i now_i) w2 = Some w3).
  { apply (Dispatch_calls i b btn); [|assumption].
    unfold w2. rewrite monitors_set_pc_ne by congruence.
    by apply (monitors_set_pc_eq i b Periph.Handling). }
  assert (H4 : Periph.step h (Periph.Dispatch j now_j) w3 = Some w4).
  { apply (Dispatch_calls j b (Periph.updateLastPress now_i btn)).
    - unfold w3. rewrite monitors_set_pc_ne by assumption. simpl.
      by rewrite list_lookup_alter_eq, list_lookup_alter_ne, Hj by assumption.
    - unfold w3. simpl. by apply list_lookup_insert_eq. }
  exists w4. split.
  - cbn [Periph.run]. by rewrite H1, H2, H3, H4.
  - unfold w4, w3. simpl. unfold Periph.invokeCallback. simpl.
    by rewrite Hf, <- app_assoc.
Qed.

End GateRace.

(** ** Callbacks after the context is cancelled *)
Section AfterCancel.
Import GoTime.
Variable h : Periph.Host.

Lemma handling_count_alter (f : Periph.monitor -> Periph.monitor)
  (ms : list Periph.monitor) :
  forall (i : nat) (m : Periph.monitor),
    ms !! i = Some m ->
    (Reach.handling_count (alter f i ms) + Nat.b2n (Periph.handling m)
     = Reach.handling_count ms + Nat.b2n (Periph.handling (f m)))%nat.
Proof.
  unfold Reach.handling_count.
  induction ms as [|m0 ms IH]; intros [|i] m Hi; try discriminate.
  - injection Hi as ->. simpl.
    destruct (Periph.handling m), (Periph.handling (f m)); simpl; lia.
  - simpl in Hi. specialize (IH i m Hi). unfold alter in IH. simpl.
    destruct (Periph.handling m0); simpl; lia.
Qed.

Lemma handling_count_spawned (ms : list Periph.monitor) (l : list (string * nat)) :
  Reach.handling_count
    (ms ++ ((fun kv : string * nat => Periph.mkMonitor kv.2 Periph.AtWait) <$> l))
  = Reach.handling_count ms.
Proof.
  unfold Reach.handling_count. rewrite List.filter_app, length_app.
  assert (Hz : length (List.filter Periph.handling
                 ((fun kv : string * nat => Periph.mkMonitor kv.2 Periph.AtWait)
                    <$> l)) = 0%nat).
  { induction l as [|kv l IH]; [reflexivity|]. rewrite fmap_cons. exact IH. }
  rewrite Hz. lia.
Qed.

(** Once the context is cancelled it stays cancelled, and no step adds to
    the calls and the goroutines that may still dispatch, taken
    together. *)
Lemma step_after_cancel (a : Periph.action) (w w' : Periph.World) :
  Periph.ctx_done (Periph.bm w) = true ->
  Periph.step h a w = Some w' ->
  Periph.ctx_done (Periph.bm w') = true
  /\ (length (Periph.calls w') + Reach.handling_count (Periph.monitors w')
      <= length (Periph.calls w) + Reach.handling_count (Periph.monitors w))%nat.
Proof.
  intros Hd Hstep.
  destruct a as [cfg| | |i|i edge|i|i lvl now|i now]; simpl in Hstep.
  - injection Hstep as <-.
    destruct (periph_AddButton_cases h cfg w)
      as [[_ ->]|[(p & cause & _ & ->)|(p & _ & ->)]]; simpl; by split.
  - injection Hstep as <-. unfold Periph.Start.
    destruct (Nat.eqb _ _); simpl; [by split|]. split; [assumption|].
    rewrite handling_count_spawned. lia.
  - injection Hstep as <-. by split.
  - destruct (Periph.stoppers w !! i) as [[| | |]|]; try discriminate.
    + injection Hstep as <-. by split.
    + destruct (Nat.eqb _ _); [|discriminate]. injection Hstep as <-.
      by split.
    + injection Hstep as <-. by split.
  - destruct (Periph.monitors w !! i) as [[b []]|] eqn:Hi; try discriminate.
    injection Hstep as <-. simpl. split; [assumption|].
    pose proof (handling_count_alter
                  (fun m => Periph.mkMonitor (Periph.m_btn m) (Periph.Woken edge))
                  _ i _ Hi) as Ha.
    simpl in Ha. unfold Periph.handling in Ha. simpl in Ha. lia.
  - destruct (Periph.monitors w !! i) as [[b []]|] eqn:Hi; try discriminate.
    unfold Periph.isShuttingDown in Hstep. rewrite Hd in Hstep.
    injection Hstep as <-. simpl. split; [assumption|].
    pose proof (handling_count_alter
                  (fun m => Periph.mkMonitor (Periph.m_btn m) Periph.Exited)
                  _ i _ Hi) as Ha.
    simpl in Ha. unfold Periph.handling in Ha. simpl in Ha. lia.
  - destruct (Periph.monitors w !! i) as [[b []]|] eqn:Hi; try discriminate.
    destruct (Periph.heap w !! b); [|discriminate].
    destruct (_ && _); injection Hstep as <-; simpl; (split; [assumption|]).
    + pose proof (handling_count_alter
                    (fun m => Periph.mkMonitor (Periph.m_btn m) Periph.Accepted)
                    _ i _ Hi) as Ha.
      simpl in Ha. unfold Periph.handling in Ha. simpl in Ha. lia.
    + pose proof (handling_count_alter
                    (fun m => Periph.mkMonitor (Periph.m_btn m) Periph.AtWait)
                    _ i _ Hi) as Ha.
      simpl in Ha. unfold Periph.handling in Ha. simpl in Ha. lia.
  - destruct (Periph.monitors w !! i) as [[b []]|] eqn:Hi; try discriminate.
    destruct (Periph.heap w !! b) as [btn|]; [|discriminate].
    injection Hstep as <-. simpl. split; [assumption|].
    pose proof (handling_count_alter
                  (fun m => Periph.mkMonitor (Periph.m_btn m) Periph.AtWait)
                  _ i _ Hi) as Ha.
    simpl in Ha. unfold Periph.handling in Ha. simpl in Ha.
    assert (Hc : (length (Periph.invokeCallback btn (Periph.calls w))
                  <= S (length (Periph.calls w)))%nat).
    { unfold Periph.invokeCallback.
      destruct (Periph.Callback (Periph.config btn)); [|lia].
      rewrite length_app. simpl. lia. }
    lia.
Qed.

(** X13.  After the context of the poll variant is cancelled, callbacks
    are still dispatched only by the goroutines that had passed
    [isShuttingDown] before: over any run that follows, whatever edges
    arrive and whatever is called on the manager, the number of further
    calls is at most the number of goroutines that were between
    [isShuttingDown] and their dispatch. *)
Theorem cancelled_dispatch_bound (acts : list Periph.action) (w w' : Periph.World) :
  Periph.ctx_done (Periph.bm w) = true ->
  Periph.run h acts w = Some w' ->
  Periph.ctx_done (Periph.bm w') = true
  /\ (length (Periph.calls w')
      <= length (Periph.calls w) + Reach.handling_count (Periph.monitors w))%nat.
Proof.
  revert w. induction acts as [|a acts IH]; intros w Hd Hrun; simpl in Hrun.
  - injection Hrun as <-. split; [assumption|lia].
  - destruct (Periph.step h a w) as [w1|] eqn:Hstep; [|discriminate].
    destruct (step_after_cancel a w w1 Hd Hstep) as [Hd1 Hle].
    destruct (IH w1 Hd1 Hrun) as [Hd' Hle'].
    split; [assumption|]. lia.
Qed.

End AfterCancel.

(** ** The registration phase of the example programs *)
Section Examples.
Import GoTime.
Variable h : Periph.Host.

(** [AddButton] by what [registers] says. *)
Lemma AddButton_by_registers (cfg : Periph.ButtonConfig) (w : Periph.World) :
  (Callers.registers h cfg = false /\ (Periph.AddButton h cfg w).2 = w
   /\ (Periph.AddButton h cfg w).1 <> None)
  \/ (Callers.registers h cfg = true
      /\ exists p, Periph.AddButton h cfg w = (None, Periph.registered cfg p w)).
Proof.
  unfold Callers.registers.
  destruct (Periph.ByName h (Periph.PinName cfg)) as [p|] eqn:Hn.
  - destruct (Periph.In_err h p (Periph.Pull (Periph.apply_defaults cfg))
                Periph.BothEdges) as [cause|] eqn:Hi.
    + left. rewrite (periph_AddButton_refused h cfg w p cause Hn Hi). by repeat split.
    + right. split; [reflexivity|]. exists p.
      by apply periph_AddButton_ok.
  - left. rewrite (periph_AddButton_not_found h cfg w Hn). by repeat split.
Qed.

Lemma AddButton_registry (cfg : Periph.ButtonConfig) (w : Periph.World)
  (name : string) :
  is_Some (Periph.buttons (Periph.bm (Periph.AddButton h cfg w).2) !! name)
  <-> is_Some (Periph.buttons (Periph.bm w) !! name)
      \/ (Periph.PinName cfg = name /\ Callers.registers h cfg = true).
Proof.
  destruct (AddButton_by_registers cfg w) as [(Hr & -> & _)|(Hr & p & ->)].
  - rewrite Hr. split; [by left|]. intros [?|[_ ?]]; [assumption|discriminate].
  - rewrite Hr. unfold Periph.registered. simpl.
    rewrite lookup_insert_is_Some'. split.
    + intros [Hn|Hs]; [by right|by left].
    + intros [Hs|[Hn _]]; [by right|by left].
Qed.

Lemma AddButton_idle (cfg : Periph.ButtonConfig) (w : Periph.World) :
  Periph.monitors (Periph.AddButton h cfg w).2 = Periph.monitors w
  /\ Periph.calls (Periph.AddButton h cfg w).2 = Periph.calls w
  /\ Periph.wg (Periph.bm (Periph.AddButton h cfg w).2) = Periph.wg (Periph.bm w)
  /\ (Periph.GetButtonCount w <= Periph.GetButtonCount (Periph.AddButton h cfg w).2
      <= S (Periph.GetButtonCount w))%nat.
Proof.
  destruct (AddButton_by_registers cfg w) as [(_ & -> & _)|(_ & p & ->)].
  - repeat split; lia.
  - unfold Periph.registered, Periph.GetButtonCount. simpl.
    repeat split.
    + destruct (Periph.buttons (Periph.bm w) !! Periph.PinName cfg) eqn:Hl.
      * rewrite map_size_insert_Some by (by eexists). lia.
      * rewrite map_size_insert_None by assumption. lia.
    + destruct (Periph.buttons (Periph.bm w) !! Periph.PinName cfg) eqn:Hl.
      * rewrite map_size_insert_Some by (by eexists). lia.
      * rewrite map_size_insert_None by assumption. lia.
Qed.

Lemma register_all_cons (cfg : Periph.ButtonConfig)
  (configs : list Periph.ButtonConfig) (w : Periph.World) :
  Callers.register_all h (cfg :: configs) w
  = Callers.register_all h configs (Periph.AddButton h cfg w).2.
Proof. reflexivity. Qed.

Lemma register_all_registry (configs : list Periph.ButtonConfig) :
  forall (w : Periph.World) (name : string),
    is_Some (Periph.buttons (Periph.bm (Callers.register_all h configs w)) !! name)
    <-> is_Some (Periph.buttons (Periph.bm w) !! name)
        \/ exists cfg, cfg ∈ configs /\ Periph.PinName cfg = name
                       /\ Callers.registers h cfg = true.
Proof.
  induction configs as [|cfg configs IH]; intros w name.
  - split; [by left|]. intros [?|(cfg & Hin & _)]; [assumption|].
    by apply elem_of_nil in Hin.
  - rewrite register_all_cons, IH, AddButton_registry. split.
    + intros [[Hs|[Hn Hr]]|(c & Hin & Hn & Hr)].
      * by left.
      * right. exists cfg. split; [left|by split].
      * right. exists c. split; [by right|by split].
    + intros [Hs|(c & Hin & Hn & Hr)]; [by left; left|].
      apply elem_of_cons in Hin as [->|Hin].
      * left. right. by split.
      * right. by exists c.
Qed.

Lemma register_all_idle (configs : list Periph.ButtonConfig) :
  forall w : Periph.World,
    Periph.monitors (Callers.register_all h configs w) = Periph.monitors w
    /\ Periph.calls (Callers.register_all h configs w) = Periph.calls w
    /\ Periph.wg (Periph.bm (Callers.register_all h configs w))
       = Periph.wg (Periph.bm w)
    /\ (Periph.GetButtonCount w
        <= Periph.GetButtonCount (Callers.register_all h configs w)
        <= Periph.GetButtonCount w + length configs)%nat.
Proof.
  induction configs as [|cfg configs IH]; intros w.
  - simpl. repeat split; lia.
  - rewrite register_all_cons.
    destruct (IH (Periph.AddButton h cfg w).2) as (Hm & Hc & Hg & Hn).
    destruct (AddButton_idle cfg w) as (Hm1 & Hc1 & Hg1 & Hn1).
    rewrite Hm, Hc, Hg, Hm1, Hc1, Hg1. simpl. repeat split; lia.
Qed.

(** X14.  The registration phase of the example programs, which goes on
    after a failed [AddButton]: afterwards a name is in the registry
    exactly when it was there before or is the [PinName] of one of the
    configurations whose pin the host knows and accepts as an input; the
    button count grew by at most the number of configurations; no
    goroutine was started and no callback called. *)
Theorem register_all_registers_what_the_host_accepts
  (configs : list Periph.ButtonConfig) (w : Periph.World) :
  (forall name,
      is_Some (Periph.buttons (Periph.bm (Callers.register_all h configs w)) !! name)
      <-> is_Some (Periph.buttons (Periph.bm w) !! name)
          \/ exists cfg, cfg ∈ configs /\ Periph.PinName cfg = name
                         /\ Callers.registers h cfg = true)
  /\ (Periph.GetButtonCount w
      <= Periph.GetButtonCount (Callers.register_all h configs w)
      <= Periph.GetButtonCount w + length configs)%nat
  /\ Periph.monitors (Callers.register_all h configs w) = Periph.monitors w
  /\ Periph.calls (Callers.register_all h configs w) = Periph.calls w.
Proof.
  destruct (register_all_idle configs w) as (Hm & Hc & _ & Hn).
  split; [apply register_all_registry|]. split; [exact Hn|]. by split.
Qed.

(** X15.  The example programs end with the fatal error that no button
    was configured exactly when every [AddButton] failed; otherwise
    [Start] returns no error (the branch that reports a failed [Start] is
    never taken), one goroutine per registered name is running and
    counted in the WaitGroup, and no callback has been called. *)
Theorem example_start_outcomes (configs : list Periph.ButtonConfig) :
  (Callers.example_start h configs = None
   <-> Forall (fun cfg => Callers.registers h cfg = false) configs)
  /\ forall r, Callers.example_start h configs = Some r ->
               r.1 = None
               /\ length (Periph.monitors r.2) = Periph.GetButtonCount r.2
               /\ Periph.wg (Periph.bm r.2) = Periph.GetButtonCount r.2
               /\ (1 <= Periph.GetButtonCount r.2 <= length configs)%nat
               /\ Periph.calls r.2 = [].
Proof.
  unfold Callers.example_start.
  set (w := Callers.register_all h configs Periph.NewButtonManager).
  destruct (register_all_idle configs Periph.NewButtonManager)
    as (Hm & Hc & Hg & Hn). fold w in Hm, Hc, Hg, Hn.
  destruct (Nat.eqb_spec (Periph.GetButtonCount w) 0) as [Hz|Hnz]; split.
  - split; [intros _|reflexivity].
    apply Forall_forall. intros cfg Hin.
    destruct (Callers.registers h cfg) eqn:Hr; [|reflexivity].
    assert (Hs : is_Some (Periph.buttons (Periph.bm w) !! Periph.PinName cfg)).
    { apply register_all_registry. right. by exists cfg. }
    apply map_size_empty_iff in Hz. rewrite Hz, lookup_empty in Hs.
    by destruct Hs.
  - discriminate.
  - split; [discriminate|]. intros Hall. exfalso. apply Hnz.
    apply map_size_empty_iff. apply map_eq. intros name.
    rewrite lookup_empty. apply eq_None_not_Some. intros Hs.
    apply register_all_registry in Hs as [Hs|(cfg & Hin & _ & Hr)].
    + simpl in Hs. rewrite lookup_empty in Hs. by destruct Hs.
    + rewrite Forall_forall in Hall. rewrite (Hall cfg Hin) in Hr. discriminate.
  - intros r [= <-].
    destruct (periph_Start_cases w) as [[Hz _]|(_ & He & Hb & Hwg & Hlen)];
      [contradiction|].
    assert (Hcount : Periph.GetButtonCount (Periph.Start w).2
                     = Periph.GetButtonCount w).
    { unfold Periph.GetButtonCount. by rewrite Hb. }
    assert (Hcs : Periph.calls (Periph.Start w).2 = Periph.calls w).
    { unfold Periph.Start. by destruct (Nat.eqb (size _) 0). }
    rewrite Hcount, Hlen, Hwg, Hm, Hg, Hcs, Hc. simpl in Hn |- *.
    change (Periph.GetButtonCount Periph.NewButtonManager) with 0%nat in Hn.
    repeat split; try lia; try assumption.
Qed.

End Examples.

(** ** The timed poll variant: registration *)
Section TimedRegistration.
Import GoTime.
Variable h : Periph.Host.

Lemma timed_defaults (cfg : Periph.ButtonConfig) :
  Periph.PinName (Timed.apply_defaults cfg) = Periph.PinName cfg
  /\ Periph.Callback (Timed.apply_defaults cfg) = Periph.Callback cfg
  /\ Periph.DebounceTime (Timed.apply_defaults cfg)
     = (if Periph.DebounceTime cfg =? 0 then 50 * Millisecond
        else Periph.DebounceTime cfg)
  /\ Periph.Pull (Timed.apply_defaults cfg)
     = (if Periph.Pull cfg =? Periph.PullNoChange then Periph.PullUp
        else Periph.Pull cfg).
Proof.
  unfold Timed.apply_defaults.
  destruct (Periph.DebounceTime cfg =? 0); simpl;
    destruct (Periph.Pull cfg =? Periph.PullNoChange); by repeat split.
Qed.

(** [AddButton] has exactly these outcomes. *)
Lemma timed_AddButton_cases (cfg : Periph.ButtonConfig) (w : Timed.World) :
  (Timed.AddButton h cfg w).2 = w /\ (Timed.AddButton h cfg w).1 <> None
  \/ exists p,
      Timed.initialized (Timed.bm w) = true
      /\ Periph.ByName h (Periph.PinName cfg) = Some p
      /\ Periph.In_err h p (Periph.Pull (Timed.apply_defaults cfg)) Periph.BothEdges
         = None
      /\ Timed.AddButton h cfg w
         = (None,
            Timed.mkWorld
              (Timed.mkManager
                 (<[Periph.PinName cfg := length (Timed.heap w)]>
                    (Timed.buttons (Timed.bm w)))
                 (Timed.ctx_done (Timed.bm w)) (Timed.wg (Timed.bm w))
                 (Timed.initialized (Timed.bm w)))
              (Timed.heap w
               ++ [Periph.mkButton p (Timed.apply_defaults cfg) zeroTime])
              (<[p := Periph.InputMode (Periph.Pull (Timed.apply_defaults cfg))
                        Periph.BothEdges]> (Timed.pins w))
              (Timed.monitors w) (Timed.stoppers w) (Timed.calls w)).
Proof.
  unfold Timed.AddButton.
  destruct (Timed.initialized (Timed.bm w)); simpl; [|by left].
  destruct (timed_defaults cfg) as (-> & _).
  destruct (Periph.ByName h (Periph.PinName cfg)) as [p|]; [|by left].
  destruct (Periph.In_err h p _ _) eqn:Hi; [by left|].
  right. by exists p.
Qed.

(** X16.  A manager of the timed variant that was not made by
    [NewButtonManager] stays inert whatever is called on it: [AddButton]
    always fails with the error that the manager is not initialized,
    [Start] always fails for want of buttons, so the registry stays empty,
    no goroutine runs, no pin is touched and no callback is called. *)
Theorem uninitialized_manager_is_inert (acts : list Timed.action)
  (w w' : Timed.World) :
  Timed.inert w ->
  Timed.run h acts w = Some w' ->
  Timed.inert w'
  /\ (forall cfg, Timed.AddButton h cfg w' = (Some Timed.ErrNotInitialized, w'))
  /\ Timed.Start w' = (Some Timed.ErrNoButtons, w')
  /\ Timed.GetButtonCount w' = 0%nat.
Proof.
  revert w. induction acts as [|a acts IH]; intros w Hin Hrun; simpl in Hrun.
  - injection Hrun as <-. destruct Hin as (Hi & Hb & Hd & Hg & Hm & Hc & Hp).
    split; [by repeat split|]. split; [|split].
    + intros cfg. unfold Timed.AddButton. by rewrite Hi.
    + unfold Timed.Start. by rewrite Hb.
    + unfold Timed.GetButtonCount. by rewrite Hb.
  - destruct (Timed.step h a w) as [w1|] eqn:Hstep; [|discriminate].
    apply (IH w1); [|assumption].
    destruct Hin as (Hi & Hb & Hd & Hg & Hm & Hc & Hp).
    destruct a as [cfg| | |i|i|i edge|i lvl now]; cbn [Timed.step] in Hstep.
    + injection Hstep as <-. unfold Timed.AddButton. rewrite Hi. simpl.
      by repeat split.
    + injection Hstep as <-. unfold Timed.Start. rewrite Hb. simpl.
      by repeat split.
    + injection Hstep as <-. by repeat split.
    + destruct (Timed.stoppers w !! i) as [[| | |]|]; try discriminate.
      * injection Hstep as <-. unfold Timed.inert. simpl. rewrite Hi, Hd.
        by repeat split.
      * destruct (Nat.eqb _ _); [|discriminate]. injection Hstep as <-.
        by repeat split.
      * injection Hstep as <-. unfold Timed.inert. simpl.
        rewrite Hb, map_to_list_empty. simpl. by repeat split.
    + rewrite Hm in Hstep. discriminate.
    + rewrite Hm in Hstep. discriminate.
    + rewrite Hm in Hstep. discriminate.
Qed.

(** X17.  A successful [AddButton] of the timed variant never leaves the
    pull as it is: the pin is configured as an input on both edges with
    the pull of the configuration, or with the pull-up when the
    configuration leaves it at [PullNoChange]; the button is stored under
    its [PinName] with a window that is not zero and no press recorded. *)
Theorem timed_AddButton_configures_pull (cfg : Periph.ButtonConfig)
  (w : Timed.World) :
  (Timed.AddButton h cfg w).1 = None ->
  exists p addr btn,
    Periph.ByName h (Periph.PinName cfg) = Some p
    /\ Timed.pins (Timed.AddButton h cfg w).2 !! p
       = Some (Periph.InputMode
                 (if Periph.Pull cfg =? Periph.PullNoChange then Periph.PullUp
                  else Periph.Pull cfg) Periph.BothEdges)
    /\ Timed.buttons (Timed.bm (Timed.AddButton h cfg w).2) !! Periph.PinName cfg
       = Some addr
    /\ Timed.heap (Timed.AddButton h cfg w).2 !! addr = Some btn
    /\ Periph.pin btn = p
    /\ Periph.Pull (Periph.config btn) <> Periph.PullNoChange
    /\ Periph.DebounceTime (Periph.config btn) <> 0
    /\ Periph.lastPress btn = zeroTime.
Proof.
  intros Hok.
  destruct (timed_AddButton_cases cfg w) as [[_ Hne]|(p & _ & Hn & _ & He)];
    [contradiction|].
  rewrite He. simpl.
  destruct (timed_defaults cfg) as (_ & _ & Hd & Hp).
  exists p, (length (Timed.heap w)),
    (Periph.mkButton p (Timed.apply_defaults cfg) zeroTime).
  rewrite !lookup_insert_eq, Hp. repeat split; try assumption.
  - rewrite lookup_app_r by lia. by rewrite Nat.sub_diag.
  - simpl. rewrite Hp.
    destruct (Z.eqb_spec (Periph.Pull cfg) Periph.PullNoChange);
      [discriminate|assumption].
  - simpl. rewrite Hd.
    destruct (Z.eqb_spec (Periph.DebounceTime cfg) 0); [discriminate|assumption].
Qed.

End TimedRegistration.

(** ** The timed poll variant: goroutines and [Stop] *)
Section TimedGoroutines.
Import GoTime.
Variable h : Periph.Host.

Lemma timed_live_count_app (a b : list Timed.monitor) :
  Timed.live_count (a ++ b) = (Timed.live_count a + Timed.live_count b)%nat.
Proof. unfold Timed.live_count. by rewrite List.filter_app, length_app. Qed.

Lemma timed_live_count_spawned (l : list (string * nat)) :
  Timed.live_count
    ((fun kv : string * nat => Timed.mkMonitor kv.2 Timed.AtSelect) <$> l)
  = length l.
Proof.
  unfold Timed.live_count.
  induction l as [|kv l IH]; [reflexivity|]. rewrite fmap_cons. simpl.
  by rewrite IH.
Qed.

Lemma timed_live_count_alter (f : Timed.monitor -> Timed.monitor)
  (ms : list Timed.monitor) :
  forall (i : nat) (m : Timed.monitor),
    ms !! i = Some m ->
    (Timed.live_count (alter f i ms) + Nat.b2n (Timed.live m)
     = Timed.live_count ms + Nat.b2n (Timed.live (f m)))%nat.
Proof.
  unfold Timed.live_count.
  induction ms as [|m0 ms IH]; intros [|i] m Hi; try discriminate.
  - injection Hi as ->. simpl.
    destruct (Timed.live m), (Timed.live (f m)); simpl; lia.
  - simpl in Hi. specialize (IH i m Hi). unfold alter in IH. simpl.
    destruct (Timed.live m0); simpl; lia.
Qed.

Lemma timed_live_count_zero (ms : list Timed.monitor) :
  Timed.live_count ms = 0%nat ->
  Forall (fun m => Timed.m_pc m = Timed.Exited) ms.
Proof.
  unfold Timed.live_count. induction ms as [|m ms IH]; intros Hz; [constructor|].
  simpl in Hz. destruct (Timed.live m) eqn:Hl; [discriminate|].
  constructor; [|by apply IH].
  unfold Timed.live in Hl. by destruct (Timed.m_pc m).
Qed.

Lemma timed_live_count_exited (ms : list Timed.monitor) :
  Forall (fun m => Timed.m_pc m = Timed.Exited) ms -> Timed.live_count ms = 0%nat.
Proof.
  unfold Timed.live_count. induction 1 as [|m ms Hm _ IH]; [reflexivity|].
  simpl. unfold Timed.live at 1. by rewrite Hm.
Qed.

(** The pointers of the goroutines after a change of program counter. *)
Lemma timed_in_alter (ms : list Timed.monitor) (i : nat) (pc : Timed.monitor_pc)
  (m : Timed.monitor) :
  m ∈ alter (fun m => Timed.mkMonitor (Timed.m_btn m) pc) i ms ->
  exists m0, m0 ∈ ms /\ Timed.m_btn m0 = Timed.m_btn m.
Proof.
  revert i. induction ms as [|m0 ms IH]; intros i Hin.
  - by apply elem_of_nil in Hin.
  - destruct i as [|i]; cbn in Hin; apply elem_of_cons in Hin as [->|Hin].
    + exists m0. split; [left|reflexivity].
    + exists m. split; [by right|reflexivity].
    + exists m0. split; [left|reflexivity].
    + destruct (IH i Hin) as (m1 & Hin1 & Hb). exists m1. split; [by right|exact Hb].
Qed.

Lemma timed_set_pc_consistent (i : nat) (m : Timed.monitor)
  (pc' : Timed.monitor_pc) (w : Timed.World) :
  Timed.monitors w !! i = Some m ->
  Timed.live m = true -> pc' <> Timed.Exited ->
  Timed.consistent w -> Timed.consistent (Timed.set_pc i pc' w).
Proof.
  intros Hi Hl Hpc [H1 H2 H3 H4 H5]. constructor; simpl; try assumption.
  - pose proof (timed_live_count_alter
                  (fun m => Timed.mkMonitor (Timed.m_btn m) pc') _ i m Hi) as Ha.
    rewrite Hl in Ha. simpl in Ha. unfold Timed.live in Ha. simpl in Ha.
    destruct pc'; try contradiction; simpl in Ha; lia.
  - intros m' Hin. destruct (timed_in_alter _ _ _ _ Hin) as (m0 & Hin0 & <-).
    by apply H5.
Qed.

Lemma timed_exit_consistent (i : nat) (m : Timed.monitor) (w : Timed.World) :
  Timed.monitors w !! i = Some m ->
  Timed.live m = true ->
  Timed.consistent w ->
  Timed.consistent (Timed.wg_Done (Timed.set_pc i Timed.Exited w)).
Proof.
  intros Hi Hl [H1 H2 H3 H4 H5]. constructor; simpl; try assumption.
  - pose proof (timed_live_count_alter
                  (fun m => Timed.mkMonitor (Timed.m_btn m) Timed.Exited) _ i m Hi)
      as Ha.
    rewrite Hl in Ha. simpl in Ha. unfold Timed.live in Ha. simpl in Ha. lia.
  - intros m' Hin. destruct (timed_in_alter _ _ _ _ Hin) as (m0 & Hin0 & <-).
    by apply H5.
Qed.

Lemma timed_live_of_pc (b : nat) (pc : Timed.monitor_pc) :
  pc <> Timed.Exited -> Timed.live (Timed.mkMonitor b pc) = true.
Proof. intros Hne. unfold Timed.live. simpl. by destruct pc. Qed.

Lemma timed_step_consistent (a : Timed.action) (w w' : Timed.World) :
  Timed.consistent w -> Timed.step h a w = Some w' -> Timed.consistent w'.
Proof.
  intros Hc Hstep.
  destruct a as [cfg| | |i|i|i edge|i lvl now]; cbn [Timed.step] in Hstep.
  - injection Hstep as <-. destruct Hc as [H1 H2 H3 H4 H5].
    destruct (timed_AddButton_cases h cfg w) as [[-> _]|(p & _ & _ & _ & ->)];
      [by constructor|].
    constructor; simpl; try assumption.
    + intros name addr Hl.
      destruct (decide (name = Periph.PinName cfg)) as [->|Hne].
      * rewrite lookup_insert_eq in Hl. injection Hl as <-.
        apply lookup_lt_is_Some. rewrite length_app. simpl. lia.
      * rewrite lookup_insert_ne in Hl by congruence.
        destruct (H4 name addr Hl) as [btn Hb]. exists btn.
        by apply lookup_app_l_Some.
    + intros m Hin. destruct (H5 m Hin) as [btn Hb]. exists btn.
      by apply lookup_app_l_Some.
  - injection Hstep as <-. destruct Hc as [H1 H2 H3 H4 H5]. unfold Timed.Start.
    destruct (Nat.eqb _ _); [by constructor|].
    constructor; simpl; try assumption.
    + rewrite timed_live_count_app, timed_live_count_spawned, length_fmap. lia.
    + intros m Hin. apply elem_of_app in Hin as [Hin|Hin]; [by apply H5|].
      apply list_elem_of_fmap in Hin as ([name addr] & -> & Hin).
      apply elem_of_map_to_list in Hin. by apply (H4 name).
  - injection Hstep as <-. destruct Hc as [H1 H2 H3 H4 H5].
    constructor; simpl; try assumption.
    intros s Hs Hne. apply elem_of_app in Hs as [Hs|Hs]; [by apply (H3 s)|].
    apply list_elem_of_singleton in Hs. contradiction.
  - destruct Hc as [H1 H2 H3 H4 H5].
    destruct (Timed.stoppers w !! i) as [[| | |]|] eqn:Hi; try discriminate.
    + injection Hstep as <-. constructor; simpl; try assumption.
      intros s Hs Hne. rewrite H2. apply orb_true_r.
    + destruct (Nat.eqb _ _); [|discriminate]. injection Hstep as <-.
      constructor; simpl; try assumption.
      intros s Hs Hne. apply (H3 Periph.SWait); [|discriminate].
      by apply list_elem_of_lookup_2 with i.
    + injection Hstep as <-. constructor; simpl; try assumption.
      intros s Hs Hne. apply (H3 Periph.SHalt); [|discriminate].
      by apply list_elem_of_lookup_2 with i.
  - destruct (Timed.monitors w !! i) as [[b []]|] eqn:Hi; try discriminate.
    destruct (Timed.ctx_done (Timed.bm w)); injection Hstep as <-.
    + by apply (timed_exit_consistent i (Timed.mkMonitor b Timed.AtSelect)).
    + by apply (timed_set_pc_consistent i (Timed.mkMonitor b Timed.AtSelect)).
  - destruct (Timed.monitors w !! i) as [[b []]|] eqn:Hi; try discriminate.
    injection Hstep as <-.
    apply (timed_set_pc_consistent i (Timed.mkMonitor b Timed.AtWait));
      try done. by destruct edge.
  - destruct (Timed.monitors w !! i) as [[b []]|] eqn:Hi; try discriminate.
    destruct (Timed.heap w !! b) as [btn|] eqn:Hb; [|discriminate].
    destruct (Timed.press lvl now btn (Timed.calls w)) as [btn' cs].
    injection Hstep as <-.
    apply (timed_set_pc_consistent i (Timed.mkMonitor b Timed.AtEdge));
      try done.
    destruct Hc as [H1 H2 H3 H4 H5]. constructor; simpl; try assumption.
    + intros name addr Hl. apply lookup_lt_is_Some. rewrite length_insert.
      apply lookup_lt_is_Some. by apply (H4 name).
    + intros m Hin. apply lookup_lt_is_Some. rewrite length_insert.
      apply lookup_lt_is_Some. by apply H5.
Qed.

Lemma timed_run_consistent (acts : list Timed.action) :
  forall w w' : Timed.World,
    Timed.consistent w -> Timed.run h acts w = Some w' -> Timed.consistent w'.
Proof.
  induction acts as [|a acts IH]; intros w w' Hc Hrun; simpl in Hrun.
  - by injection Hrun as <-.
  - destruct (Timed.step h a w) as [w1|] eqn:Hs; [|discriminate].
    apply (IH w1); [|assumption]. by apply (timed_step_consistent a w).
Qed.

Lemma timed_new_consistent : Timed.consistent Timed.NewButtonManager.
Proof.
  constructor; simpl; try reflexivity.
  - intros s Hs. by apply elem_of_nil in Hs.
  - intros name addr Hl. by rewrite lookup_empty in Hl.
  - intros m Hin. by apply elem_of_nil in Hin.
Qed.

Lemma timed_run_app (a b : list Timed.action) :
  forall w : Timed.World,
    Timed.run h (a ++ b) w
    = match Timed.run h a w with
      | Some w' => Timed.run h b w'
      | None => None
      end.
Proof.
  induction a as [|x a IH]; intros w; simpl; [reflexivity|].
  destruct (Timed.step h x w); [apply IH|reflexivity].
Qed.

End TimedGoroutines.

(** ** The timed poll variant: [Stop] needs no edge *)
Section TimedDrain.
Import GoTime.
Variable h : Periph.Host.

Lemma timed_Select_exits (i b : nat) (w : Timed.World) :
  Timed.ctx_done (Timed.bm w) = true ->
  Timed.monitors w !! i = Some (Timed.mkMonitor b Timed.AtSelect) ->
  Timed.step h (Timed.Select i) w
  = Some (Timed.wg_Done (Timed.set_pc i Timed.Exited w)).
Proof. intros Hd Hi. cbn [Timed.step]. by rewrite Hi, Hd. Qed.

Lemma timed_Return_step (i b : nat) (edge : bool) (w : Timed.World) :
  Timed.monitors w !! i = Some (Timed.mkMonitor b Timed.AtWait) ->
  Timed.step h (Timed.Return i edge) w
  = Some (Timed.set_pc i (if edge then Timed.AtEdge else Timed.AtSelect) w).
Proof. intros Hi. cbn [Timed.step]. by rewrite Hi. Qed.

Lemma timed_Handle_step (i b : nat) (lvl : Periph.Level) (now : Time)
  (btn : Periph.button) (w : Timed.World) :
  Timed.monitors w !! i = Some (Timed.mkMonitor b Timed.AtEdge) ->
  Timed.heap w !! b = Some btn ->
  Timed.step h (Timed.Handle i lvl now) w
  = Some (Timed.set_pc i Timed.AtSelect
            (Timed.mkWorld (Timed.bm w)
               (<[b := (Timed.press lvl now btn (Timed.calls w)).1]> (Timed.heap w))
               (Timed.pins w) (Timed.monitors w) (Timed.stoppers w)
               (Timed.press lvl now btn (Timed.calls w)).2)).
Proof.
  intros Hi Hb. cbn [Timed.step]. rewrite Hi, Hb.
  by destruct (Timed.press lvl now btn (Timed.calls w)).
Qed.

Lemma timed_press_calls (lvl : Periph.Level) (now : Time) (btn : Periph.button)
  (cs : list (nat * string)) :
  (length cs <= length (Timed.press lvl now btn cs).2 <= S (length cs))%nat
  /\ Periph.config (Timed.press lvl now btn cs).1 = Periph.config btn
  /\ (lvl = Periph.High -> Timed.press lvl now btn cs = (btn, cs)).
Proof.
  unfold Timed.press. destruct lvl; [|by repeat split; simpl; lia].
  destruct (_ >? _); [|by repeat split; simpl; lia].
  destruct (Periph.Callback _); simpl; rewrite ?length_app; simpl;
    repeat split; try lia; discriminate.
Qed.

Lemma timed_drain_one (lvl : Periph.Level) (now : Time) (i : nat)
  (m : Timed.monitor) (w : Timed.World) :
  Timed.consistent w ->
  Timed.ctx_done (Timed.bm w) = true ->
  Timed.monitors w !! i = Some m ->
  exists w',
    Timed.run h (Timed.drain_one lvl now i m) w = Some w'
    /\ Timed.drained i m w w'
    /\ (length (Timed.calls w) <= length (Timed.calls w')
        <= length (Timed.calls w) + Nat.b2n (Timed.at_edge m))%nat.
Proof.
  intros Hc Hd Hi. destruct m as [b pc]. unfold Timed.drain_one, Timed.drained.
  assert (Hlt : (i < length (Timed.monitors w))%nat)
    by (by apply lookup_lt_Some with (Timed.mkMonitor b pc)).
  destruct pc; cbn [Timed.m_pc Timed.m_btn Timed.run].
  - rewrite (timed_Select_exits i b w Hd Hi). eexists. split; [reflexivity|].
    simpl. rewrite take_alter_ge, drop_alter_lt, list_lookup_alter_eq, Hi by lia.
    repeat split; try assumption; lia.
  - rewrite (timed_Return_step i b false w Hi).
    rewrite (timed_Select_exits i b); [|assumption|].
    + eexists. split; [reflexivity|]. simpl.
      rewrite !take_alter_ge, !drop_alter_lt, !list_lookup_alter_eq, Hi by lia.
      repeat split; try assumption; lia.
    + simpl. by rewrite list_lookup_alter_eq, Hi.
  - destruct (Timed.monitors_in_heap w Hc (Timed.mkMonitor b Timed.AtEdge))
      as [btn Hb]; [by apply list_elem_of_lookup_2 with i|].
    simpl in Hb. rewrite (timed_Handle_step i b lvl now btn w Hi Hb).
    destruct (timed_press_calls lvl now btn (Timed.calls w)) as (Hlen & _ & _).
    rewrite (timed_Select_exits i b); [|assumption|].
    + eexists. split; [reflexivity|]. simpl.
      rewrite !take_alter_ge, !drop_alter_lt, !list_lookup_alter_eq, Hi by lia.
      repeat split; try assumption; lia.
    + simpl. by rewrite list_lookup_alter_eq, Hi.
  - exists w. split; [reflexivity|]. repeat split; try assumption; lia.
Qed.

Lemma take_of_longer {A : Type} (l l' : list A) (i : nat) :
  take (S i) l' = take (S i) l ->
  take i l' = take i l /\ l' !! i = l !! i.
Proof.
  intros Ht. split.
  - replace i with (i `min` S i)%nat by lia.
    by rewrite <- !take_take, Ht.
  - rewrite <- (lookup_take_lt l' (S i) i), <- (lookup_take_lt l (S i) i) by lia.
    by rewrite Ht.
Qed.

Lemma timed_drain_from (lvl : Periph.Level) (now : Time)
  (rest : list Timed.monitor) :
  forall (i : nat) (w : Timed.World),
    drop i (Timed.monitors w) = rest ->
    Timed.consistent w ->
    Timed.ctx_done (Timed.bm w) = true ->
    exists w',
      Timed.run h (Timed.drain_from lvl now i rest) w = Some w'
      /\ Timed.consistent w'
      /\ Timed.ctx_done (Timed.bm w') = true
      /\ Timed.stoppers w' = Timed.stoppers w
      /\ take i (Timed.monitors w') = take i (Timed.monitors w)
      /\ Forall (fun m => Timed.m_pc m = Timed.Exited) (drop i (Timed.monitors w'))
      /\ (length (Timed.calls w) <= length (Timed.calls w')
          <= length (Timed.calls w) + length (List.filter Timed.at_edge rest))%nat.
Proof.
  induction rest as [|m rest IH]; intros i w Hdrop Hc Hd.
  - exists w. split; [reflexivity|]. rewrite Hdrop. simpl.
    split; [assumption|]. split; [assumption|]. split; [reflexivity|].
    split; [reflexivity|]. split; [constructor|lia].
  - assert (Hi : Timed.monitors w !! i = Some m).
    { rewrite <- (Nat.add_0_r i), <- lookup_drop, Hdrop. reflexivity. }
    destruct (timed_drain_one lvl now i m w Hc Hd Hi)
      as (w1 & Hrun1 & (Hd1 & Hs1 & Ht1 & Hdr1 & Hi1) & Hcalls1).
    assert (Hc1 : Timed.consistent w1)
      by (by apply (timed_run_consistent h (Timed.drain_one lvl now i m) w w1)).
    assert (Hrest : drop (S i) (Timed.monitors w1) = rest).
    { rewrite Hdr1. rewrite (drop_S _ _ _ Hi) in Hdrop. by injection Hdrop. }
    destruct (IH (S i) w1 Hrest Hc1 Hd1)
      as (w' & Hrun & Hc' & Hd' & Hs' & Ht' & Hex & Hcalls).
    exists w'. cbn [Timed.drain_from]. rewrite timed_run_app, Hrun1.
    destruct (take_of_longer _ _ i Ht') as [Htake Hlook].
    split; [exact Hrun|]. split; [exact Hc'|]. split; [exact Hd'|].
    split; [by rewrite Hs'|]. split; [by rewrite Htake|]. split.
    + rewrite Hi1 in Hlook. rewrite (drop_S _ _ _ Hlook).
      constructor; [reflexivity|exact Hex].
    + simpl. destruct (Timed.at_edge m); simpl in *; lia.
Qed.

Lemma timed_drain_no_edge (lvl : Periph.Level) (now : Time)
  (ms : list Timed.monitor) :
  forall i, Forall (fun a => Timed.is_edge a = false) (Timed.drain_from lvl now i ms).
Proof.
  induction ms as [|m ms IH]; intros i; [constructor|].
  cbn [Timed.drain_from]. apply Forall_app. split; [|apply IH].
  unfold Timed.drain_one. destruct (Timed.m_pc m); by repeat constructor.
Qed.

(** X18.  [Stop] of the timed variant needs no edge.  From any state the
    manager reaches in which a caller of [Stop] waits for the goroutines,
    the following steps can be taken and bring that caller to the end of
    [Stop], whatever level [lvl] the pending reads return at the clock
    reading [now]: every goroutine in turn lets its wait time out, or
    handles the edge it already has, and then finds the context
    cancelled.  No step has [WaitForEdge] report an edge; at the end
    every goroutine has returned, and at most one callback was called per
    goroutine that had an edge to handle. *)
Theorem timed_stop_needs_no_edge (pre : list Timed.action) (w : Timed.World)
  (n : nat) (lvl : Periph.Level) (now : Time) :
  Timed.run h pre Timed.NewButtonManager = Some w ->
  Timed.stoppers w !! n = Some Periph.SWait ->
  Forall (fun a => Timed.is_edge a = false)
    (Timed.drain_from lvl now 0 (Timed.monitors w)
     ++ [Timed.StopStep n; Timed.StopStep n])
  /\ exists w',
      Timed.run h (Timed.drain_from lvl now 0 (Timed.monitors w)
                   ++ [Timed.StopStep n; Timed.StopStep n]) w = Some w'
      /\ Timed.stoppers w' !! n = Some Periph.SDone
      /\ Forall (fun m => Timed.m_pc m = Timed.Exited) (Timed.monitors w')
      /\ (length (Timed.calls w')
          <= length (Timed.calls w)
             + length (List.filter Timed.at_edge (Timed.monitors w)))%nat.
Proof.
  intros Hpre Hn. split.
  { apply Forall_app. split; [apply timed_drain_no_edge|by repeat constructor]. }
  assert (Hc : Timed.consistent w).
  { apply (timed_run_consistent h pre Timed.NewButtonManager w);
      [apply timed_new_consistent|assumption]. }
  assert (Hd : Timed.ctx_done (Timed.bm w) = true).
  { apply (Timed.waited_cancelled w Hc Periph.SWait); [|discriminate].
    by apply list_elem_of_lookup_2 with n. }
  destruct (timed_drain_from lvl now (Timed.monitors w) 0 w eq_refl Hc Hd)
    as (w1 & Hrun & Hc1 & Hd1 & Hs1 & _ & Hex & Hcalls).
  rewrite drop_0 in Hex.
  assert (Hwg : Timed.wg (Timed.bm w1) = 0%nat).
  { rewrite (Timed.wg_counts_live w1 Hc1). by apply timed_live_count_exited. }
  assert (Hlt : (n < length (Timed.stoppers w1))%nat).
  { rewrite Hs1. by apply lookup_lt_Some with Periph.SWait. }
  eexists. rewrite timed_run_app, Hrun. cbn [Timed.run Timed.step].
  rewrite Hs1, Hn, Hwg. simpl.
  rewrite list_lookup_insert_eq by exact Hlt.
  split; [reflexivity|]. simpl.
  rewrite list_lookup_insert_eq by (by rewrite length_insert).
  split; [reflexivity|]. split; [exact Hex|lia].
Qed.

End TimedDrain.

(** ** The timed poll variant: one call per window *)
Section TimedGate.
Import GoTime.
Variable h : Periph.Host.

Lemma settled_count_insert (W : Duration) (ts : list Time)
  (hp : list Periph.button) :
  forall (b : nat) (btn btn' : Periph.button),
    hp !! b = Some btn ->
    (Timed.settled_count W ts (<[b := btn']> hp) + Nat.b2n (Timed.settled W ts btn)
     = Timed.settled_count W ts hp + Nat.b2n (Timed.settled W ts btn'))%nat.
Proof.
  unfold Timed.settled_count.
  induction hp as [|b0 hp IH]; intros [|b] btn btn' Hb; try discriminate.
  - injection Hb as ->. simpl.
    destruct (Timed.settled W ts btn), (Timed.settled W ts btn'); simpl; lia.
  - simpl in Hb. specialize (IH b btn btn' Hb). simpl.
    destruct (Timed.settled W ts b0); simpl; lia.
Qed.

Lemma settled_count_le (W : Duration) (ts : list Time) (hp : list Periph.button) :
  (Timed.settled_count W ts hp <= length hp)%nat.
Proof. unfold Timed.settled_count. apply List.filter_length_le. Qed.

(** What the gate does to a button, for a reading among [ts] that are
    pairwise within [W], when the window is at least [W]. *)
Lemma press_settles (W : Duration) (ts : list Time) (lvl : Periph.Level)
  (now : Time) (btn : Periph.button) (cs : list (nat * string)) :
  now ∈ ts ->
  (forall t u, t ∈ ts -> u ∈ ts -> Sub t u <= W) ->
  W <= Periph.DebounceTime (Periph.config btn) ->
  Timed.press lvl now btn cs = (btn, cs)
  \/ (Timed.settled W ts btn = false
      /\ Timed.settled W ts (Timed.press lvl now btn cs).1 = true
      /\ (length (Timed.press lvl now btn cs).2 <= S (length cs))%nat).
Proof.
  intros Hnow Hspan HW. unfold Timed.press. destruct lvl; [|by left].
  destruct (Z.gtb_spec (Sub now (Periph.lastPress btn))
              (Periph.DebounceTime (Periph.config btn))) as [Hacc|Hrej];
    [|by left].
  right. split; [|split].
  - unfold Timed.settled. apply not_true_is_false. intros Hall.
    rewrite forallb_forall in Hall.
    assert (Hle : (Sub now (Periph.lastPress btn) <=? W) = true).
    { apply Hall. by apply list_elem_of_In. }
    apply Z.leb_le in Hle. lia.
  - unfold Timed.settled. simpl. apply forallb_forall. intros t Ht.
    apply Z.leb_le. apply Hspan; [by apply list_elem_of_In|assumption].
  - simpl. destruct (Periph.Callback _); rewrite ?length_app; simpl; lia.
Qed.

Lemma timed_step_gate (W : Duration) (ts : list Time) (a : Timed.action)
  (w w' : Timed.World) :
  Timed.is_AddButton a = false ->
  (forall t, Timed.reading_of a = Some t -> t ∈ ts) ->
  (forall t u, t ∈ ts -> u ∈ ts -> Sub t u <= W) ->
  Forall (fun btn => W <= Periph.DebounceTime (Periph.config btn)) (Timed.heap w) ->
  Timed.step h a w = Some w' ->
  Forall (fun btn => W <= Periph.DebounceTime (Periph.config btn)) (Timed.heap w')
  /\ length (Timed.heap w') = length (Timed.heap w)
  /\ (length (Timed.calls w') + Timed.settled_count W ts (Timed.heap w)
      <= length (Timed.calls w) + Timed.settled_count W ts (Timed.heap w'))%nat.
Proof.
  intros Hna Hin Hspan Hall Hstep.
  destruct a as [cfg| | |i|i|i edge|i lvl now]; cbn [Timed.step] in Hstep;
    try discriminate.
  - injection Hstep as <-. unfold Timed.Start.
    destruct (Nat.eqb _ _); simpl; by repeat split.
  - injection Hstep as <-. by repeat split.
  - destruct (Timed.stoppers w !! i) as [[| | |]|]; try discriminate.
    + injection Hstep as <-. by repeat split.
    + destruct (Nat.eqb _ _); [|discriminate]. injection Hstep as <-.
      by repeat split.
    + injection Hstep as <-. by repeat split.
  - destruct (Timed.monitors w !! i) as [[b []]|]; try discriminate.
    destruct (Timed.ctx_done (Timed.bm w)); injection Hstep as <-;
      by repeat split.
  - destruct (Timed.monitors w !! i) as [[b []]|]; try discriminate.
    injection Hstep as <-. by repeat split.
  - destruct (Timed.monitors w !! i) as [[b []]|]; try discriminate.
    destruct (Timed.heap w !! b) as [btn|] eqn:Hb; [|discriminate].
    assert (HW : W <= Periph.DebounceTime (Periph.config btn)).
    { rewrite Forall_forall in Hall. apply Hall.
      by apply list_elem_of_lookup_2 with b. }
    destruct (timed_press_calls lvl now btn (Timed.calls w)) as (_ & Hcfg & _).
    pose proof (settled_count_insert W ts (Timed.heap w) b btn
                  (Timed.press lvl now btn (Timed.calls w)).1 Hb) as Hcount.
    destruct (press_settles W ts lvl now btn (Timed.calls w)
                (Hin now eq_refl) Hspan HW) as [Hsame|(Hs & Hs' & Hlen)];
      destruct (Timed.press lvl now btn (Timed.calls w)) as [btn' cs];
      injection Hstep as <-; simpl in *.
    + injection Hsame as -> ->. rewrite list_insert_id by assumption.
      by repeat split.
    + rewrite Hs, Hs' in Hcount. simpl in Hcount.
      split; [|split; [by rewrite length_insert|lia]].
      apply Forall_insert; [assumption|by rewrite Hcfg].
Qed.

(** X19.  In the timed variant the window is checked and the press
    recorded in one critical section, so a button calls back at most once
    per window, however many goroutines watch it: over a run that adds no
    button and whose clock readings are pairwise within [W] of each
    other, with every window at least [W], the number of calls is at
    most the number of buttons. *)
Theorem timed_one_call_per_window (W : Duration) (acts : list Timed.action)
  (w w' : Timed.World) :
  Forall (fun a => Timed.is_AddButton a = false) acts ->
  (forall t u, t ∈ Timed.readings acts -> u ∈ Timed.readings acts -> Sub t u <= W) ->
  Forall (fun btn => W <= Periph.DebounceTime (Periph.config btn)) (Timed.heap w) ->
  Timed.run h acts w = Some w' ->
  (length (Timed.calls w') <= length (Timed.calls w) + length (Timed.heap w))%nat.
Proof.
  intros Hna Hspan Hall Hrun.
  set (ts := Timed.readings acts) in *.
  assert (Hts : Forall (fun a => forall t, Timed.reading_of a = Some t -> t ∈ ts)
                  acts).
  { apply Forall_forall. intros a Ha t Ht. unfold ts, Timed.readings.
    apply list_elem_of_omap. by exists a. }
  clearbody ts.
  assert (Hgen :
    (length (Timed.calls w') + Timed.settled_count W ts (Timed.heap w)
     <= length (Timed.calls w) + Timed.settled_count W ts (Timed.heap w'))%nat
    /\ length (Timed.heap w') = length (Timed.heap w)).
  { revert w Hall Hrun Hna Hts.
    induction acts as [|a acts IH]; intros w Hall Hrun Hna Hts; simpl in Hrun.
    - injection Hrun as <-. split; [lia|reflexivity].
    - apply Forall_cons in Hna as [Ha Hna]. apply Forall_cons in Hts as [Hta Hts].
      destruct (Timed.step h a w) as [w1|] eqn:Hstep; [|discriminate].
      destruct (timed_step_gate W ts a w w1 Ha Hta Hspan Hall Hstep)
        as (Hall1 & Hlen1 & Hle1).
      destruct (IH w1 Hall1 Hrun Hna Hts) as [Hle Hlen].
      split; [lia|congruence]. }
  destruct Hgen as [Hle Hlen].
  pose proof (settled_count_le W ts (Timed.heap w')). lia.
Qed.

End TimedGate.

Section PollWitnesses.
Import GoTime Sample Scenario.

Lemma poll_burst_gives_one_call_witness :
  Periph.on_edges [low_at 0; low_at 10; low_at 20; low_at 50]
    (fresh_button (50 * Millisecond), [])
  = (Periph.updateLastPress (at_ms 0) (fresh_button (50 * Millisecond)),
     [(7%nat, "GPIO11"%string)]).
Proof.
  apply (poll_burst_gives_one_call (low_at 0) [low_at 10; low_at 20; low_at 50]
           (fresh_button (50 * Millisecond)) [] 7%nat).
  - reflexivity.
  - reflexivity.
  - reflexivity.
  - repeat constructor; vm_compute; discriminate.
Defined.

Lemma calls_come_from_watched_buttons_witness :
  exists w',
    Periph.run board late_button periph_started = Some w'
    /\ Periph.GetButtonCount w' = 2%nat
    /\ ~ Reach.watched w' 1.
Proof.
  destruct (Periph.run board late_button periph_started) as [w'|] eqn:Hrun;
    [|vm_compute in Hrun; discriminate].
  destruct (calls_come_from_watched_buttons board
              [Periph.CallAddButton (periph_config "GPIO11" (50 * Millisecond));
               Periph.CallStart] late_button periph_started w')
    as (Hsame & Hold & _).
  - reflexivity.
  - repeat constructor.
  - exact Hrun.
  - exists w'. split; [reflexivity|]. split.
    + vm_compute in Hrun. by injection Hrun as <-.
    + intros Hw. apply Hsame, Hold in Hw. vm_compute in Hw. lia.
Defined.

Lemma unsynchronised_gate_dispatches_twice_witness :
  exists w',
    Periph.run board
      [Periph.Read 0 Periph.Low (at_ms 10); Periph.Read 1 Periph.Low (at_ms 10);
       Periph.Dispatch 0 (at_ms 10); Periph.Dispatch 1 (at_ms 11)] started_twice
    = Some w'
    /\ Periph.calls w' = [(7%nat, "GPIO11"%string); (7%nat, "GPIO11"%string)].
Proof.
  apply (unsynchronised_gate_dispatches_twice board started_twice 0 1 0
           (fresh_button (50 * Millisecond)) 7%nat (at_ms 10) (at_ms 10) (at_ms 11));
    try reflexivity. lia.
Defined.

Lemma cancelled_dispatch_bound_witness :
  exists w',
    Periph.run board last_dispatch stopping = Some w'
    /\ (length (Periph.calls w') <= 1)%nat.
Proof.
  destruct (Periph.run board last_dispatch stopping) as [w'|] eqn:Hrun;
    [|vm_compute in Hrun; discriminate].
  destruct (cancelled_dispatch_bound board last_dispatch stopping w' eq_refl Hrun)
    as [_ Hle].
  exists w'. split; [reflexivity|exact Hle].
Defined.

Lemma example_start_outcomes_witness :
  exists r,
    Callers.example_start board
      [periph_config "GPIO99" 0; periph_config "GPIO11" 0] = Some r
    /\ r.1 = None
    /\ length (Periph.monitors r.2) = Periph.GetButtonCount r.2.
Proof.
  destruct (Callers.example_start board
              [periph_config "GPIO99" 0; periph_config "GPIO11" 0])
    as [r|] eqn:He; [|vm_compute in He; discriminate].
  destruct (proj2 (example_start_outcomes board
                     [periph_config "GPIO99" 0; periph_config "GPIO11" 0]) r He)
    as (Hok & Hlen & _).
  exists r. by repeat split.
Defined.

End PollWitnesses.

Section TimedWitnesses.
Import GoTime Sample Scenario.

Lemma uninitialized_manager_is_inert_witness :
  exists w',
    Timed.run board unmade_session Timed.zeroManager = Some w'
    /\ Timed.GetButtonCount w' = 0%nat
    /\ Timed.stoppers w' = [Periph.SDone].
Proof.
  destruct (Timed.run board unmade_session Timed.zeroManager) as [w'|] eqn:Hrun;
    [|vm_compute in Hrun; discriminate].
  destruct (uninitialized_manager_is_inert board unmade_session Timed.zeroManager w')
    as (_ & _ & _ & Hn).
  - by repeat split.
  - exact Hrun.
  - exists w'. split; [reflexivity|]. split; [exact Hn|].
    vm_compute in Hrun. by injection Hrun as <-.
Defined.

Lemma timed_AddButton_configures_pull_witness :
  Timed.pins (Timed.AddButton board (periph_config "GPIO11" 0)
                Timed.NewButtonManager).2 !! "GPIO11"%string
  = Some (Periph.InputMode Periph.PullUp Periph.BothEdges).
Proof.
  destruct (timed_AddButton_configures_pull board (periph_config "GPIO11" 0)
              Timed.NewButtonManager eq_refl)
    as (p & addr & btn & Hp & Hpins & _).
  vm_compute in Hp. injection Hp as <-. exact Hpins.
Defined.

Lemma timed_stop_needs_no_edge_witness :
  exists w w',
    Timed.run board timed_stopping Timed.NewButtonManager = Some w
    /\ Timed.run board
         [Timed.Return 0 false; Timed.Select 0; Timed.StopStep 0; Timed.StopStep 0]
         w = Some w'
    /\ Timed.stoppers w' !! 0%nat = Some Periph.SDone.
Proof.
  destruct (Timed.run board timed_stopping Timed.NewButtonManager)
    as [w|] eqn:Hpre; [|vm_compute in Hpre; discriminate].
  destruct (timed_stop_needs_no_edge board timed_stopping w 0 Periph.Low
              (at_ms 10) Hpre) as (_ & w' & Hrun & Hdone & _).
  - vm_compute in Hpre. by injection Hpre as <-.
  - exists w, w'. split; [reflexivity|]. split; [|exact Hdone].
    rewrite <- Hrun. vm_compute in Hpre. by injection Hpre as <-.
Defined.

Lemma timed_one_call_per_window_witness :
  exists w',
    Timed.run board two_presses timed_started = Some w'
    /\ (length (Timed.calls w') <= 1)%nat.
Proof.
  destruct (Timed.run board two_presses timed_started) as [w'|] eqn:Hrun;
    [|vm_compute in Hrun; discriminate].
  exists w'. split; [reflexivity|].
  apply (timed_one_call_per_window board (50 * Millisecond) two_presses
           timed_started w'); [repeat constructor| |repeat constructor|exact Hrun].
  - intros t u Ht Hu.
    change (Timed.readings two_presses) with [at_ms 5; at_ms 30] in Ht, Hu.
    apply elem_of_cons in Ht as [->|Ht]; apply elem_of_cons in Hu as [->|Hu];
      try (apply list_elem_of_singleton in Ht as ->);
      try (apply list_elem_of_singleton in Hu as ->);
      vm_compute; discriminate.
  - vm_compute. discriminate.
Defined.

End TimedWitnesses.

(** ** The timed poll variant: after [Stop] *)
Section TimedStopped.
Import GoTime.
Variable h : Periph.Host.

Lemma timed_Forall_alter (P : Timed.monitor -> Prop) (ms : list Timed.monitor)
  (i : nat) (pc : Timed.monitor_pc) :
  Forall P ms ->
  (forall b, P (Timed.mkMonitor b pc)) ->
  Forall P (alter (fun m => Timed.mkMonitor (Timed.m_btn m) pc) i ms).
Proof.
  intros Hall Hpc. revert i. induction Hall as [|m ms Hm Hms IH]; intros i.
  - constructor.
  - destruct i as [|i]; cbn; constructor; try assumption; [apply Hpc|apply IH].
Qed.

Lemma quiet_not_at_pin (w : Timed.World) (i b : nat) (pc : Timed.monitor_pc) :
  Timed.quiet w ->
  Timed.monitors w !! i = Some (Timed.mkMonitor b pc) ->
  pc <> Timed.AtWait /\ pc <> Timed.AtEdge.
Proof.
  intros [_ Hq] Hi. rewrite Forall_forall in Hq.
  specialize (Hq _ (list_elem_of_lookup_2 _ _ _ Hi)).
  unfold Timed.at_pin in Hq. simpl in Hq. by destruct pc.
Qed.

(** Once the context is cancelled and no goroutine is at its pin, this
    stays so, and no step calls a callback. *)
Lemma timed_quiet_step (a : Timed.action) (w w' : Timed.World) :
  Timed.quiet w -> Timed.step h a w = Some w' ->
  Timed.quiet w' /\ Timed.calls w' = Timed.calls w.
Proof.
  intros Hq Hstep. pose proof Hq as [Hd Hall].
  destruct a as [cfg| | |i|i|i edge|i lvl now]; cbn [Timed.step] in Hstep.
  - injection Hstep as <-.
    destruct (timed_AddButton_cases h cfg w) as [[-> _]|(p & _ & _ & _ & ->)];
      by repeat split.
  - injection Hstep as <-. unfold Timed.Start.
    destruct (Nat.eqb _ _); [by repeat split|].
    split; [|reflexivity]. split; [assumption|]. simpl.
    apply Forall_app. split; [assumption|].
    apply Forall_fmap, Forall_forall. by intros kv _.
  - injection Hstep as <-. by repeat split.
  - destruct (Timed.stoppers w !! i) as [[| | |]|]; try discriminate.
    + injection Hstep as <-. split; [|reflexivity]. split; [|assumption].
      simpl. by rewrite Hd.
    + destruct (Nat.eqb _ _); [|discriminate]. injection Hstep as <-.
      by repeat split.
    + injection Hstep as <-. by repeat split.
  - destruct (Timed.monitors w !! i) as [[b []]|]; try discriminate.
    rewrite Hd in Hstep. injection Hstep as <-.
    split; [|reflexivity]. split; [assumption|]. simpl.
    by apply timed_Forall_alter.
  - destruct (Timed.monitors w !! i) as [[b pc]|] eqn:Hi; [|discriminate].
    destruct (quiet_not_at_pin w i b pc Hq Hi) as [Hw _].
    by destruct pc.
  - destruct (Timed.monitors w !! i) as [[b pc]|] eqn:Hi; [|discriminate].
    destruct (quiet_not_at_pin w i b pc Hq Hi) as [_ He].
    by destruct pc.
Qed.

Lemma timed_quiet_run (acts : list Timed.action) :
  forall w w', Timed.quiet w -> Timed.run h acts w = Some w' ->
               Timed.quiet w' /\ Timed.calls w' = Timed.calls w.
Proof.
  induction acts as [|a acts IH]; intros w w' Hq Hrun; simpl in Hrun.
  - injection Hrun as <-. by split.
  - destruct (Timed.step h a w) as [w1|] eqn:Hstep; [|discriminate].
    destruct (timed_quiet_step a w w1 Hq Hstep) as [Hq1 Hc1].
    destruct (IH w1 w' Hq1 Hrun) as [Hq' Hc']. split; [assumption|congruence].
Qed.

(** In every state reached from a new manager, once a caller of [Stop] is
    past [wg.Wait] no goroutine is at its pin. *)
Lemma timed_past_wait_quiet (acts : list Timed.action) :
  forall w w',
    Timed.consistent w ->
    ((exists s, s ∈ Timed.stoppers w /\ Periph.past_wait s = true) -> Timed.quiet w) ->
    Timed.run h acts w = Some w' ->
    (exists s, s ∈ Timed.stoppers w' /\ Periph.past_wait s = true) ->
    Timed.quiet w'.
Proof.
  induction acts as [|a acts IH]; intros w w' Hc Hpw Hrun; simpl in Hrun.
  - by injection Hrun as <-.
  - destruct (Timed.step h a w) as [w1|] eqn:Hstep; [|discriminate].
    apply (IH w1 w'); [by apply (timed_step_consistent h a w)| |assumption].
    intros (s & Hs & Hp).
    assert (Hold : (exists s0, s0 ∈ Timed.stoppers w /\ Periph.past_wait s0 = true)
                   -> Timed.quiet w1).
    { intros Hex. by apply (timed_quiet_step a w w1 (Hpw Hex) Hstep). }
    destruct a as [cfg| | |i|i|i edge|i lvl now]; cbn [Timed.step] in Hstep.
    + apply Hold. exists s. split; [|assumption]. injection Hstep as <-.
      by destruct (timed_AddButton_cases h cfg w)
        as [[He _]|(p & _ & _ & _ & He)]; rewrite He in Hs.
    + apply Hold. exists s. split; [|assumption]. injection Hstep as <-.
      unfold Timed.Start in Hs. by destruct (Nat.eqb _ _).
    + apply Hold. exists s. split; [|assumption]. injection Hstep as <-.
      simpl in Hs. apply elem_of_app in Hs as [Hs|Hs]; [assumption|].
      apply list_elem_of_singleton in Hs. by subst s.
    + destruct (Timed.stoppers w !! i) as [[| | |]|] eqn:Hi; try discriminate.
      * apply Hold. exists s. split; [|assumption]. injection Hstep as <-.
        simpl in Hs. apply elem_of_insert_inv in Hs as [->|Hs];
          [discriminate|assumption].
      * destruct (Nat.eqb_spec (Timed.wg (Timed.bm w)) 0) as [Hz|];
          [|discriminate].
        injection Hstep as <-. split.
        -- simpl. apply (Timed.waited_cancelled w Hc Periph.SWait); [|discriminate].
           by apply list_elem_of_lookup_2 with i.
        -- simpl. rewrite (Timed.wg_counts_live w Hc) in Hz.
           eapply Forall_impl; [apply (timed_live_count_zero _ Hz)|].
           intros m Hm. unfold Timed.at_pin. by rewrite Hm.
      * apply Hold. exists Periph.SHalt. split; [|reflexivity].
        by apply list_elem_of_lookup_2 with i.
    + apply Hold. exists s. split; [|assumption].
      destruct (Timed.monitors w !! i) as [[b []]|]; try discriminate.
      by destruct (Timed.ctx_done (Timed.bm w)); injection Hstep as <-.
    + apply Hold. exists s. split; [|assumption].
      destruct (Timed.monitors w !! i) as [[b []]|]; try discriminate.
      by injection Hstep as <-.
    + apply Hold. exists s. split; [|assumption].
      destruct (Timed.monitors w !! i) as [[b []]|]; try discriminate.
      destruct (Timed.heap w !! b); [|discriminate].
      destruct (Timed.press _ _ _ _). by injection Hstep as <-.
Qed.

(** X20.  [Stop] of the timed variant waits for the goroutines and
    silences the buttons: in every state reached from a new manager in
    which a caller of [Stop] is past [wg.Wait], the context is cancelled
    and no goroutine waits for an edge or has one to handle; and whatever
    happens from then on, including further calls of [AddButton] and
    [Start], no callback is called any more. *)
Theorem timed_stop_waits_and_silences (pre acts : list Timed.action)
  (w w' : Timed.World) (s : Periph.stop_pc) :
  Timed.run h pre Timed.NewButtonManager = Some w ->
  s ∈ Timed.stoppers w -> Periph.past_wait s = true ->
  Timed.run h acts w = Some w' ->
  Timed.quiet w /\ Timed.quiet w' /\ Timed.calls w' = Timed.calls w.
Proof.
  intros Hpre Hs Hp Hrun.
  assert (Hq : Timed.quiet w).
  { apply (timed_past_wait_quiet pre Timed.NewButtonManager w);
      [apply timed_new_consistent| |assumption|by exists s].
    intros (s0 & Hs0 & _). simpl in Hs0. by apply elem_of_nil in Hs0. }
  split; [exact Hq|]. by apply (timed_quiet_run acts w w').
Qed.

End TimedStopped.

(** ** The poll variant: what [Stop] needs to return *)
Section PollDrain.
Import GoTime.
Variable h : Periph.Host.

Lemma poll_Wake_step (i b : nat) (edge : bool) (w : Periph.World) :
  Periph.monitors w !! i = Some (Periph.mkMonitor b Periph.AtWait) ->
  Periph.step h (Periph.Wake i edge) w
  = Some (Periph.set_pc i (Periph.Woken edge) w).
Proof. intros Hi. cbn [Periph.step]. by rewrite Hi. Qed.

Lemma poll_Check_exits (i b : nat) (edge : bool) (w : Periph.World) :
  Periph.ctx_done (Periph.bm w) = true ->
  Periph.monitors w !! i = Some (Periph.mkMonitor b (Periph.Woken edge)) ->
  Periph.step h (Periph.Check i) w
  = Some (Periph.wg_Done (Periph.set_pc i Periph.Exited w)).
Proof.
  intros Hd Hi. cbn [Periph.step]. unfold Periph.isShuttingDown.
  by rewrite Hi, Hd.
Qed.

Lemma poll_Read_High (i b : nat) (now : Time) (btn : Periph.button)
  (w : Periph.World) :
  Periph.monitors w !! i = Some (Periph.mkMonitor b Periph.Handling) ->
  Periph.heap w !! b = Some btn ->
  Periph.step h (Periph.Read i Periph.High now) w
  = Some (Periph.set_pc i Periph.AtWait w).
Proof. intros Hi Hb. cbn [Periph.step]. by rewrite Hi, Hb. Qed.

(** From its wait, one edge brings goroutine [i] to its return. *)
Lemma poll_wake_and_exit (i b : nat) (w : Periph.World) :
  Periph.ctx_done (Periph.bm w) = true ->
  Periph.monitors w !! i = Some (Periph.mkMonitor b Periph.AtWait) ->
  exists w',
    Periph.run h [Periph.Wake i true; Periph.Check i] w = Some w'
    /\ Reach.drained i (Periph.mkMonitor b Periph.AtWait) w w'
    /\ Periph.calls w' = Periph.calls w.
Proof.
  intros Hd Hi.
  assert (Hlt : (i < length (Periph.monitors w))%nat)
    by (by apply lookup_lt_Some with (Periph.mkMonitor b Periph.AtWait)).
  cbn [Periph.run]. rewrite (poll_Wake_step i b true w Hi).
  rewrite (poll_Check_exits i b true); [|assumption|].
  - eexists. split; [reflexivity|]. unfold Reach.drained. simpl.
    rewrite !take_alter_ge, !drop_alter_lt, !list_lookup_alter_eq, Hi by lia.
    by repeat split.
  - simpl. by rewrite list_lookup_alter_eq, Hi.
Qed.

Lemma poll_drain_one (now : Time) (i : nat) (m : Periph.monitor)
  (w : Periph.World) :
  Reach.monitors_in_heap w ->
  Periph.ctx_done (Periph.bm w) = true ->
  Periph.monitors w !! i = Some m ->
  exists w',
    Periph.run h (Reach.drain_one now i m) w = Some w'
    /\ Reach.drained i m w w'
    /\ (length (Periph.calls w) <= length (Periph.calls w')
        <= length (Periph.calls w) + Nat.b2n (Reach.accepted m))%nat.
Proof.
  intros Hm Hd Hi. destruct m as [b pc].
  assert (Hlt : (i < length (Periph.monitors w))%nat)
    by (by apply lookup_lt_Some with (Periph.mkMonitor b pc)).
  assert (Hheap : is_Some (Periph.heap w !! b)).
  { apply Hm. unfold Reach.watched. apply list_elem_of_fmap.
    exists (Periph.mkMonitor b pc). split; [reflexivity|].
    by apply list_elem_of_lookup_2 with i. }
  destruct Hheap as [btn Hb].
  unfold Reach.drain_one. destruct pc as [|edge| | |]; cbn [Periph.m_pc].
  - destruct (poll_wake_and_exit i b w Hd Hi) as (w' & Hrun & Hdr & Hc).
    exists w'. rewrite Hc. split; [exact Hrun|]. split; [exact Hdr|]. simpl. lia.
  - cbn [Periph.run]. rewrite (poll_Check_exits i b edge w Hd Hi).
    eexists. split; [reflexivity|]. unfold Reach.drained. simpl.
    rewrite take_alter_ge, drop_alter_lt, list_lookup_alter_eq, Hi by lia.
    repeat split; try assumption; lia.
  - cbn [Periph.run]. rewrite (poll_Read_High i b now btn w Hi Hb).
    destruct (poll_wake_and_exit i b (Periph.set_pc i Periph.AtWait w))
      as (w' & Hrun & (Hd' & Hs' & Ht' & Hdr' & Hi') & Hc);
      [assumption|simpl; by rewrite list_lookup_alter_eq, Hi|].
    cbn [Periph.run] in Hrun. exists w'. split; [exact Hrun|].
    simpl in Hs', Ht', Hdr', Hc. rewrite Hc.
    rewrite take_alter_ge in Ht' by lia. rewrite drop_alter_lt in Hdr' by lia.
    unfold Reach.drained. repeat split; try assumption; simpl; lia.
  - cbn [Periph.run]. rewrite (Dispatch_calls h i b btn now w Hi Hb).
    set (w1 := Periph.set_pc i Periph.AtWait
                 (Periph.set_calls (Periph.invokeCallback btn)
                    (Periph.set_heap (<[b := Periph.updateLastPress now btn]>) w))).
    destruct (poll_wake_and_exit i b w1)
      as (w' & Hrun & (Hd' & Hs' & Ht' & Hdr' & Hi') & Hc);
      [assumption|unfold w1; simpl; by rewrite list_lookup_alter_eq, Hi|].
    cbn [Periph.run] in Hrun. exists w'. split; [exact Hrun|].
    unfold w1 in Hs', Ht', Hdr', Hc. simpl in Hs', Ht', Hdr', Hc. rewrite Hc.
    rewrite take_alter_ge in Ht' by lia. rewrite drop_alter_lt in Hdr' by lia.
    unfold Reach.drained. repeat split; try assumption.
    + unfold Periph.invokeCallback.
      destruct (Periph.Callback _); rewrite ?length_app; simpl; lia.
    + unfold Periph.invokeCallback.
      destruct (Periph.Callback _); rewrite ?length_app; simpl; lia.
  - exists w. split; [reflexivity|]. unfold Reach.drained.
    repeat split; try assumption; lia.
Qed.

Lemma poll_drain_from (now : Time) (rest : list Periph.monitor) :
  forall (i : nat) (w : Periph.World),
    drop i (Periph.monitors w) = rest ->
    Periph.consistent w -> Reach.monitors_in_heap w ->
    Periph.ctx_done (Periph.bm w) = true ->
    exists w',
      Periph.run h (Reach.drain_from now i rest) w = Some w'
      /\ Periph.consistent w'
      /\ Periph.stoppers w' = Periph.stoppers w
      /\ take i (Periph.monitors w') = take i (Periph.monitors w)
      /\ Forall (fun m => Periph.m_pc m = Periph.Exited)
                (drop i (Periph.monitors w'))
      /\ (length (Periph.calls w) <= length (Periph.calls w')
          <= length (Periph.calls w) + length (List.filter Reach.accepted rest))%nat.
Proof.
  induction rest as [|m rest IH]; intros i w Hdrop Hc Hm Hd.
  - exists w. split; [reflexivity|]. rewrite Hdrop. simpl.
    split; [assumption|]. split; [reflexivity|]. split; [reflexivity|].
    split; [constructor|lia].
  - assert (Hi : Periph.monitors w !! i = Some m).
    { rewrite <- (Nat.add_0_r i), <- lookup_drop, Hdrop. reflexivity. }
    destruct (poll_drain_one now i m w Hm Hd Hi)
      as (w1 & Hrun1 & (Hd1 & Hs1 & Ht1 & Hdr1 & Hi1) & Hcalls1).
    assert (Hc1 : Periph.consistent w1)
      by (by apply (run_consistent h (Reach.drain_one now i m) w w1)).
    assert (Hm1 : Reach.monitors_in_heap w1)
      by (by apply (run_monitors_in_heap h (Reach.drain_one now i m) w w1)).
    assert (Hrest : drop (S i) (Periph.monitors w1) = rest).
    { rewrite Hdr1. rewrite (drop_S _ _ _ Hi) in Hdrop. by injection Hdrop. }
    destruct (IH (S i) w1 Hrest Hc1 Hm1 Hd1)
      as (w' & Hrun & Hc' & Hs' & Ht' & Hex & Hcalls).
    exists w'. cbn [Reach.drain_from]. rewrite run_app, Hrun1.
    destruct (take_of_longer _ _ i Ht') as [Htake Hlook].
    split; [exact Hrun|]. split; [exact Hc'|].
    split; [by rewrite Hs'|]. split; [by rewrite Htake|]. split.
    + rewrite Hi1 in Hlook. rewrite (drop_S _ _ _ Hlook).
      constructor; [reflexivity|exact Hex].
    + simpl. destruct (Reach.accepted m); simpl in *; lia.
Qed.

Lemma poll_drain_wakes (now : Time) (ms : list Periph.monitor) :
  forall i,
    length (List.filter Periph.is_wake (Reach.drain_from now i ms))
    = length (List.filter Reach.to_wake ms).
Proof.
  induction ms as [|m ms IH]; intros i; [reflexivity|].
  cbn [Reach.drain_from]. rewrite List.filter_app, length_app, IH.
  destruct m as [b pc]. unfold Reach.drain_one, Reach.to_wake. simpl.
  by destruct pc.
Qed.

(** X21.  What [Stop] of the poll variant needs in order to return: one
    more return of [WaitForEdge] in every goroutine that is not already
    past one.  From any state the manager reaches in which a caller of
    [Stop] waits for the goroutines, the schedule in which each goroutine
    in turn finishes the edge it is handling, sees one more edge and then
    finds the context cancelled brings that caller to the end of [Stop];
    it has as many returns of [WaitForEdge] as there were goroutines
    still to be woken, all goroutines have returned at its end, and the
    only callbacks called are of presses that were already accepted. *)
Theorem stop_returns_after_one_edge_each (pre : list Periph.action)
  (w : Periph.World) (n : nat) (now : Time) :
  Periph.run h pre Periph.NewButtonManager = Some w ->
  Periph.stoppers w !! n = Some Periph.SWait ->
  length (List.filter Periph.is_wake
            (Reach.drain_from now 0 (Periph.monitors w)
             ++ [Periph.StopStep n; Periph.StopStep n]))
  = length (List.filter Reach.to_wake (Periph.monitors w))
  /\ exists w',
      Periph.run h (Reach.drain_from now 0 (Periph.monitors w)
                    ++ [Periph.StopStep n; Periph.StopStep n]) w = Some w'
      /\ Periph.stoppers w' !! n = Some Periph.SDone
      /\ Forall (fun m => Periph.m_pc m = Periph.Exited) (Periph.monitors w')
      /\ (length (Periph.calls w')
          <= length (Periph.calls w)
             + length (List.filter Reach.accepted (Periph.monitors w)))%nat.
Proof.
  intros Hpre Hn. split.
  { rewrite List.filter_app, length_app, poll_drain_wakes. simpl. lia. }
  assert (Hc : Periph.consistent w).
  { apply (run_consistent h pre Periph.NewButtonManager w);
      [apply NewButtonManager_consistent|assumption]. }
  assert (Hm : Reach.monitors_in_heap w).
  { apply (run_monitors_in_heap h pre Periph.NewButtonManager w);
      [apply NewButtonManager_consistent| |assumption].
    intros addr Hw. unfold Reach.watched in Hw. simpl in Hw.
    by apply elem_of_nil in Hw. }
  assert (Hd : Periph.ctx_done (Periph.bm w) = true).
  { apply (Periph.waited_cancelled w Hc Periph.SWait); [|discriminate].
    by apply list_elem_of_lookup_2 with n. }
  destruct (poll_drain_from now (Periph.monitors w) 0 w eq_refl Hc Hm Hd)
    as (w1 & Hrun & Hc1 & Hs1 & _ & Hex & Hcalls).
  rewrite drop_0 in Hex.
  assert (Hwg : Periph.wg (Periph.bm w1) = 0%nat).
  { rewrite (Periph.wg_counts_live w1 Hc1). by apply live_count_exited. }
  assert (Hlt : (n < length (Periph.stoppers w1))%nat).
  { rewrite Hs1. by apply lookup_lt_Some with Periph.SWait. }
  eexists. rewrite run_app, Hrun. cbn [Periph.run Periph.step].
  rewrite Hs1, Hn, Hwg. simpl.
  rewrite list_lookup_insert_eq by exact Hlt.
  split; [reflexivity|]. simpl.
  rewrite list_lookup_insert_eq by (by rewrite length_insert).
  split; [reflexivity|]. split; [exact Hex|lia].
Qed.

End PollDrain.

Section StopWitnesses.
Import GoTime Sample Scenario.

Lemma timed_stop_waits_and_silences_witness :
  exists w w',
    Timed.run board timed_stopped Timed.NewButtonManager = Some w
    /\ Timed.run board timed_restart w = Some w'
    /\ Timed.calls w' = Timed.calls w
    /\ Timed.GetButtonCount w' = 1%nat.
Proof.
  destruct (Timed.run board timed_stopped Timed.NewButtonManager)
    as [w|] eqn:Hpre; [|vm_compute in Hpre; discriminate].
  destruct (Timed.run board timed_restart w) as [w'|] eqn:Hrun;
    [|vm_compute in Hpre; injection Hpre as <-; vm_compute in Hrun; discriminate].
  destruct (timed_stop_waits_and_silences board timed_stopped timed_restart w w'
              Periph.SDone Hpre) as (_ & _ & Hcalls).
  - vm_compute in Hpre. injection Hpre as <-. left.
  - reflexivity.
  - exact Hrun.
  - exists w, w'. repeat split; try assumption.
    vm_compute in Hpre. injection Hpre as <-.
    vm_compute in Hrun. by injection Hrun as <-.
Defined.

Lemma stop_returns_after_one_edge_each_witness :
  exists w',
    Periph.run board
      [Periph.Read 0 Periph.High (at_ms 10); Periph.Wake 0 true; Periph.Check 0;
       Periph.StopStep 0; Periph.StopStep 0] stopping = Some w'
    /\ Periph.stoppers w' !! 0%nat = Some Periph.SDone.
Proof.
  destruct (stop_returns_after_one_edge_each board stopping_steps stopping 0
              (at_ms 10)) as (_ & w' & Hrun & Hdone & _).
  - reflexivity.
  - reflexivity.
  - exists w'. split; [exact Hrun|exact Hdone].
Defined.

End StopWitnesses.

(** ** The gates over sequences of candidates *)
Section GateSequences.
Import GoTime.

Lemma periph_button_eta (btn : Periph.button) :
  Periph.mkButton (Periph.pin btn) (Periph.config btn) (Periph.lastPress btn) = btn.
Proof. by destruct btn. Qed.

Lemma calls_of_accept (callback : option nat) (name : string) (ds : list bool)
  (cs : list (nat * string)) :
  cs ++ SpecGate.calls_of callback name (true :: ds)
  = match callback with Some f => cs ++ [(f, name)] | None => cs end
    ++ SpecGate.calls_of callback name ds.
Proof.
  unfold SpecGate.calls_of, SpecGate.accepted. destruct callback as [f|];
    [|reflexivity].
  simpl. by rewrite <- app_assoc.
Qed.

Lemma calls_of_reject (callback : option nat) (name : string) (ds : list bool) :
  SpecGate.calls_of callback name (false :: ds) = SpecGate.calls_of callback name ds.
Proof. reflexivity. Qed.

(** The poll loop over a sequence of edges follows the gate of the
    specification, run on the stored window from the stored last press. *)
Lemma poll_loop_follows_gate (evs : list Periph.edge_event) :
  forall (btn : Periph.button) (cs : list (nat * string)),
    Forall (fun ev => Periph.e_updated ev = Periph.e_checked ev) evs ->
    Periph.on_edges evs (btn, cs)
    = (Periph.mkButton (Periph.pin btn) (Periph.config btn)
         (SpecGate.decisions
            (SpecGate.consider (Periph.DebounceTime (Periph.config btn)))
            (Periph.lastPress btn) (Reach.candidates evs)).2,
       cs ++ SpecGate.calls_of (Periph.Callback (Periph.config btn))
               (Periph.PinName (Periph.config btn))
               (SpecGate.decisions
                  (SpecGate.consider (Periph.DebounceTime (Periph.config btn)))
                  (Periph.lastPress btn) (Reach.candidates evs)).1).
Proof.
  induction evs as [|ev evs IH]; intros btn cs Hsame.
  - simpl. unfold SpecGate.calls_of. rewrite periph_button_eta.
    by destruct (Periph.Callback _); rewrite app_nil_r.
  - apply Forall_cons in Hsame as [Hev Hsame].
    rewrite on_edges_cons. unfold Periph.on_edge, Reach.candidates. simpl.
    destruct (Periph.isPressed (Periph.e_level ev)); simpl;
      [|by apply IH].
    change (Periph.isDebouncePassed (Periph.e_checked ev) btn)
      with (SpecGate.consider (Periph.DebounceTime (Periph.config btn))
              (Periph.lastPress btn) (Periph.e_checked ev)).
    destruct (SpecGate.consider _ _ _); simpl.
    + rewrite calls_of_accept, (IH _ _ Hsame). simpl. rewrite Hev.
      reflexivity.
    + rewrite calls_of_reject. by apply IH.
Qed.

(** The poll loop over any sequence of edges: its decisions, the last
    press it leaves and the calls it makes. *)
Lemma poll_loop_decisions (evs : list Periph.edge_event) :
  forall (btn : Periph.button) (cs : list (nat * string)),
    Periph.on_edges evs (btn, cs)
    = (Periph.mkButton (Periph.pin btn) (Periph.config btn)
         (Reach.loop_decisions (Periph.DebounceTime (Periph.config btn))
            (Periph.lastPress btn) evs).2,
       cs ++ SpecGate.calls_of (Periph.Callback (Periph.config btn))
               (Periph.PinName (Periph.config btn))
               (Reach.loop_decisions (Periph.DebounceTime (Periph.config btn))
                  (Periph.lastPress btn) evs).1).
Proof.
  induction evs as [|ev evs IH]; intros btn cs.
  - simpl. unfold SpecGate.calls_of. rewrite periph_button_eta.
    by destruct (Periph.Callback _); rewrite app_nil_r.
  - rewrite on_edges_cons. unfold Periph.on_edge.
    cbn [Reach.loop_decisions].
    destruct (Periph.isPressed (Periph.e_level ev)); simpl; [|by apply IH].
    change (Periph.isDebouncePassed (Periph.e_checked ev) btn)
      with (Sub (Periph.e_checked ev) (Periph.lastPress btn)
            >? Periph.DebounceTime (Periph.config btn)).
    destruct (_ >? _); simpl.
    + rewrite calls_of_accept, IH. reflexivity.
    + rewrite calls_of_reject. by apply IH.
Qed.

(** When every edge is handled with one clock reading, these are the
    decisions of the gate of the specification on the candidates. *)
Lemma loop_decisions_one_reading (window : Duration)
  (evs : list Periph.edge_event) :
  forall last,
    Forall (fun ev => Periph.e_updated ev = Periph.e_checked ev) evs ->
    Reach.loop_decisions window last evs
    = SpecGate.decisions (SpecGate.consider window) last (Reach.candidates evs).
Proof.
  induction evs as [|ev evs IH]; intros last Hsame; [reflexivity|].
  apply Forall_cons in Hsame as [Hev Hsame].
  cbn [Reach.loop_decisions]. unfold Reach.candidates. simpl.
  destruct (Periph.isPressed (Periph.e_level ev)); simpl; [|by apply IH].
  unfold SpecGate.consider at 1.
  destruct (_ >? _); rewrite ?Hev, IH by assumption; reflexivity.
Qed.

Lemma passes_iff (cfg : Gpiocdev.ButtonConfig) (last now : Time) :
  Reach.passes cfg last now = true
  <-> (Gpiocdev.DebounceTime cfg <= 0 \/ IsZero last = true
       \/ Sub now last > Gpiocdev.DebounceTime cfg ÷ 2).
Proof.
  unfold Reach.passes. rewrite negb_true_iff. apply burst_guard_false_iff.
Qed.

(** The handler of a registry entry over a sequence of events follows the
    gate run on its own guard. *)
Lemma handler_follows_gate (key : string) (evs : list Time) :
  forall (w : Gpiocdev.World) (btn : Gpiocdev.button),
    Gpiocdev.buttons w !! key = Some btn ->
    Gpiocdev.line_open w key = true ->
    exists w',
      Gpiocdev.deliver_all key evs w = Some w'
      /\ Gpiocdev.calls w'
         = Gpiocdev.calls w
           ++ SpecGate.calls_of (Gpiocdev.Callback (Gpiocdev.config btn))
                (Gpiocdev.registry_key (Gpiocdev.config btn) (Gpiocdev.chip btn)
                   (Gpiocdev.offset btn))
                (SpecGate.decisions (Reach.passes (Gpiocdev.config btn))
                   (Gpiocdev.last btn) evs).1
      /\ Gpiocdev.buttons w' !! key
         = Some (Gpiocdev.mkButton (Gpiocdev.line btn) (Gpiocdev.chip btn)
                   (Gpiocdev.offset btn) (Gpiocdev.config btn)
                   (Gpiocdev.lastPress btn)
                   (SpecGate.decisions (Reach.passes (Gpiocdev.config btn))
                      (Gpiocdev.last btn) evs).2)
      /\ forall key', key' <> key ->
                      Gpiocdev.buttons w' !! key' = Gpiocdev.buttons w !! key'.
Proof.
  induction evs as [|now evs IH]; intros w btn Hb Ho.
  - exists w. split; [reflexivity|]. simpl. rewrite button_eta.
    split; [|by split].
    unfold SpecGate.calls_of. by destruct (Gpiocdev.Callback _); rewrite app_nil_r.
  - cbn [Gpiocdev.deliver_all SpecGate.decisions].
    assert (Hp : Reach.passes (Gpiocdev.config btn) (Gpiocdev.last btn) now
                 = negb (Gpiocdev.burst_guard (Gpiocdev.config btn) now
                           (Gpiocdev.last btn))) by reflexivity.
    rewrite Hp. clear Hp.
    destruct (Gpiocdev.burst_guard (Gpiocdev.config btn) now (Gpiocdev.last btn))
      eqn:Hg; cbn [negb].
    + rewrite (deliver_dropped key now w btn Hb Ho Hg).
      destruct (IH w btn Hb Ho) as (w' & Hrun & Hc & Hk & Hother).
      exists w'. cbn [fst snd]. rewrite calls_of_reject. split; [exact Hrun|].
      split; [exact Hc|]. split; [exact Hk|exact Hother].
    + rewrite (deliver_accepted key now w btn Hb Ho Hg).
      set (btn1 := Gpiocdev.mkButton (Gpiocdev.line btn) (Gpiocdev.chip btn)
                     (Gpiocdev.offset btn) (Gpiocdev.config btn)
                     (Gpiocdev.lastPress btn) now).
      destruct (IH (Gpiocdev.mkWorld (<[key := btn1]> (Gpiocdev.buttons w))
                      match Gpiocdev.Callback (Gpiocdev.config btn) with
                      | Some f =>
                          Gpiocdev.calls w
                          ++ [(f, Gpiocdev.registry_key (Gpiocdev.config btn)
                                    (Gpiocdev.chip btn) (Gpiocdev.offset btn))]
                      | None => Gpiocdev.calls w
                      end) btn1)
        as (w' & Hrun & Hc & Hk & Hother).
      * simpl. apply lookup_insert_eq.
      * unfold Gpiocdev.line_open in *. simpl. rewrite lookup_insert_eq.
        rewrite Hb in Ho. by destruct btn as [[l|] ? ? ? ? ?].
      * exists w'. split; [exact Hrun|]. cbn [fst snd].
        rewrite calls_of_accept. split; [exact Hc|]. split; [exact Hk|].
        intros key' Hne. rewrite (Hother key' Hne). simpl.
        by rewrite lookup_insert_ne.
Qed.

End GateSequences.

(** ** The Debounce Gate of registered buttons *)
Section RegisteredGates.
Import GoTime.

Lemma periph_stored_window (h : Periph.Host) (cfg : Periph.ButtonConfig)
  (w : Periph.World) :
  (Periph.AddButton h cfg w).1 = None ->
  exists btn,
    Periph.buttons (Periph.bm (Periph.AddButton h cfg w).2) !! Periph.PinName cfg
    = Some (length (Periph.heap w))
    /\ Periph.heap (Periph.AddButton h cfg w).2 !! length (Periph.heap w) = Some btn
    /\ Periph.lastPress btn = zeroTime
    /\ Periph.DebounceTime (Periph.config btn)
       = (if Periph.DebounceTime cfg =? 0 then 50 * Millisecond
          else Periph.DebounceTime cfg).
Proof.
  intros Hok.
  destruct (AddButton_by_registers h cfg w) as [(_ & _ & Hne)|(_ & p & He)];
    [contradiction|].
  rewrite He. unfold Periph.registered. simpl. eexists.
  split; [apply lookup_insert_eq|].
  split; [rewrite lookup_app_r by lia; by rewrite Nat.sub_diag|].
  split; [reflexivity|]. simpl. apply periph_defaults_DebounceTime.
Qed.

Lemma cdev_stored_window (dev : Gpiocdev.Chardev) (cfg : Gpiocdev.ButtonConfig)
  (w : Gpiocdev.World) :
  (Gpiocdev.AddButton dev cfg w).1 = None ->
  exists btn,
    Gpiocdev.buttons (Gpiocdev.AddButton dev cfg w).2 !! Gpiocdev.PinName cfg
    = Some btn
    /\ Gpiocdev.last btn = zeroTime
    /\ Gpiocdev.DebounceTime (Gpiocdev.config btn)
       = (if Gpiocdev.DebounceTime cfg =? 0 then 50 * Millisecond
          else Gpiocdev.DebounceTime cfg).
Proof.
  intros Hok.
  destruct (cdev_AddButton_outcome dev cfg w)
    as [[err He]|(chip & offset & opts & Hr & _ & _ & He)];
    rewrite He in Hok |- *; [discriminate|].
  unfold Gpiocdev.registered. simpl.
  rewrite (resolved_key_is_PinName (Gpiocdev.apply_defaults cfg) chip offset)
    by (by rewrite cdev_defaults_PinName).
  rewrite cdev_defaults_PinName, lookup_insert_eq. eexists.
  split; [reflexivity|]. split; [reflexivity|]. simpl.
  apply cdev_defaults_DebounceTime.
Qed.

(** C1, as amended.  Poll variant: over every sequence of edges handled
    one after the other, each with one clock reading, the loop decides as
    the Debounce Gate of the specification does on the readings of the
    low edges: it accepts a candidate iff the time since the last accepted
    candidate exceeds the stored window (strictly), records the
    candidate as the last accepted one, and calls the callback once per
    accepted candidate.  When the clock is read twice for an edge, the
    check uses the first reading and the second is the one recorded.
    Push variant: over every sequence of events the handler decides by
    its own guard, which lets a candidate through iff the stored window
    is not positive, or none was let through before, or the time since
    the last one let through exceeds half the window; it records and
    calls back in the same way.  In both variants the gate of a
    registered button starts with no accepted candidate, and its stored
    window is the configured one, or 50 ms when the configuration leaves
    the window at 0: a configured window of 0 does not disable the
    gate. *)
Theorem debounce_gate_decisions :
  (forall (evs : list Periph.edge_event) (btn : Periph.button)
          (cs : list (nat * string)),
      Forall (fun ev => Periph.e_updated ev = Periph.e_checked ev) evs ->
      Periph.on_edges evs (btn, cs)
      = (Periph.mkButton (Periph.pin btn) (Periph.config btn)
           (SpecGate.decisions
              (SpecGate.consider (Periph.DebounceTime (Periph.config btn)))
              (Periph.lastPress btn) (Reach.candidates evs)).2,
         cs ++ SpecGate.calls_of (Periph.Callback (Periph.config btn))
                 (Periph.PinName (Periph.config btn))
                 (SpecGate.decisions
                    (SpecGate.consider (Periph.DebounceTime (Periph.config btn)))
                    (Periph.lastPress btn) (Reach.candidates evs)).1))
  /\ (forall (evs : list Periph.edge_event) (btn : Periph.button)
             (cs : list (nat * string)),
         Periph.on_edges evs (btn, cs)
         = (Periph.mkButton (Periph.pin btn) (Periph.config btn)
              (Reach.loop_decisions (Periph.DebounceTime (Periph.config btn))
                 (Periph.lastPress btn) evs).2,
            cs ++ SpecGate.calls_of (Periph.Callback (Periph.config btn))
                    (Periph.PinName (Periph.config btn))
                    (Reach.loop_decisions
                       (Periph.DebounceTime (Periph.config btn))
                       (Periph.lastPress btn) evs).1))
  /\ (forall (key : string) (evs : list Time) (w : Gpiocdev.World)
             (btn : Gpiocdev.button),
         Gpiocdev.buttons w !! key = Some btn ->
         Gpiocdev.line_open w key = true ->
         exists w',
           Gpiocdev.deliver_all key evs w = Some w'
           /\ Gpiocdev.calls w'
              = Gpiocdev.calls w
                ++ SpecGate.calls_of (Gpiocdev.Callback (Gpiocdev.config btn))
                     (Gpiocdev.registry_key (Gpiocdev.config btn)
                        (Gpiocdev.chip btn) (Gpiocdev.offset btn))
                     (SpecGate.decisions (Reach.passes (Gpiocdev.config btn))
                        (Gpiocdev.last btn) evs).1
           /\ (exists btn', Gpiocdev.buttons w' !! key = Some btn'
                            /\ Gpiocdev.last btn'
                               = (SpecGate.decisions
                                    (Reach.passes (Gpiocdev.config btn))
                                    (Gpiocdev.last btn) evs).2))
  /\ (forall (cfg : Gpiocdev.ButtonConfig) (last now : Time),
         Reach.passes cfg last now = true
         <-> (Gpiocdev.DebounceTime cfg <= 0 \/ IsZero last = true
              \/ Sub now last > Gpiocdev.DebounceTime cfg ÷ 2))
  /\ (forall (h : Periph.Host) (cfg : Periph.ButtonConfig) (w : Periph.World),
         (Periph.AddButton h cfg w).1 = None ->
         exists btn,
           Periph.buttons (Periph.bm (Periph.AddButton h cfg w).2)
             !! Periph.PinName cfg = Some (length (Periph.heap w))
           /\ Periph.heap (Periph.AddButton h cfg w).2 !! length (Periph.heap w)
              = Some btn
           /\ Periph.lastPress btn = zeroTime
           /\ Periph.DebounceTime (Periph.config btn)
              = (if Periph.DebounceTime cfg =? 0 then 50 * Millisecond
                 else Periph.DebounceTime cfg))
  /\ (forall (dev : Gpiocdev.Chardev) (cfg : Gpiocdev.ButtonConfig)
             (w : Gpiocdev.World),
         (Gpiocdev.AddButton dev cfg w).1 = None ->
         exists btn,
           Gpiocdev.buttons (Gpiocdev.AddButton dev cfg w).2
             !! Gpiocdev.PinName cfg = Some btn
           /\ Gpiocdev.last btn = zeroTime
           /\ Gpiocdev.DebounceTime (Gpiocdev.config btn)
              = (if Gpiocdev.DebounceTime cfg =? 0 then 50 * Millisecond
                 else Gpiocdev.DebounceTime cfg)).
Proof.
  split; [intros evs btn cs; apply poll_loop_follows_gate|].
  split; [exact poll_loop_decisions|].
  split; [|split; [exact passes_iff|split;
                   [exact periph_stored_window|exact cdev_stored_window]]].
  intros key evs w btn Hb Ho.
  destruct (handler_follows_gate key evs w btn Hb Ho)
    as (w' & Hrun & Hc & Hk & _).
  exists w'. split; [exact Hrun|]. split; [exact Hc|].
  eexists. split; [exact Hk|reflexivity].
Qed.

End RegisteredGates.

(** ** What the fallback stores *)
Section FallbackStores.
Import GoTime.

(** C6, as amended.  For a configuration that asks for a bias and has a
    positive window, [AddButton] requests the line with, in this order:
    debounce and bias, debounce without bias, bias without debounce, bare
    input.  The first request that is granted ends the search:
    [AddButton] returns no error and stores, under [PinName], a button
    with the line of that request, open, and with no event let through
    yet.  Its handler calls the callback for the first event and for
    every later event that comes more than half the window after the last
    one it let through, and drops the others; this is so whichever
    request was granted, also one without the debounce option.  Only when
    all four requests are refused does [AddButton] return the request
    error, with the cause of the last refusal, and store nothing. *)
Theorem fallback_requests_in_order (dev : Gpiocdev.Chardev)
  (cfg : Gpiocdev.ButtonConfig) (w : Gpiocdev.World)
  (chip : string) (offset : Z) (bias : Gpiocdev.LineReqOption) :
  Gpiocdev.resolveChipLine (Gpiocdev.PinName cfg) = inl (chip, offset) ->
  Gpiocdev.pullOption (Gpiocdev.Pull cfg) = Some bias ->
  Gpiocdev.DebounceTime (Gpiocdev.apply_defaults cfg) > 0 ->
  Gpiocdev.combos (Gpiocdev.apply_defaults cfg)
  = Gpiocdev.fallback_attempts (Gpiocdev.apply_defaults cfg) bias
  /\ (forall pre opts post,
         Gpiocdev.fallback_attempts (Gpiocdev.apply_defaults cfg) bias
         = pre ++ opts :: post ->
         Forall (Gpiocdev.refused dev chip offset) pre ->
         dev chip offset opts = None ->
         Gpiocdev.AddButton dev cfg w
         = (None, Gpiocdev.registered cfg chip offset opts w)
         /\ Gpiocdev.buttons (Gpiocdev.registered cfg chip offset opts w)
              !! Gpiocdev.PinName cfg
            = Some (Gpiocdev.mkButton (Some (Gpiocdev.mkLine opts false)) chip
                      offset (Gpiocdev.apply_defaults cfg) zeroTime zeroTime)
         /\ Gpiocdev.line_open (Gpiocdev.registered cfg chip offset opts w)
              (Gpiocdev.PinName cfg) = true
         /\ (forall evs,
                exists w',
                  Gpiocdev.deliver_all (Gpiocdev.PinName cfg) evs
                    (Gpiocdev.registered cfg chip offset opts w) = Some w'
                  /\ Gpiocdev.calls w'
                     = Gpiocdev.calls w
                       ++ SpecGate.calls_of (Gpiocdev.Callback cfg)
                            (Gpiocdev.PinName cfg)
                            (SpecGate.decisions
                               (Reach.passes (Gpiocdev.apply_defaults cfg))
                               zeroTime evs).1)
         /\ (forall now,
                Reach.passes (Gpiocdev.apply_defaults cfg) zeroTime now = true)
         /\ (forall last now,
                IsZero last = false ->
                Reach.passes (Gpiocdev.apply_defaults cfg) last now = true
                <-> Sub now last
                    > Gpiocdev.DebounceTime (Gpiocdev.apply_defaults cfg) ÷ 2))
  /\ (Forall (Gpiocdev.refused dev chip offset)
             (Gpiocdev.fallback_attempts (Gpiocdev.apply_defaults cfg) bias) ->
      exists cause,
        dev chip offset
            (Gpiocdev.base_options (Gpiocdev.apply_defaults cfg)
             ++ [Gpiocdev.WithEventHandler]) = Some cause
        /\ Gpiocdev.AddButton dev cfg w
           = (Some (Gpiocdev.ErrRequestLine chip offset cause), w))
  /\ ((Gpiocdev.AddButton dev cfg w).1 = None
      <-> Exists (fun opts => dev chip offset opts = None)
                 (Gpiocdev.fallback_attempts (Gpiocdev.apply_defaults cfg) bias)).
Proof.
  intros Hr Hb Hd.
  assert (Hc : Gpiocdev.combos (Gpiocdev.apply_defaults cfg)
               = Gpiocdev.fallback_attempts (Gpiocdev.apply_defaults cfg) bias).
  { apply combos_with_bias_and_debounce; [|assumption].
    by rewrite cdev_defaults_Pull. }
  assert (Hkey : Gpiocdev.registry_key (Gpiocdev.apply_defaults cfg) chip offset
                 = Gpiocdev.PinName cfg).
  { rewrite <- (cdev_defaults_PinName cfg).
    apply resolved_key_is_PinName. by rewrite cdev_defaults_PinName. }
  assert (Hcb : Gpiocdev.Callback (Gpiocdev.apply_defaults cfg)
                = Gpiocdev.Callback cfg).
  { unfold Gpiocdev.apply_defaults. by destruct (_ =? _). }
  split; [exact Hc|]. split; [|split].
  - intros pre opts post Hsplit Hpre Hok. rewrite <- Hc in Hsplit.
    assert (Hstored :
      Gpiocdev.buttons (Gpiocdev.registered cfg chip offset opts w)
        !! Gpiocdev.PinName cfg
      = Some (Gpiocdev.mkButton (Some (Gpiocdev.mkLine opts false)) chip
                offset (Gpiocdev.apply_defaults cfg) zeroTime zeroTime)).
    { unfold Gpiocdev.registered. simpl. by rewrite Hkey, lookup_insert_eq. }
    assert (Hopen : Gpiocdev.line_open (Gpiocdev.registered cfg chip offset opts w)
                      (Gpiocdev.PinName cfg) = true).
    { rewrite <- Hkey. apply registered_line_open. }
    split; [by apply (cdev_AddButton_granted dev cfg w chip offset pre opts post)|].
    split; [exact Hstored|]. split; [exact Hopen|]. split; [|split].
    + intros evs.
      destruct (handler_follows_gate (Gpiocdev.PinName cfg) evs _ _ Hstored Hopen)
        as (w' & Hrun & Hcalls & _).
      exists w'. split; [exact Hrun|]. rewrite Hcalls. simpl.
      by rewrite Hkey, Hcb.
    + intros now. apply passes_iff. right. left. reflexivity.
    + intros last now Hnz. rewrite passes_iff. split.
      * intros [Hle|[Hz|Hgt]]; [lia|congruence|exact Hgt].
      * intros Hgt. by right; right.
  - intros Hall. rewrite <- Hc in Hall.
    by apply cdev_AddButton_refused.
  - rewrite <- Hc.
    destruct (first_granted_or_all_refused dev chip offset
                (Gpiocdev.combos (Gpiocdev.apply_defaults cfg)))
      as [(pre & opts & post & Hsplit & Hpre & Hok)|Hall].
    + rewrite (cdev_AddButton_granted dev cfg w chip offset pre opts post
                 Hr Hsplit Hpre Hok).
      split; [intros _|reflexivity].
      rewrite Hsplit. apply Exists_app. right. by constructor.
    + destruct (cdev_AddButton_refused dev cfg w chip offset Hr Hall)
        as (cause & _ & ->).
      split; [discriminate|]. intros Hex.
      apply Exists_exists in Hex as (opts & Hin & Hok).
      rewrite Forall_forall in Hall. by destruct (Hall opts Hin).
Qed.

End FallbackStores.

Section GateWitnesses.
Import GoTime Sample.

(** The poll loop on a window of 50 ms and low edges at 0, 30, 50 and
    80 ms: calls at 0 and at 80 ms. *)
Lemma debounce_gate_decisions_witness :
  Periph.on_edges [low_at 0; low_at 30; low_at 50; low_at 80]
    (fresh_button (50 * Millisecond), [])
  = (Periph.updateLastPress (at_ms 80) (fresh_button (50 * Millisecond)),
     [(7%nat, "GPIO11"%string); (7%nat, "GPIO11"%string)]).
Proof.
  rewrite (proj1 debounce_gate_decisions
             [low_at 0; low_at 30; low_at 50; low_at 80]
             (fresh_button (50 * Millisecond)) []).
  - vm_compute. reflexivity.
  - repeat constructor.
Defined.

(** C1 fails on registered buttons in two ways.  The gate of the
    specification, on a window of 50 ms, rejects a candidate 30 ms after
    an accepted one; the handler of the push variant lets it through, so
    that events at 0, 30 and 80 ms give three calls.  The gate of the
    specification on a window of 0 accepts every candidate; a button
    registered with a window of 0 has the default window, and low edges
    at 0, 30 and 80 ms give two calls. *)
Lemma registered_gates_differ_from_the_gate :
  (SpecGate.decisions (SpecGate.consider (50 * Millisecond)) zeroTime
     [at_ms 0; at_ms 30; at_ms 80]).1 = [true; false; true]
  /\ Gpiocdev.calls <$>
       Gpiocdev.deliver_all "23" [at_ms 0; at_ms 30; at_ms 80] cdev_registered
     = Some [(7%nat, "23"%string); (7%nat, "23"%string); (7%nat, "23"%string)]
  /\ (SpecGate.decisions (SpecGate.consider 0) zeroTime
        [at_ms 0; at_ms 30; at_ms 80]).1 = [true; true; true]
  /\ (fun btn => (Periph.on_edges [low_at 0; low_at 30; low_at 80] (btn, [])).2)
       <$> Periph.heap
             (Periph.AddButton board (periph_config "GPIO11" 0)
                Periph.NewButtonManager).2 !! 0%nat
     = Some [(7%nat, "GPIO11"%string); (7%nat, "GPIO11"%string)].
Proof. repeat split; vm_compute; reflexivity. Qed.

(** On a line that grants bare inputs only, asking for a pull-up and a
    window of 50 ms still registers the button, through the last request;
    of events at 0, 10 and 30 ms the handler lets the first and the last
    through. *)
Lemma fallback_requests_in_order_witness :
  Gpiocdev.AddButton dev_bare (cdev_config "23" (50 * Millisecond) Gpiocdev.PullUp)
    Gpiocdev.NewButtonManager
  = (None,
     Gpiocdev.registered (cdev_config "23" (50 * Millisecond) Gpiocdev.PullUp)
       "gpiochip0" 23
       [Gpiocdev.AsInput; Gpiocdev.WithConsumer "gpio-buttons-go";
        Gpiocdev.WithRisingEdge; Gpiocdev.AsActiveLow; Gpiocdev.WithEventHandler]
       Gpiocdev.NewButtonManager)
  /\ exists w',
      Gpiocdev.deliver_all "23" [at_ms 0; at_ms 10; at_ms 30] cdev_registered
      = Some w'
      /\ Gpiocdev.calls w' = [(7%nat, "23"%string); (7%nat, "23"%string)].
Proof.
  destruct (fallback_requests_in_order dev_bare
              (cdev_config "23" (50 * Millisecond) Gpiocdev.PullUp)
              Gpiocdev.NewButtonManager "gpiochip0" 23 Gpiocdev.WithPullUp)
    as (_ & Hfirst & _).
  - reflexivity.
  - reflexivity.
  - reflexivity.
  - destruct (Hfirst [_; _; _] _ [] eq_refl) as (Hadd & _ & _ & Hevs & _).
    + repeat constructor; unfold Gpiocdev.refused; vm_compute; discriminate.
    + reflexivity.
    + split; [exact Hadd|].
      destruct (Hevs [at_ms 0; at_ms 10; at_ms 30]) as (w' & Hrun & Hcalls).
      exists w'. split; [exact Hrun|]. rewrite Hcalls. vm_compute. reflexivity.
Defined.

(** C6 fails in one part, the window of the stored button.  On a line
    that grants bare inputs only, the request that goes through carries
    no debounce option; the gate of the specification, on the configured
    window of 50 ms, rejects a candidate 30 ms after an accepted one, and
    the stored button calls back for both. *)
Lemma bare_fallback_keeps_half_the_window :
  Gpiocdev.line <$> Gpiocdev.buttons cdev_registered !! "23"%string
  = Some (Some (Gpiocdev.mkLine
                  [Gpiocdev.AsInput; Gpiocdev.WithConsumer "gpio-buttons-go";
                   Gpiocdev.WithRisingEdge; Gpiocdev.AsActiveLow;
                   Gpiocdev.WithEventHandler] false))
  /\ (SpecGate.decisions (SpecGate.consider (50 * Millisecond)) zeroTime
        [at_ms 0; at_ms 30]).1 = [true; false]
  /\ Gpiocdev.calls <$> Gpiocdev.deliver_all "23" [at_ms 0; at_ms 30] cdev_registered
     = Some [(7%nat, "23"%string); (7%nat, "23"%string)].
Proof. repeat split; vm_compute; reflexivity. Qed.

End GateWitnesses.
